(** * Reading journal: AI gateway normalisation and client-side data repair

    A shallow embedding of the parts of the repository that carry a design
    contract:

    - [server/index.mjs]: [toInt], [clampText], [readCount],
      [parseModelJson], [normalizeQuestions], [normalizeGrades];
    - [src/app/utils.ts]: [clampStr], [clampInt];
    - [src/app/data.ts]: [normalizeUserData] and its predicates;
    - [src/App.tsx]: the state updaters of [pushHistory] and of the
      delete-book confirmation;
    - [src/app/hooks/use-ai-coach.ts]: [generateAIQuestions].

    The gateway and the data repair work on untyped values (the result of
    [JSON.parse]), so they are embedded over a model of JavaScript values
    (module [JS]).  The application state updaters work on the typed
    records of [src/app/types.ts] (module [App]). *)

From Stdlib Require Import ZArith QArith Qround Qabs Qpower List Ascii String Bool Lia Lqa.
From stdpp Require Import base gmap sets list strings.

Set Warnings "-register-all,-abstract-large-number".
Local Open Scope Z_scope.

(** ** JavaScript values *)

Module JS.

(** A string is a sequence of UTF-16 code units; [length], [slice] and
    [trim] count code units, as the engine does. *)
Definition jsstring := list N.

Definition lit (s : string) : jsstring := N_of_ascii <$> list_ascii_of_string s.

(** A number is NaN, an infinity or a finite value.  The finite values are
    given by their exact rational value (every double is a rational); the
    sign of zero is not represented: [Set.has], [===], [Math.max(0, _)] and
    [JSON.stringify] do not tell the two zeros apart. *)
Inductive jsnum :=
| NaN
| Inf (negative : bool)
| Fin (q : Q).

(** The values [JSON.parse] builds, and [undefined].  An object is the list
    of its own properties. *)
Inductive jsval :=
| JUndefined
| JNull
| JBool (b : bool)
| JNum (n : jsnum)
| JStr (s : jsstring)
| JArr (items : list jsval)
| JObj (props : list (jsstring * jsval)).

Inductive exn :=
| TypeError
| Error (message : jsstring)
| HttpError (status : Z) (message : jsstring).

(** The outcome of a call: a value, or a thrown exception. *)
Inductive result (A : Type) :=
| Ok (a : A)
| Throw (e : exn).
Arguments Ok {A} a.
Arguments Throw {A} e.

#[export] Instance result_ret : MRet result := fun A a => Ok a.
#[export] Instance result_bind : MBind result := fun A B f m =>
  match m with
  | Ok a => f a
  | Throw e => Throw e
  end.

Definition is_ok {A} (r : result A) : bool :=
  match r with
  | Ok _ => true
  | Throw _ => false
  end.

(** [Array.prototype.filter] and [map] with a callback that may throw. *)
Fixpoint filterM {A} (p : A -> result bool) (l : list A) : result (list A) :=
  match l with
  | [] => Ok []
  | x :: l' =>
      b ← p x;
      r ← filterM p l';
      Ok (if b : bool then x :: r else r)
  end.

Fixpoint mapR {A B} (f : A -> result B) (l : list A) : result (list B) :=
  match l with
  | [] => Ok []
  | x :: l' =>
      y ← f x;
      r ← mapR f l';
      Ok (y :: r)
  end.

(** *** Strings *)

Definition jsstring_eqb (a b : jsstring) : bool := bool_decide (a = b).

(** WhiteSpace and LineTerminator code units: what [trim] strips and what
    the regular expression class [\s] matches. *)
Definition is_white_space (c : N) : bool :=
  ((9 <=? c) && (c <=? 13) || (c =? 32) || (c =? 160) || (c =? 5760)
   || (8192 <=? c) && (c <=? 8202) || (c =? 8232) || (c =? 8233)
   || (c =? 8239) || (c =? 8287) || (c =? 12288) || (c =? 65279))%N.

Fixpoint trim_start (s : jsstring) : jsstring :=
  match s with
  | [] => []
  | c :: s' => if is_white_space c then trim_start s' else s
  end.

Definition trim_end (s : jsstring) : jsstring := reverse (trim_start (reverse s)).

Definition trim (s : jsstring) : jsstring := trim_end (trim_start s).

(** [s.slice(from, to)] for [0 <= from] and [0 <= to]. *)
Definition slice {A} (l : list A) (from to : nat) : list A :=
  take (to - from) (drop from l).

(** Decimal digits of a natural number, as in a template literal. *)
Fixpoint decimal_digits (fuel : nat) (n : N) (acc : jsstring) : jsstring :=
  match fuel with
  | O => acc
  | S fuel' =>
      let acc' := (48 + n mod 10)%N :: acc in
      if (n <? 10)%N then acc' else decimal_digits fuel' (n / 10)%N acc'
  end.

Definition decimal (n : nat) : jsstring := decimal_digits (S n) (N.of_nat n) [].

(** ASCII lower-casing, enough for the case-insensitive match of the
    letters [json]. *)
Definition ascii_lower (c : N) : N :=
  if ((65 <=? c) && (c <=? 90))%N then (c + 32)%N else c.

(** *** Conversion to a number *)

Definition pow2 (e : Z) : Q := Qpower (2 # 1) e.

(** [floor (log2 q)] for [0 < q]. *)
Definition binade (q : Q) : Z :=
  let e := Z.log2 (Qnum q) - Z.log2 (Zpos (Qden q)) in
  if Qle_bool (pow2 e) q then e else e - 1.

Definition round_half_even (q : Q) : Z :=
  let f := Qfloor q in
  match Qcompare (q - inject_Z f) (1 # 2) with
  | Lt => f
  | Gt => f + 1
  | Eq => if Z.even f then f else f + 1
  end.

(** The double nearest to a rational (ties to even; 53-bit significand,
    subnormals down to 2^-1074, overflow to an infinity). *)
Definition round_double (q : Q) : jsnum :=
  if Qeq_bool q 0 then Fin 0
  else
    let a := Qabs q in
    let p := Z.max (binade a - 52) (-1074) in
    let m := round_half_even (a / pow2 p) in
    let v := (inject_Z m * pow2 p)%Q in
    if Qle_bool (pow2 1024) v then Inf (negb (Qle_bool 0 q))
    else Fin (Qred (if Qle_bool 0 q then v else - v)).

Definition digit_of (base : Z) (c : N) : option Z :=
  let c := ascii_lower c in
  let d :=
    if ((48 <=? c) && (c <=? 57))%N then Z.of_N c - 48
    else if ((97 <=? c) && (c <=? 122))%N then Z.of_N c - 87
    else base in
  if d <? base then Some d else None.

(** Reads the longest run of digits: the value accumulated, the number of
    digits read, and the rest of the string. *)
Fixpoint read_digits (base : Z) (s : jsstring) (acc : Z) (n : nat) : Z * nat * jsstring :=
  match s with
  | [] => (acc, n, [])
  | c :: s' =>
      match digit_of base c with
      | Some d => read_digits base s' (acc * base + d) (S n)
      | None => (acc, n, s)
      end
  end.

Definition read_sign (s : jsstring) : bool * jsstring :=
  match s with
  | 43%N :: s' => (false, s')
  | 45%N :: s' => (true, s')
  | _ => (false, s)
  end.

(** ExponentPart: [e] or [E], an optional sign, at least one digit. *)
Definition read_exponent (s : jsstring) : option (Z * jsstring) :=
  match s with
  | c :: s' =>
      if (ascii_lower c =? 101)%N then
        let '(neg, s1) := read_sign s' in
        let '(e, n, s2) := read_digits 10 s1 0 O in
        match n with
        | O => None
        | S _ => Some (if neg : bool then - e else e, s2)
        end
      else Some (0, s)
  | [] => Some (0, [])
  end.

(** StrUnsignedDecimalLiteral, without [Infinity]. *)
Definition unsigned_decimal (s : jsstring) : option Q :=
  let '(i, ni, s1) := read_digits 10 s 0 O in
  let '(f, nf, s2) :=
    match s1 with
    | 46%N :: s1' => read_digits 10 s1' 0 O
    | _ => (0, O, s1)
    end in
  match (ni + nf)%nat with
  | O => None
  | S _ =>
      match read_exponent s2 with
      | Some (e, []) =>
          Some ((inject_Z (i * 10 ^ Z.of_nat nf + f)) * Qpower (10 # 1) (e - Z.of_nat nf))%Q
      | _ => None
      end
  end.

(** NonDecimalIntegerLiteral: [0x], [0o] or [0b] and at least one digit. *)
Definition non_decimal (s : jsstring) : option Q :=
  match s with
  | 48%N :: c :: s' =>
      let base :=
        match ascii_lower c with
        | 120%N => 16
        | 111%N => 8
        | 98%N => 2
        | _ => 0
        end in
      match read_digits base s' 0 O with
      | (v, S _, []) => Some (inject_Z v)
      | _ => None
      end
  | _ => None
  end.

(** StringToNumber: the value of a StringNumericLiteral, NaN when the
    string is not one. *)
Definition StringToNumber (s : jsstring) : jsnum :=
  let t := trim s in
  match t with
  | [] => Fin 0
  | _ =>
      match non_decimal t with
      | Some q => round_double q
      | None =>
          let '(neg, u) := read_sign t in
          if jsstring_eqb u (lit "Infinity") then Inf neg
          else
            match unsigned_decimal u with
            | Some q => round_double (if neg then - q else q)
            | None => NaN
            end
      end
  end.

Fixpoint lookup_prop (k : jsstring) (props : list (jsstring * jsval)) : option jsval :=
  match props with
  | [] => None
  | (k', v) :: props' => if jsstring_eqb k' k then Some v else lookup_prop k props'
  end.

(** Whether the conversion of [v] to a string throws.  A plain object
    converts through [Object.prototype.toString], unless it has an own
    property [toString]: a parsed value is never callable, so no conversion
    is left and the engine throws a TypeError.  An array converts through
    [join(",")], which converts each element that is neither [null] nor
    [undefined]. *)
Fixpoint to_string_throws (v : jsval) : bool :=
  match v with
  | JObj props =>
      match lookup_prop (lit "toString") props with
      | Some _ => true
      | None => false
      end
  | JArr items => existsb to_string_throws items
  | _ => false
  end.

(** [Number(v)].  An array or an object is converted to a string first.
    The string of a plain object and the string of an array of two or more
    elements (it has a comma) are not numeric; the string of a one-element
    array is the string of its element, and the string of a number parses
    back to the number. *)
Fixpoint ToNumber (v : jsval) : result jsnum :=
  match v with
  | JUndefined => Ok NaN
  | JNull => Ok (Fin 0)
  | JBool b => Ok (Fin (if b then 1 else 0))
  | JNum n => Ok n
  | JStr s => Ok (StringToNumber s)
  | JArr items =>
      if existsb to_string_throws items then Throw TypeError
      else
        match items with
        | [] => Ok (Fin 0)
        | [x] =>
            match x with
            | JUndefined | JNull => Ok (Fin 0)
            | JBool _ => Ok NaN
            | JNum n => Ok n
            | JStr s => Ok (StringToNumber s)
            | JArr _ => ToNumber x
            | JObj _ => Ok NaN
            end
        | _ => Ok NaN
        end
  | JObj _ => if to_string_throws v then Throw TypeError else Ok NaN
  end.

Definition isFinite (n : jsnum) : bool :=
  match n with
  | Fin _ => true
  | _ => false
  end.

(** [Math.round]: the nearest integer, halves towards +infinity. *)
Definition Math_round (q : Q) : Z := Qfloor (q + (1 # 2)).

Definition of_int (z : Z) : jsval := JNum (Fin (inject_Z z)).

(** [n > max] for a number [n] and an integer [max]. *)
Definition num_gt (n : jsnum) (max : Z) : bool :=
  match n with
  | NaN => false
  | Inf negative => negb negative
  | Fin q => negb (Qle_bool q (inject_Z max))
  end.

(** *** Property access, truthiness, equality *)

(** [v?.k], and [v.k] on a value that is neither [null] nor [undefined],
    for the property names this program reads: none of them is a built-in
    property of strings, numbers, booleans or arrays. *)
Definition get (v : jsval) (k : string) : jsval :=
  match v with
  | JObj props => default JUndefined (lookup_prop (lit k) props)
  | _ => JUndefined
  end.

(** [v.k]: reading a property of [null] or [undefined] throws. *)
Definition get_prop (v : jsval) (k : string) : result jsval :=
  match v with
  | JUndefined | JNull => Throw TypeError
  | _ => Ok (get v k)
  end.

Definition is_string (v : jsval) : bool :=
  match v with
  | JStr _ => true
  | _ => false
  end.

Definition is_array (v : jsval) : bool :=
  match v with
  | JArr _ => true
  | _ => false
  end.

Definition truthy (v : jsval) : bool :=
  match v with
  | JUndefined | JNull => false
  | JBool b => b
  | JNum NaN => false
  | JNum (Inf _) => true
  | JNum (Fin q) => negb (Qeq_bool q 0)
  | JStr s => negb (bool_decide (s = []))
  | JArr _ | JObj _ => true
  end.

(** [a ?? b] *)
Definition nullish_or (a b : jsval) : jsval :=
  match a with
  | JUndefined | JNull => b
  | _ => a
  end.

Definition num_eqb (a b : jsnum) : bool :=
  match a, b with
  | Inf x, Inf y => bool_decide (x = y)
  | Fin p, Fin q => Qeq_bool p q
  | _, _ => false
  end.

(** [a === b].  Values are trees as [JSON.parse] builds them: two fields
    never hold the same object, so an array or an object is equal to
    nothing else. *)
Definition strict_eq (a b : jsval) : bool :=
  match a, b with
  | JUndefined, JUndefined => true
  | JNull, JNull => true
  | JBool x, JBool y => bool_decide (x = y)
  | JNum x, JNum y => num_eqb x y
  | JStr x, JStr y => jsstring_eqb x y
  | _, _ => false
  end.

(** SameValueZero, the equality of [Set.prototype.has]: as [===], and NaN
    equals NaN. *)
Definition same_value_zero (a b : jsval) : bool :=
  match a, b with
  | JNum NaN, JNum NaN => true
  | _, _ => strict_eq a b
  end.

(** [new Set(items).has(v)] *)
Definition Set_has (items : list jsval) (v : jsval) : bool :=
  existsb (same_value_zero v) items.

End JS.

(** ** The AI gateway: [server/index.mjs] *)

Module Server.
Import JS.

(** [toInt(value, fallback)]: the result is an integer-valued number. *)
Definition toInt (value : jsval) (fallback : Z) : result Z :=
  n ← ToNumber value;
  if negb (isFinite n) then Ok fallback
  else
    match n with
    | Fin q => Ok (Math_round q)
    | _ => Ok fallback
    end.

Definition clampText (value : jsval) (maxLen : nat) : jsstring :=
  match value with
  | JStr s =>
      let out := trim s in
      if (maxLen <? length out)%nat then slice out 0 maxLen else out
  | _ => []
  end.

Definition readCount (value : jsval) : result Z :=
  n ← toInt value 6;
  Ok (Z.max 1 (Z.min 15 n)).

(** *** [parseModelJson] *)

Fixpoint starts_with (pat s : jsstring) : bool :=
  match pat, s with
  | [], _ => true
  | p :: pat', c :: s' => (p =? c)%N && starts_with pat' s'
  | _ :: _, [] => false
  end.

(** Position of the first occurrence of [pat] in [s]. *)
Fixpoint find_first (pat s : jsstring) : option nat :=
  if starts_with pat s then Some O
  else
    match s with
    | [] => None
    | _ :: s' => S <$> find_first pat s'
    end.

(** Position of the last occurrence of the code unit [c], where [i] is the
    position of the head of [s]. *)
Fixpoint find_last (c : N) (s : jsstring) (i : nat) (found : option nat) : option nat :=
  match s with
  | [] => found
  | c' :: s' => find_last c s' (S i) (if (c =? c')%N then Some i else found)
  end.

(** [text.indexOf(pat)] and [text.lastIndexOf(c)]: -1 when absent. *)
Definition indexOf (text pat : jsstring) : Z :=
  match find_first pat text with
  | Some i => Z.of_nat i
  | None => -1
  end.

Definition lastIndexOf (text : jsstring) (c : N) : Z :=
  match find_last c text O None with
  | Some i => Z.of_nat i
  | None => -1
  end.

Definition fence : jsstring := lit "```".

(** What follows an opening fence: an optional [json] in any letter case,
    a run of white space, then the capture, which is lazy and ends at the
    next fence.  Giving back the optional [json] or some of the white space
    cannot reach a closing fence that the greedy choice misses, since none
    of these code units is a backquote. *)
Definition fenced_capture (rest : jsstring) : option jsstring :=
  let rest1 :=
    if starts_with (lit "json") (ascii_lower <$> take 4 rest) then drop 4 rest else rest in
  let rest2 := trim_start rest1 in
  n ← find_first fence rest2;
  Some (take n rest2).

(** Group 1 of the leftmost match of the regular expression
    [/```(?:json)?\s*([\s\S]*?)```/i] in [text]. *)
Fixpoint match_fenced (text : jsstring) : option jsstring :=
  match text with
  | [] => None
  | _ :: text' =>
      if starts_with fence text then
        match fenced_capture (drop 3 text) with
        | Some group1 => Some group1
        | None => match_fenced text'
        end
      else match_fenced text'
  end.

Definition bad_json : exn := HttpError 502 (lit "Provider did not return valid JSON.").

Section ParseModelJson.

(** [JSON.parse]: [None] stands for the SyntaxError it throws. *)
Variable JSON_parse : jsstring -> option jsval.

(** The candidates, in the order they are tried. *)
Definition attempts_of (text : jsstring) : list jsstring :=
  let attempts := [text] in
  let attempts :=
    match match_fenced text with
    | Some ((_ :: _) as group1) => attempts ++ [trim group1]
    | _ => attempts
    end in
  let firstBrace := indexOf text (lit "{") in
  let lastBrace := lastIndexOf text 125%N in
  if (0 <=? firstBrace) && (firstBrace <? lastBrace)
  then attempts ++ [slice text (Z.to_nat firstBrace) (Z.to_nat (lastBrace + 1))]
  else attempts.

Fixpoint first_parse (attempts : list jsstring) : result jsval :=
  match attempts with
  | [] => Throw bad_json
  | candidate :: attempts' =>
      match JSON_parse candidate with
      | Some v => Ok v
      | None => first_parse attempts'
      end
  end.

Definition parseModelJson (content : jsval) : result jsval :=
  let text := clampText content 25000 in
  first_parse (attempts_of text).

End ParseModelJson.

(** *** [normalizeQuestions] *)

Record Question := {
  id : jsstring;
  question : jsstring;
  rubric : jsstring
}.

(** The body of the [for] loop, with [out] and [usedIds] threaded through;
    [break] returns [out]. *)
Fixpoint normalizeQuestions_loop (expectedCount : Z) (rows : list jsval)
    (out : list Question) (usedIds : gset jsstring) : list Question :=
  match rows with
  | [] => out
  | row :: rows' =>
      if expectedCount <=? Z.of_nat (length out) then out
      else
        let question := clampText (get row "question") 500 in
        if bool_decide (question = []) then
          normalizeQuestions_loop expectedCount rows' out usedIds
        else
          let id := clampText (get row "id") 120 in
          let id :=
            if bool_decide (id = []) || bool_decide (id ∈ usedIds)
            then lit "q" ++ decimal (length out + 1)
            else id in
          normalizeQuestions_loop expectedCount rows'
            (out ++ [{| id := id; question := question;
                        rubric := clampText (get row "rubric") 2000 |}])
            ({[id]} ∪ usedIds)
  end.

Definition normalizeQuestions (parsed : jsval) (expectedCount : Z) : list Question :=
  let rows :=
    match get parsed "questions" with
    | JArr rows => rows
    | _ => []
    end in
  normalizeQuestions_loop expectedCount rows [] ∅.

(** *** [normalizeGrades] *)

(** A row of the validated request's [answers]. *)
Record Answer := {
  answer_questionId : jsstring;
  answer_question : jsstring;
  studentAnswer : jsstring
}.

(** A row of [out] before the final [map]. *)
Record GradedRow := {
  row_questionId : jsstring;
  row_score : Z;
  row_feedback : jsstring;
  row_idealAnswer : jsstring;
  row_question : jsstring;
  row_studentAnswer : jsstring
}.

Record Grade := {
  questionId : jsstring;
  score : Z;
  feedback : jsstring;
  idealAnswer : jsstring
}.

(** [new Map(entries)]: a later entry replaces an earlier one with the same
    key. *)
Definition Map_of {V} (entries : list (jsstring * V)) : gmap jsstring V :=
  foldl (fun m e => <[e.1 := e.2]> m) ∅ entries.

Fixpoint normalizeGrades_loop (answerById : gmap jsstring Answer) (rows : list jsval)
    (out : list GradedRow) : result (list GradedRow) :=
  match rows with
  | [] => Ok out
  | row :: rows' =>
      let questionId := clampText (get row "questionId") 120 in
      match answerById !! questionId with
      | Some answer =>
          if bool_decide (questionId = []) then normalizeGrades_loop answerById rows' out
          else
            n ← toInt (get row "score") 0;
            normalizeGrades_loop answerById rows'
              (out ++ [{| row_questionId := questionId;
                          row_score := Z.max 0 (Z.min 100 n);
                          row_feedback := clampText (get row "feedback") 2000;
                          row_idealAnswer := clampText (get row "idealAnswer") 2000;
                          row_question := answer_question answer;
                          row_studentAnswer := studentAnswer answer |}])
      | None => normalizeGrades_loop answerById rows' out
      end
  end.

Definition normalizeGrades (parsed : jsval) (answers : list Answer) : result (list Grade) :=
  let rows :=
    match get parsed "results" with
    | JArr rows => rows
    | _ => []
    end in
  let answerById := Map_of ((fun row => (answer_questionId row, row)) <$> answers) in
  out ← normalizeGrades_loop answerById rows [];
  Ok ((fun result =>
         {| questionId := row_questionId result;
            score := row_score result;
            feedback := row_feedback result;
            idealAnswer := row_idealAnswer result |}) <$> (out : list GradedRow)).

(** *** Request validation *)

(** [a || b] *)
Definition or_else (a b : jsval) : jsval := if truthy a then a else b.

(** [v && typeof v === "object"] *)
Definition is_object (v : jsval) : bool :=
  match v with
  | JArr _ | JObj _ => true
  | _ => false
  end.

(** [v && typeof v === "object" ? v : {}] *)
Definition object_or_empty (v : jsval) : jsval := if is_object v then v else JObj [].

Definition dquote (s : jsstring) : jsstring := [34%N] ++ s ++ [34%N].

Fixpoint drop_slashes (s : jsstring) : jsstring :=
  match s with
  | 47%N :: s' => drop_slashes s'
  | _ => s
  end.

(** [s.replace(/\/+$/, "")]: [s] without the slashes it ends with. *)
Definition strip_trailing_slashes (s : jsstring) : jsstring :=
  reverse (drop_slashes (reverse s)).

(** The character class of [/^[a-zA-Z0-9._:/-]+$/]. *)
Definition is_model_char (c : N) : bool :=
  ((97 <=? c) && (c <=? 122) || (65 <=? c) && (c <=? 90) || (48 <=? c) && (c <=? 57)
   || (c =? 46) || (c =? 95) || (c =? 58) || (c =? 47) || (c =? 45))%N.

Definition PROVIDERS : list jsstring := [lit "ollama"; lit "openai"; lit "anthropic"].

Module BookInput.
Record t := {
  title : jsstring;
  author : jsstring
}.
End BookInput.

Module ChapterInput.
Record t := {
  label : jsstring;
  summary : jsstring;
  takeaways : jsstring;
  reflection : jsstring
}.
End ChapterInput.

Module GradeChapterInput.
Record t := {
  label : jsstring;
  summary : jsstring;
  takeaways : jsstring
}.
End GradeChapterInput.

(** What [parseGenerateRequest] returns. *)
Module GenerateInput.
Record t := {
  provider : jsstring;
  model : jsstring;
  ollamaBaseUrl : jsstring;
  book : BookInput.t;
  chapter : ChapterInput.t;
  count : Z;
  difficulty : jsstring;
  style : jsstring
}.
End GenerateInput.

(** What [parseGradeRequest] returns. *)
Module GradeInput.
Record t := {
  provider : jsstring;
  model : jsstring;
  ollamaBaseUrl : jsstring;
  book : BookInput.t;
  chapter : GradeChapterInput.t;
  answers : list Answer
}.
End GradeInput.

(** [readHeader(value)], for the value of a request header: a string, an
    array of strings, or [undefined]. *)
Definition readHeader (value : jsval) : jsstring :=
  match value with
  | JStr s => s
  | JArr (JStr s :: _) => s
  | _ => []
  end.

Definition invalid_body : exn := HttpError 400 (lit "Invalid request body.").

Definition no_answer : exn := HttpError 400 (lit "At least one answer is required.").

Definition no_questions : exn := HttpError 502 (lit "AI provider returned no usable questions.").

Definition no_grades : exn := HttpError 502 (lit "AI provider returned no usable grade results.").

(** The [answers] constant of [parseGradeRequest]. *)
Definition answers_of (answersRaw : list jsval) : list Answer :=
  filter (fun row => answer_questionId row ≠ [] /\ answer_question row ≠ []
                     /\ studentAnswer row ≠ [])
    ((fun row =>
        let safeRow := object_or_empty row in
        {| answer_questionId := clampText (get safeRow "questionId") 120;
           answer_question := clampText (get safeRow "question") 700;
           studentAnswer := clampText (get safeRow "studentAnswer") 10000 |})
       <$> slice answersRaw 0 20).

Section Requests.

(** The engine and the environment: [String.prototype.toLowerCase];
    [String(v)] for a [v] that is not a string; the [protocol] of
    [new URL(value)], [None] when the constructor throws; the constants read
    from [process.env] when the module is loaded. *)
Variable toLowerCase : jsstring -> jsstring.
Variable String_of : jsval -> result jsstring.
Variable URL_protocol : jsstring -> option jsstring.
Variable DEFAULT_OLLAMA_BASE_URL : jsstring.
Variables OLLAMA_MODEL OPENAI_MODEL ANTHROPIC_MODEL : jsstring.
Variables OPENAI_API_KEY ANTHROPIC_API_KEY : option jsstring.

(** [DEFAULT_MODEL_BY_PROVIDER[provider]], for a [provider] that
    [readProvider] returned. *)
Definition DEFAULT_MODEL_BY_PROVIDER (provider : jsstring) : jsval :=
  if bool_decide (provider = lit "ollama") then JStr OLLAMA_MODEL
  else if bool_decide (provider = lit "openai") then JStr OPENAI_MODEL
  else if bool_decide (provider = lit "anthropic") then JStr ANTHROPIC_MODEL
  else JUndefined.

Definition withNoTrailingSlash (url : jsval) : result jsstring :=
  s ← match nullish_or url (JStr []) with
      | JStr s => Ok s
      | v => String_of v
      end;
  Ok (strip_trailing_slashes (trim s)).

Definition sanitizeModel (provider : jsstring) (modelRaw : jsval) : result jsstring :=
  let model :=
    clampText (or_else (or_else modelRaw (DEFAULT_MODEL_BY_PROVIDER provider))
                       (DEFAULT_MODEL_BY_PROVIDER (lit "ollama")))
              120 in
  if bool_decide (model = []) then Throw (HttpError 400 (lit "Model is required."))
  else if negb (forallb is_model_char model)
  then Throw (HttpError 400 (lit "Model contains invalid characters."))
  else Ok model.

Definition sanitizeBaseUrl (urlRaw : jsval) : result jsstring :=
  value ← withNoTrailingSlash (or_else urlRaw (JStr DEFAULT_OLLAMA_BASE_URL));
  match URL_protocol value with
  | None => Throw (HttpError 400 (lit "Invalid Ollama base URL."))
  | Some protocol =>
      if negb (jsstring_eqb protocol (lit "http:")) && negb (jsstring_eqb protocol (lit "https:"))
      then Throw (HttpError 400 (lit "Ollama base URL must use http or https."))
      else Ok value
  end.

Definition readProvider (value : jsval) : result jsstring :=
  let provider := toLowerCase (clampText value 20) in
  if bool_decide (provider ∈ PROVIDERS) then Ok provider
  else Throw (HttpError 400
                (lit "Provider must be one of: " ++ dquote (lit "ollama") ++ lit ", "
                 ++ dquote (lit "openai") ++ lit ", " ++ dquote (lit "anthropic") ++ lit ".")).

Definition readDifficulty (value : jsval) : jsstring :=
  let difficulty := toLowerCase (clampText value 20) in
  if bool_decide (difficulty = lit "easy") || bool_decide (difficulty = lit "medium")
     || bool_decide (difficulty = lit "hard") || bool_decide (difficulty = lit "mixed")
  then difficulty
  else lit "mixed".

Definition readStyle (value : jsval) : jsstring :=
  let style := toLowerCase (clampText value 32) in
  if bool_decide (style = lit "comprehension") || bool_decide (style = lit "critical_thinking")
     || bool_decide (style = lit "mixed")
  then style
  else lit "comprehension".

Definition parseGenerateRequest (body : jsval) : result GenerateInput.t :=
  if negb (truthy body) || negb (is_object body) then Throw invalid_body
  else
    provider ← readProvider (get body "provider");
    model ← sanitizeModel provider (get body "model");
    ollamaBaseUrl ← sanitizeBaseUrl (get body "ollamaBaseUrl");
    let book := object_or_empty (get body "book") in
    let chapter := object_or_empty (get body "chapter") in
    count ← readCount (get body "count");
    Ok {| GenerateInput.provider := provider;
          GenerateInput.model := model;
          GenerateInput.ollamaBaseUrl := ollamaBaseUrl;
          GenerateInput.book :=
            {| BookInput.title := clampText (get book "title") 300;
               BookInput.author := clampText (get book "author") 300 |};
          GenerateInput.chapter :=
            {| ChapterInput.label := clampText (get chapter "label") 300;
               ChapterInput.summary := clampText (get chapter "summary") 7000;
               ChapterInput.takeaways := clampText (get chapter "takeaways") 5000;
               ChapterInput.reflection := clampText (get chapter "reflection") 5000 |};
          GenerateInput.count := count;
          GenerateInput.difficulty := readDifficulty (get body "difficulty");
          GenerateInput.style := readStyle (get body "style") |}.

Definition parseGradeRequest (body : jsval) : result GradeInput.t :=
  if negb (truthy body) || negb (is_object body) then Throw invalid_body
  else
    provider ← readProvider (get body "provider");
    model ← sanitizeModel provider (get body "model");
    ollamaBaseUrl ← sanitizeBaseUrl (get body "ollamaBaseUrl");
    let book := object_or_empty (get body "book") in
    let chapter := object_or_empty (get body "chapter") in
    let answersRaw :=
      match get body "answers" with
      | JArr items => items
      | _ => []
      end in
    let answers := answers_of answersRaw in
    if bool_decide (length answers = O) then Throw no_answer
    else
      Ok {| GradeInput.provider := provider;
            GradeInput.model := model;
            GradeInput.ollamaBaseUrl := ollamaBaseUrl;
            GradeInput.book :=
              {| BookInput.title := clampText (get book "title") 300;
                 BookInput.author := clampText (get book "author") 300 |};
            GradeInput.chapter :=
              {| GradeChapterInput.label := clampText (get chapter "label") 300;
                 GradeChapterInput.summary := clampText (get chapter "summary") 7000;
                 GradeChapterInput.takeaways := clampText (get chapter "takeaways") 5000 |};
            GradeInput.answers := answers |}.

(** [resolveApiKey(req, provider)], where [header] is
    [req.headers["x-provider-api-key"]]. *)
Definition resolveApiKey (header : jsval) (provider : jsstring) : result jsstring :=
  if bool_decide (provider = lit "ollama") then Ok []
  else
    let keyFromHeader := clampText (JStr (readHeader header)) 400 in
    let keyFromEnv :=
      if bool_decide (provider = lit "openai")
      then clampText (JStr (default [] OPENAI_API_KEY)) 400
      else clampText (JStr (default [] ANTHROPIC_API_KEY)) 400 in
    let apiKey := if bool_decide (keyFromHeader = []) then keyFromEnv else keyFromHeader in
    if bool_decide (apiKey = [])
    then Throw (HttpError 400
                  (lit "Missing API key for provider " ++ dquote provider ++ lit "."))
    else Ok apiKey.

(** The handler of [POST /api/ai/generate-questions]: [upstream] is the
    outcome of [await providerJson(...)], the value it resolves to or the
    exception it throws.  The handler responds with the questions, or hands
    the exception to the error middleware. *)
Definition generate_questions (body header : jsval) (upstream : result jsval) :
    result (list Question) :=
  input ← parseGenerateRequest body;
  apiKey ← resolveApiKey header (GenerateInput.provider input);
  parsed ← upstream;
  let questions := normalizeQuestions parsed (GenerateInput.count input) in
  if bool_decide (length questions = O) then Throw no_questions
  else Ok questions.

(** The handler of [POST /api/ai/grade]. *)
Definition grade (body header : jsval) (upstream : result jsval) : result (list Grade) :=
  input ← parseGradeRequest body;
  apiKey ← resolveApiKey header (GradeInput.provider input);
  parsed ← upstream;
  results ← normalizeGrades parsed (GradeInput.answers input);
  if bool_decide (length (results : list Grade) = O) then Throw no_grades
  else Ok results.

End Requests.

(** [providerErrorMessage(payload, fallback)] *)
Definition providerErrorMessage (payload : jsval) (fallback : jsstring) : jsstring :=
  if is_object payload then
    match get payload "error" with
    | JStr error =>
        if negb (bool_decide (trim error = [])) then trim error else fallback
    | (JArr _ | JObj _) as error =>
        match get error "message" with
        | JStr message =>
            if negb (bool_decide (trim message = [])) then trim message else fallback
        | _ => fallback
        end
    | _ => fallback
    end
  else fallback.

End Server.

(** ** Client-side data repair: [src/app/utils.ts] and [src/app/data.ts] *)

Module Data.
Import JS.

(** [clampStr(s, max)] on a string. *)
Definition clampStr_string (s : jsstring) (max : nat) : jsstring :=
  if bool_decide (s = []) then []
  else if (max <? length s)%nat then slice s 0 max else s.

(** [clampStr(s, max)] on whatever the stored blob holds: an array longer
    than [max] is cut as a string is; an object whose [length] compares
    above [max] has no [slice] to call; any other truthy value is returned
    as it is. *)
Definition clampStr (s : jsval) (max : nat) : result jsval :=
  match s with
  | JStr str => Ok (JStr (clampStr_string str max))
  | _ =>
      if negb (truthy s) then Ok (JStr [])
      else
        match s with
        | JArr items => Ok (if (max <? length items)%nat then JArr (slice items 0 max) else s)
        | JObj _ =>
            n ← ToNumber (get s "length");
            if num_gt n (Z.of_nat max) then Throw TypeError else Ok s
        | _ => Ok s
        end
  end.

Definition clampInt (value : jsval) (min max fallback : Z) : result Z :=
  n ← ToNumber value;
  if negb (isFinite n) then Ok fallback
  else
    match n with
    | Fin q => Ok (Z.min max (Z.max min (Math_round q)))
    | _ => Ok fallback
    end.

Definition str (s : string) : jsval := JStr (lit s).

Definition default_difficulty : jsval := str "mixed".
Definition default_style : jsval := str "comprehension".
Definition default_count : Z := 6.

Definition isAIDifficulty (value : jsval) : bool :=
  strict_eq value (str "easy") || strict_eq value (str "medium")
  || strict_eq value (str "hard") || strict_eq value (str "mixed").

Definition isAIQuestionStyle (value : jsval) : bool :=
  strict_eq value (str "comprehension") || strict_eq value (str "critical_thinking")
  || strict_eq value (str "mixed").

Definition isKnownHistoryType (value : jsval) : bool :=
  strict_eq value (str "book_created") || strict_eq value (str "book_updated")
  || strict_eq value (str "book_deleted") || strict_eq value (str "chapter_created")
  || strict_eq value (str "chapter_updated") || strict_eq value (str "chapter_deleted")
  || strict_eq value (str "qa_created") || strict_eq value (str "qa_updated")
  || strict_eq value (str "qa_deleted") || strict_eq value (str "ai_questions_generated")
  || strict_eq value (str "ai_answers_graded") || strict_eq value (str "export").

(** [typeof v === "object"] *)
Definition typeof_object (v : jsval) : bool :=
  match v with
  | JNull | JArr _ | JObj _ => true
  | _ => false
  end.

(** [Array.isArray(v) ? v : []] *)
Definition array_or_empty (v : jsval) : list jsval :=
  match v with
  | JArr items => items
  | _ => []
  end.

(** [typeof v === "string" && v.trim().length > 0] *)
Definition is_nonblank_string (v : jsval) : bool :=
  match v with
  | JStr s => negb (bool_decide (trim s = []))
  | _ => false
  end.

Definition obj (props : list (string * jsval)) : jsval :=
  JObj ((fun p => (lit p.1, p.2)) <$> props).

Section NormalizeUserData.

(** The reading of the clock that [nowISO()] returns during the run. *)
Variable nowISO : jsstring.

Definition keep_difficulty (v : jsval) : jsval :=
  if isAIDifficulty v then v else default_difficulty.

Definition keep_style (v : jsval) : jsval :=
  if isAIQuestionStyle v then v else default_style.

Definition generatedQuestion_ok (chapterIds : list jsval) (q : jsval) : bool :=
  truthy q && is_string (get q "id") && is_string (get q "chapterId")
  && Set_has chapterIds (get q "chapterId") && is_nonblank_string (get q "question").

Definition generatedQuestion_of (q : jsval) : result jsval :=
  question ← clampStr (get q "question") 500;
  rubric ← clampStr (nullish_or (get q "rubric") (JStr [])) 2000;
  Ok (obj [("id", get q "id");
           ("chapterId", get q "chapterId");
           ("question", question);
           ("rubric", rubric);
           ("createdAt", nullish_or (get q "createdAt") (JStr nowISO));
           ("difficulty", keep_difficulty (get q "difficulty"));
           ("style", keep_style (get q "style"))]).

Definition draftAnswer_ok (chapterIds generatedQuestionIds : list jsval) (a : jsval) : bool :=
  truthy a && is_string (get a "chapterId") && Set_has chapterIds (get a "chapterId")
  && is_string (get a "questionId") && Set_has generatedQuestionIds (get a "questionId")
  && is_nonblank_string (get a "answer").

Definition draftAnswer_of (a : jsval) : result jsval :=
  answer ← clampStr (get a "answer") 10000;
  Ok (obj [("chapterId", get a "chapterId");
           ("questionId", get a "questionId");
           ("answer", answer);
           ("updatedAt", nullish_or (get a "updatedAt") (JStr nowISO))]).

Definition feedbackEntry_ok (bookIds chapterIds : list jsval) (entry : jsval) : bool :=
  truthy entry && is_string (get entry "id")
  && is_string (get entry "bookId") && Set_has bookIds (get entry "bookId")
  && is_string (get entry "chapterId") && Set_has chapterIds (get entry "chapterId")
  && is_array (get entry "results").

Definition gradeResult_ok (result : jsval) : bool :=
  truthy result && is_string (get result "questionId")
  && is_string (get result "question") && is_string (get result "studentAnswer").

Definition gradeResult_of (result : jsval) : JS.result jsval :=
  question ← clampStr (get result "question") 500;
  studentAnswer ← clampStr (get result "studentAnswer") 10000;
  score ← clampInt (get result "score") 0 100 0;
  feedback ← clampStr (nullish_or (get result "feedback") (JStr [])) 2000;
  idealAnswer ← clampStr (nullish_or (get result "idealAnswer") (JStr [])) 2000;
  Ok (obj [("questionId", get result "questionId");
           ("question", question);
           ("studentAnswer", studentAnswer);
           ("score", of_int score);
           ("feedback", feedback);
           ("idealAnswer", idealAnswer)]).

Definition feedbackEntry_of (entry : jsval) : result jsval :=
  averageScore ← clampInt (get entry "averageScore") 0 100 0;
  results ← mapR gradeResult_of
              (filter (fun r => gradeResult_ok r = true)
                      (array_or_empty (get entry "results")));
  Ok (obj [("id", get entry "id");
           ("bookId", get entry "bookId");
           ("chapterId", get entry "chapterId");
           ("createdAt", nullish_or (get entry "createdAt") (JStr nowISO));
           ("difficulty", keep_difficulty (get entry "difficulty"));
           ("style", keep_style (get entry "style"));
           ("averageScore", of_int averageScore);
           ("results", JArr results)]).

(** [(ch) => ch.bookId === selectedBookId && ch.id === selectedChapterIdRaw] *)
Definition is_chapter_of (selectedBookId selectedChapterIdRaw ch : jsval) : bool :=
  strict_eq (get ch "bookId") selectedBookId && strict_eq (get ch "id") selectedChapterIdRaw.

(** The [history] constant: the entries that are objects of a known type. *)
Definition history_of (raw : jsval) : list jsval :=
  filter (fun entry => truthy entry && typeof_object entry
                       && isKnownHistoryType (get entry "type") = true)
         (array_or_empty (get raw "history")).

(** The [selectedBookId] constant. *)
Definition selectedBookId_from (bookIds : list jsval) (aiCoachRaw : jsval) : jsval :=
  if is_string (get aiCoachRaw "selectedBookId")
     && Set_has bookIds (get aiCoachRaw "selectedBookId")
  then get aiCoachRaw "selectedBookId" else JUndefined.

(** The [selectedChapterId] constant. *)
Definition selectedChapterId_from (chapters : list jsval) (selectedBookId aiCoachRaw : jsval) :
    jsval :=
  let selectedChapterIdRaw :=
    if is_string (get aiCoachRaw "selectedChapterId")
    then get aiCoachRaw "selectedChapterId" else JUndefined in
  if truthy selectedBookId && truthy selectedChapterIdRaw
     && existsb (is_chapter_of selectedBookId selectedChapterIdRaw) chapters
  then selectedChapterIdRaw
  else if truthy selectedBookId
  then get (default JUndefined
              (List.find (fun ch => strict_eq (get ch "bookId") selectedBookId) chapters)) "id"
  else JUndefined.

(** The [feedbackHistory] constant, from the mapped entries. *)
Definition feedbackHistory_from (feedbackEntries : list jsval) : list jsval :=
  slice (filter (fun entry => (0 <? length (array_or_empty (get entry "results")))%nat = true)
                feedbackEntries) 0 500.

Definition normalizeUserData (raw : jsval) : result jsval :=
  let books := array_or_empty (get raw "books") in
  bookIds ← mapR (fun b => get_prop b "id") books;
  chapters ← filterM (fun ch => bookId ← get_prop ch "bookId"; Ok (Set_has bookIds bookId))
                     (array_or_empty (get raw "chapters"));
  (* every retained chapter is neither null nor undefined *)
  let chapterIds := (fun ch => get ch "id") <$> chapters in
  let history := history_of raw in
  let aiCoachRaw := get raw "aiCoach" in
  generatedQuestions ←
    mapR generatedQuestion_of
         (filter (fun q => generatedQuestion_ok chapterIds q = true)
                 (array_or_empty (get aiCoachRaw "generatedQuestions")));
  let generatedQuestionIds := (fun q => get q "id") <$> generatedQuestions in
  draftAnswers ←
    mapR draftAnswer_of
         (filter (fun a => draftAnswer_ok chapterIds generatedQuestionIds a = true)
                 (array_or_empty (get aiCoachRaw "draftAnswers")));
  feedbackEntries ←
    mapR feedbackEntry_of
         (filter (fun entry => feedbackEntry_ok bookIds chapterIds entry = true)
                 (array_or_empty (get aiCoachRaw "feedbackHistory")));
  let feedbackHistory := feedbackHistory_from feedbackEntries in
  let selectedBookId := selectedBookId_from bookIds aiCoachRaw in
  let selectedChapterId := selectedChapterId_from chapters selectedBookId aiCoachRaw in
  let lastConfigRaw := nullish_or (get aiCoachRaw "lastConfig") (JObj []) in
  qas ← filterM (fun qa => chapterId ← get_prop qa "chapterId";
                           Ok (Set_has chapterIds chapterId))
                (array_or_empty (get raw "qas"));
  count ← clampInt (get lastConfigRaw "count") 1 15 default_count;
  Ok (obj [("books", JArr books);
           ("chapters", JArr chapters);
           ("qas", JArr qas);
           ("history", JArr history);
           ("aiCoach",
            obj [("selectedBookId", selectedBookId);
                 ("selectedChapterId", selectedChapterId);
                 ("lastConfig",
                  obj [("count", of_int count);
                       ("difficulty", keep_difficulty (get lastConfigRaw "difficulty"));
                       ("style", keep_style (get lastConfigRaw "style"))]);
                 ("generatedQuestions", JArr generatedQuestions);
                 ("draftAnswers", JArr draftAnswers);
                 ("feedbackHistory", JArr feedbackHistory)])]).

End NormalizeUserData.

(** *** [createEmptyUserData], [apiErrorMessage] *)

Definition defaultAICoachConfig : jsval :=
  obj [("count", of_int 6); ("difficulty", str "mixed"); ("style", str "comprehension")].

Definition createEmptyAICoachData : jsval :=
  obj [("selectedBookId", JUndefined);
       ("selectedChapterId", JUndefined);
       ("lastConfig", defaultAICoachConfig);
       ("generatedQuestions", JArr []);
       ("draftAnswers", JArr []);
       ("feedbackHistory", JArr [])].

Definition createEmptyUserData : jsval :=
  obj [("books", JArr []);
       ("chapters", JArr []);
       ("qas", JArr []);
       ("history", JArr []);
       ("aiCoach", createEmptyAICoachData)].

(** [apiErrorMessage(payload, status)], for the status of an HTTP
    response.  ["error" in payload] holds of an object with a property
    [error] of its own, and of no array. *)
Definition apiErrorMessage (payload : jsval) (status : nat) : jsstring :=
  let fallback := lit "Request failed (" ++ decimal status ++ lit ")" in
  match payload with
  | JObj props =>
      match lookup_prop (lit "error") props with
      | Some (JStr msg) => if (0 <? length (trim msg))%nat then trim msg else fallback
      | _ => fallback
      end
  | _ => fallback
  end.

End Data.

(** ** The application state: [src/app/types.ts], [src/App.tsx],
       [src/app/hooks/use-ai-coach.ts] *)

Module App.
Import JS.

Inductive BookStatus := in_progress | completed | abandoned.

Inductive HistoryEventType :=
| book_created | book_updated | book_deleted
| chapter_created | chapter_updated | chapter_deleted
| qa_created | qa_updated | qa_deleted
| ai_questions_generated | ai_answers_graded | export.

Inductive AIDifficulty := easy | medium | hard | mixed.

Inductive AIQuestionStyle := comprehension | critical_thinking | mixed_style.

Module Book.
Record t := {
  id : jsstring;
  title : jsstring;
  author : jsstring;
  genre : option jsstring;
  coverDataUrl : option jsstring;
  status : BookStatus;
  startedAt : option jsstring;
  finishedAt : option jsstring;
  createdAt : jsstring;
  updatedAt : jsstring
}.
End Book.

Module ChapterEntry.
Record t := {
  id : jsstring;
  bookId : jsstring;
  number : option jsnum;
  title : option jsstring;
  completedAt : option jsstring;
  summary : jsstring;
  takeaways : jsstring;
  quotes : jsstring;
  reflection : jsstring;
  createdAt : jsstring;
  updatedAt : jsstring
}.
End ChapterEntry.

Module QA.
Record t := {
  id : jsstring;
  chapterId : jsstring;
  question : jsstring;
  answer : jsstring;
  createdAt : jsstring;
  updatedAt : jsstring
}.
End QA.

Module HistoryEvent.
Record t := {
  id : jsstring;
  type : HistoryEventType;
  ts : jsstring;
  userId : jsstring;
  bookId : option jsstring;
  chapterId : option jsstring;
  qaId : option jsstring;
  label : jsstring;
  meta : option (list (jsstring * jsstring))
}.
End HistoryEvent.

Module AICoachConfig.
Record t := {
  count : Z;
  difficulty : AIDifficulty;
  style : AIQuestionStyle
}.
End AICoachConfig.

Module AIGeneratedQuestion.
Record t := {
  id : jsstring;
  chapterId : jsstring;
  question : jsstring;
  rubric : jsstring;
  createdAt : jsstring;
  difficulty : AIDifficulty;
  style : AIQuestionStyle
}.
End AIGeneratedQuestion.

Module AIDraftAnswer.
Record t := {
  chapterId : jsstring;
  questionId : jsstring;
  answer : jsstring;
  updatedAt : jsstring
}.
End AIDraftAnswer.

Module AIGradeResult.
Record t := {
  questionId : jsstring;
  question : jsstring;
  studentAnswer : jsstring;
  score : Z;
  feedback : jsstring;
  idealAnswer : jsstring
}.
End AIGradeResult.

Module AIFeedbackEntry.
Record t := {
  id : jsstring;
  bookId : jsstring;
  chapterId : jsstring;
  createdAt : jsstring;
  difficulty : AIDifficulty;
  style : AIQuestionStyle;
  averageScore : Z;
  results : list AIGradeResult.t
}.
End AIFeedbackEntry.

Record AICoachData := {
  selectedBookId : option jsstring;
  selectedChapterId : option jsstring;
  lastConfig : AICoachConfig.t;
  generatedQuestions : list AIGeneratedQuestion.t;
  draftAnswers : list AIDraftAnswer.t;
  feedbackHistory : list AIFeedbackEntry.t
}.

Record UserData := {
  books : list Book.t;
  chapters : list ChapterEntry.t;
  qas : list QA.t;
  history : list HistoryEvent.t;
  aiCoach : AICoachData
}.

(** *** [pushHistory] *)

(** [{ ...event, id: uid("h"), ts: nowISO() }] *)
Definition nextEvent_of (event : HistoryEvent.t) (uid_h nowISO : jsstring) : HistoryEvent.t :=
  {| HistoryEvent.id := uid_h;
     HistoryEvent.type := HistoryEvent.type event;
     HistoryEvent.ts := nowISO;
     HistoryEvent.userId := HistoryEvent.userId event;
     HistoryEvent.bookId := HistoryEvent.bookId event;
     HistoryEvent.chapterId := HistoryEvent.chapterId event;
     HistoryEvent.qaId := HistoryEvent.qaId event;
     HistoryEvent.label := HistoryEvent.label event;
     HistoryEvent.meta := HistoryEvent.meta event |}.

(** The updater [pushHistory] hands to [setData]; [uid_h] and [nowISO] are
    what [uid("h")] and [nowISO()] returned. *)
Definition pushHistory (event : HistoryEvent.t) (uid_h nowISO : jsstring)
    (prev : UserData) : UserData :=
  let nextEvent := nextEvent_of event uid_h nowISO in
  {| books := books prev;
     chapters := chapters prev;
     qas := qas prev;
     history := slice (nextEvent :: history prev) 0 2000;
     aiCoach := aiCoach prev |}.

(** *** Deleting a book *)

(** The updater of the delete-book confirmation, for the book with id [b_id]. *)
Definition deleteBook (b_id : jsstring) (d : UserData) : UserData :=
  let chaptersToDelete :=
    ChapterEntry.id <$> filter (fun c => ChapterEntry.bookId c = b_id) (chapters d) in
  let chaptersToDeleteSet : gset jsstring := list_to_set chaptersToDelete in
  {| books := filter (fun x => Book.id x ≠ b_id) (books d);
     chapters := filter (fun c => ChapterEntry.bookId c ≠ b_id) (chapters d);
     qas := filter (fun qa => QA.chapterId qa ∉ chaptersToDelete) (qas d);
     history := history d;
     aiCoach :=
       {| selectedBookId :=
            if decide (selectedBookId (aiCoach d) = Some b_id) then None
            else selectedBookId (aiCoach d);
          selectedChapterId :=
            if decide (default [] (selectedChapterId (aiCoach d)) ∈ chaptersToDeleteSet)
            then None
            else selectedChapterId (aiCoach d);
          lastConfig := lastConfig (aiCoach d);
          generatedQuestions :=
            filter (fun q => AIGeneratedQuestion.chapterId q ∉ chaptersToDeleteSet)
                   (generatedQuestions (aiCoach d));
          draftAnswers :=
            filter (fun a => AIDraftAnswer.chapterId a ∉ chaptersToDeleteSet)
                   (draftAnswers (aiCoach d));
          feedbackHistory :=
            filter (fun entry => AIFeedbackEntry.chapterId entry ∉ chaptersToDeleteSet)
                   (feedbackHistory (aiCoach d)) |} |}.

(** The confirmation handler: both updaters, in the order they are queued. *)
Definition onConfirm_deleteBook (b : Book.t) (sessionUserId uid_h nowISO : jsstring)
    (d : UserData) : UserData :=
  pushHistory
    {| HistoryEvent.id := []; HistoryEvent.type := book_deleted; HistoryEvent.ts := [];
       HistoryEvent.userId := sessionUserId;
       HistoryEvent.bookId := Some (Book.id b);
       HistoryEvent.chapterId := None; HistoryEvent.qaId := None;
       HistoryEvent.label := lit "Deleted book: " ++ Book.title b;
       HistoryEvent.meta := None |}
    uid_h nowISO (deleteBook (Book.id b) d).

(** *** [generateAIQuestions] *)

Definition difficulty_string (d : AIDifficulty) : jsstring :=
  match d with
  | easy => lit "easy"
  | medium => lit "medium"
  | hard => lit "hard"
  | mixed => lit "mixed"
  end.

Definition style_string (s : AIQuestionStyle) : jsstring :=
  match s with
  | comprehension => lit "comprehension"
  | critical_thinking => lit "critical_thinking"
  | mixed_style => lit "mixed"
  end.

Section GenerateAIQuestions.

(** [uid_gq k]: what the [k]-th call of [uid("gq")] returns. *)
Variable uid_gq : nat -> jsstring.

(** The [for] loop over [rawQuestions]; [k] counts the calls of [uid]. *)
Fixpoint normalize_loop (chapterId ts : jsstring) (config : AICoachConfig.t)
    (rawQuestions : list jsval) (k : nat) (seenIds : gset jsstring)
    (normalized : list AIGeneratedQuestion.t) : list AIGeneratedQuestion.t :=
  match rawQuestions with
  | [] => normalized
  | item :: rest =>
      let text :=
        match get item "question" with
        | JStr s => Data.clampStr_string (trim s) 500
        | _ => []
        end in
      if bool_decide (text = []) then
        normalize_loop chapterId ts config rest k seenIds normalized
      else
        let candidateId :=
          match get item "id" with
          | JStr s => trim s
          | _ => []
          end in
        let '(id, k) :=
          if bool_decide (candidateId = []) then (uid_gq k, S k) else (candidateId, k) in
        let '(id, k) :=
          if bool_decide (id ∈ seenIds) then (uid_gq k, S k) else (id, k) in
        normalize_loop chapterId ts config rest k ({[id]} ∪ seenIds)
          (normalized ++
           [{| AIGeneratedQuestion.id := id;
               AIGeneratedQuestion.chapterId := chapterId;
               AIGeneratedQuestion.question := text;
               AIGeneratedQuestion.rubric :=
                 match get item "rubric" with
                 | JStr s => Data.clampStr_string s 2000
                 | _ => []
                 end;
               AIGeneratedQuestion.createdAt := ts;
               AIGeneratedQuestion.difficulty := AICoachConfig.difficulty config;
               AIGeneratedQuestion.style := AICoachConfig.style config |}])
  end.

(** The updater handed to [setData] after a successful generation. *)
Definition generateAIQuestions_update (aiSelectedBook : Book.t)
    (aiSelectedChapter : ChapterEntry.t) (normalized : list AIGeneratedQuestion.t)
    (prev : UserData) : UserData :=
  {| books := books prev;
     chapters := chapters prev;
     qas := qas prev;
     history := history prev;
     aiCoach :=
       {| selectedBookId := Some (Book.id aiSelectedBook);
          selectedChapterId := Some (ChapterEntry.id aiSelectedChapter);
          lastConfig := lastConfig (aiCoach prev);
          generatedQuestions :=
            normalized ++
            filter (fun question =>
                      AIGeneratedQuestion.chapterId question ≠ ChapterEntry.id aiSelectedChapter)
                   (generatedQuestions (aiCoach prev));
          draftAnswers :=
            filter (fun answer =>
                      AIDraftAnswer.chapterId answer ≠ ChapterEntry.id aiSelectedChapter)
                   (draftAnswers (aiCoach prev));
          feedbackHistory := feedbackHistory (aiCoach prev) |} |}.

(** The label [Generated n AI question(s)], with the plural [s] unless
    [n] is 1. *)
Definition generated_label (n : nat) : jsstring :=
  lit "Generated " ++ decimal n ++ lit " AI question"
  ++ (if bool_decide (n = 1%nat) then [] else lit "s").

(** The body of the [try] block from the point where the provider's
    response has arrived: [data] is the state the handler closed over,
    [prev] the state the queued updaters are applied to.  A thrown
    exception leaves the state as it is. *)
Definition generateAIQuestions_try (data : UserData) (sessionUserId : jsstring)
    (aiSelectedBook : Book.t) (aiSelectedChapter : ChapterEntry.t)
    (response : jsval) (ts uid_h now_h : jsstring) (prev : UserData) : result UserData :=
  let config := lastConfig (aiCoach data) in
  questions ← get_prop response "questions";
  let rawQuestions :=
    match questions with
    | JArr items => items
    | _ => []
    end in
  let normalized :=
    normalize_loop (ChapterEntry.id aiSelectedChapter) ts config rawQuestions O ∅ [] in
  if bool_decide (length normalized = O)
  then Throw (Error (lit "The AI service returned no usable questions."))
  else
    Ok (pushHistory
          {| HistoryEvent.id := []; HistoryEvent.type := ai_questions_generated;
             HistoryEvent.ts := [];
             HistoryEvent.userId := sessionUserId;
             HistoryEvent.bookId := Some (Book.id aiSelectedBook);
             HistoryEvent.chapterId := Some (ChapterEntry.id aiSelectedChapter);
             HistoryEvent.qaId := None;
             HistoryEvent.label := generated_label (length normalized);
             HistoryEvent.meta :=
               Some [(lit "difficulty", difficulty_string (AICoachConfig.difficulty config));
                     (lit "style", style_string (AICoachConfig.style config));
                     (lit "count", decimal (length normalized))] |}
          uid_h now_h
          (generateAIQuestions_update aiSelectedBook aiSelectedChapter normalized prev)).

End GenerateAIQuestions.

(** *** Deleting a chapter, selecting a book *)

Section Sorting.

(** [entries.sort(compareChapterEntries)], on a fresh array. *)
Variable sort_chapters : list ChapterEntry.t -> list ChapterEntry.t.

(** The updater of the delete-chapter confirmation. *)
Definition deleteChapter (chapterId : jsstring) (d : UserData) : UserData :=
  let nextChapters := filter (fun x => ChapterEntry.id x ≠ chapterId) (chapters d) in
  let nextSelectedChapterId :=
    if decide (selectedChapterId (aiCoach d) = Some chapterId) then
      match selectedBookId (aiCoach d) with
      | Some selected =>
          if bool_decide (selected = []) then None
          else
            ChapterEntry.id
              <$> head (sort_chapters
                          (filter (fun entry => ChapterEntry.bookId entry = selected)
                                  nextChapters))
      | None => None
      end
    else selectedChapterId (aiCoach d) in
  {| books := books d;
     chapters := nextChapters;
     qas := filter (fun qa => QA.chapterId qa ≠ chapterId) (qas d);
     history := history d;
     aiCoach :=
       {| selectedBookId := selectedBookId (aiCoach d);
          selectedChapterId := nextSelectedChapterId;
          lastConfig := lastConfig (aiCoach d);
          generatedQuestions :=
            filter (fun q => AIGeneratedQuestion.chapterId q ≠ chapterId)
                   (generatedQuestions (aiCoach d));
          draftAnswers :=
            filter (fun a => AIDraftAnswer.chapterId a ≠ chapterId)
                   (draftAnswers (aiCoach d));
          feedbackHistory :=
            filter (fun entry => AIFeedbackEntry.chapterId entry ≠ chapterId)
                   (feedbackHistory (aiCoach d)) |} |}.


End Sorting.

(** *** Deleting a question *)

(** [(b) => (b.id === bookId ? { ...b, updatedAt: ts } : b)] *)
Definition touch_book (bookId ts : jsstring) (b : Book.t) : Book.t :=
  if decide (Book.id b = bookId) then
    {| Book.id := Book.id b; Book.title := Book.title b; Book.author := Book.author b;
       Book.genre := Book.genre b; Book.coverDataUrl := Book.coverDataUrl b;
       Book.status := Book.status b; Book.startedAt := Book.startedAt b;
       Book.finishedAt := Book.finishedAt b; Book.createdAt := Book.createdAt b;
       Book.updatedAt := ts |}
  else b.

(** The updater of the delete-question confirmation, in the view of the
    book [view_bookId]. *)
Definition deleteQA (qaId view_bookId ts : jsstring) (d : UserData) : UserData :=
  let before := length (qas d) in
  let nextQas := filter (fun qa => QA.id qa ≠ qaId) (qas d) in
  if decide (length nextQas = before) then d
  else
    {| books := touch_book view_bookId ts <$> books d;
       chapters := chapters d;
       qas := nextQas;
       history := history d;
       aiCoach := aiCoach d |}.

(** *** The AI coach: configuration and draft answers *)

(** A [Partial<AICoachConfig>] as the view builds it: the count is
    [Number(e.target.value)], the difficulty and the style are the values
    of a [select]. *)
Module AICoachConfigPatch.
Record t := {
  count : option jsnum;
  difficulty : option jsstring;
  style : option jsstring
}.
End AICoachConfigPatch.

(** The member of the union type that a string is, if any. *)
Definition difficulty_of_string (s : jsstring) : option AIDifficulty :=
  List.find (fun d => bool_decide (difficulty_string d = s)) [easy; medium; hard; mixed].

Definition style_of_string (s : jsstring) : option AIQuestionStyle :=
  List.find (fun d => bool_decide (style_string d = s))
            [comprehension; critical_thinking; mixed_style].

(** The updater of [updateAIConfig]. *)
Definition updateAIConfig (patch : AICoachConfigPatch.t) (prev : UserData) : result UserData :=
  let config := lastConfig (aiCoach prev) in
  count ←
    match AICoachConfigPatch.count patch with
    | Some n => Data.clampInt (JNum n) 1 15 (AICoachConfig.count config)
    | None => Ok (AICoachConfig.count config)
    end;
  Ok {| books := books prev;
        chapters := chapters prev;
        qas := qas prev;
        history := history prev;
        aiCoach :=
          {| selectedBookId := selectedBookId (aiCoach prev);
             selectedChapterId := selectedChapterId (aiCoach prev);
             lastConfig :=
               {| AICoachConfig.count := count;
                  AICoachConfig.difficulty :=
                    match AICoachConfigPatch.difficulty patch with
                    | Some value =>
                        if Data.isAIDifficulty (JStr value)
                        then default (AICoachConfig.difficulty config)
                                     (difficulty_of_string value)
                        else AICoachConfig.difficulty config
                    | None => AICoachConfig.difficulty config
                    end;
                  AICoachConfig.style :=
                    match AICoachConfigPatch.style patch with
                    | Some value =>
                        if Data.isAIQuestionStyle (JStr value)
                        then default (AICoachConfig.style config) (style_of_string value)
                        else AICoachConfig.style config
                    | None => AICoachConfig.style config
                    end |};
             generatedQuestions := generatedQuestions (aiCoach prev);
             draftAnswers := draftAnswers (aiCoach prev);
             feedbackHistory := feedbackHistory (aiCoach prev) |} |}.

(** The draft that [updateAIDraftAnswer] looks for. *)
Definition is_draft_of (chapterId questionId : jsstring) (draft : AIDraftAnswer.t) : Prop :=
  AIDraftAnswer.chapterId draft = chapterId /\ AIDraftAnswer.questionId draft = questionId.

#[export] Instance is_draft_of_dec chapterId questionId draft :
  Decision (is_draft_of chapterId questionId draft).
Proof. unfold is_draft_of. apply _. Defined.

(** The updater of [updateAIDraftAnswer], for the selected chapter
    [chapterId]; [nowISO] is the reading of the clock inside the updater. *)
Definition updateAIDraftAnswer (chapterId questionId answer nowISO : jsstring)
    (prev : UserData) : UserData :=
  let nextAnswer := Data.clampStr_string answer 10000 in
  let drafts := draftAnswers (aiCoach prev) in
  let nextDraftAnswers :=
    match list_find (is_draft_of chapterId questionId) drafts with
    | Some (index, draft) =>
        if bool_decide (trim nextAnswer = []) then delete index drafts
        else
          <[index := {| AIDraftAnswer.chapterId := AIDraftAnswer.chapterId draft;
                        AIDraftAnswer.questionId := AIDraftAnswer.questionId draft;
                        AIDraftAnswer.answer := nextAnswer;
                        AIDraftAnswer.updatedAt := nowISO |}]> drafts
    | None =>
        if bool_decide (trim nextAnswer = []) then drafts
        else
          {| AIDraftAnswer.chapterId := chapterId;
             AIDraftAnswer.questionId := questionId;
             AIDraftAnswer.answer := nextAnswer;
             AIDraftAnswer.updatedAt := nowISO |} :: drafts
    end in
  {| books := books prev;
     chapters := chapters prev;
     qas := qas prev;
     history := history prev;
     aiCoach :=
       {| selectedBookId := selectedBookId (aiCoach prev);
          selectedChapterId := selectedChapterId (aiCoach prev);
          lastConfig := lastConfig (aiCoach prev);
          generatedQuestions := generatedQuestions (aiCoach prev);
          draftAnswers := nextDraftAnswers;
          feedbackHistory := feedbackHistory (aiCoach prev) |} |}.

(** The memo [aiAnswerMap], for the selected chapter [chapterId]. *)
Definition aiAnswerMap (chapterId : jsstring) (d : UserData) : gmap jsstring jsstring :=
  foldl (fun map draft =>
           if decide (AIDraftAnswer.chapterId draft = chapterId)
           then <[AIDraftAnswer.questionId draft := AIDraftAnswer.answer draft]> map
           else map)
        ∅ (draftAnswers (aiCoach d)).

(** *** [gradeAIAnswers] *)

(** A row of [answerRows]. *)
Module AnswerRow.
Record t := {
  questionId : jsstring;
  question : jsstring;
  studentAnswer : jsstring
}.
End AnswerRow.

Definition answerRows_of (aiQuestionsForSelectedChapter : list AIGeneratedQuestion.t)
    (answers : gmap jsstring jsstring) : list AnswerRow.t :=
  filter (fun row => (0 < length (AnswerRow.studentAnswer row))%nat)
    ((fun question =>
        {| AnswerRow.questionId := AIGeneratedQuestion.id question;
           AnswerRow.question := AIGeneratedQuestion.question question;
           AnswerRow.studentAnswer :=
             trim (default [] (answers !! AIGeneratedQuestion.id question)) |})
       <$> aiQuestionsForSelectedChapter).

(** [new Map(answerRows.map((row) => [row.questionId, row]))] *)
Definition answerById_of (answerRows : list AnswerRow.t) : gmap jsstring AnswerRow.t :=
  foldl (fun map row => <[AnswerRow.questionId row := row]> map) ∅ answerRows.

(** The [for] loop over [rawResults]. *)
Fixpoint normalizeResults_loop (answerById : gmap jsstring AnswerRow.t)
    (rawResults : list jsval) (normalizedResults : list AIGradeResult.t) :
    result (list AIGradeResult.t) :=
  match rawResults with
  | [] => Ok normalizedResults
  | result :: rest =>
      let questionId :=
        match get result "questionId" with
        | JStr s => s
        | _ => []
        end in
      match answerById !! questionId with
      | Some row =>
          if bool_decide (questionId = [])
          then normalizeResults_loop answerById rest normalizedResults
          else
            score ← Data.clampInt (get result "score") 0 100 0;
            normalizeResults_loop answerById rest
              (normalizedResults ++
               [{| AIGradeResult.questionId := questionId;
                   AIGradeResult.question := AnswerRow.question row;
                   AIGradeResult.studentAnswer := AnswerRow.studentAnswer row;
                   AIGradeResult.score := score;
                   AIGradeResult.feedback :=
                     match get result "feedback" with
                     | JStr s => Data.clampStr_string s 2000
                     | _ => []
                     end;
                   AIGradeResult.idealAnswer :=
                     match get result "idealAnswer" with
                     | JStr s => Data.clampStr_string s 2000
                     | _ => []
                     end |}])
      | None => normalizeResults_loop answerById rest normalizedResults
      end
  end.

(** [Math.round(sum / length)]: the quotient is the double nearest to the
    exact quotient; it is finite, since the sum is. *)
Definition averageScore_of (normalizedResults : list AIGradeResult.t) : Z :=
  let sum := foldl (fun sum result => sum + AIGradeResult.score result) 0 normalizedResults in
  match round_double (inject_Z sum / inject_Z (Z.of_nat (length normalizedResults))) with
  | Fin q => Math_round q
  | _ => 0
  end.

(** The updater handed to [setData] after a successful grading. *)
Definition gradeAIAnswers_update (feedbackEntry : AIFeedbackEntry.t) (prev : UserData) :
    UserData :=
  {| books := books prev;
     chapters := chapters prev;
     qas := qas prev;
     history := history prev;
     aiCoach :=
       {| selectedBookId := selectedBookId (aiCoach prev);
          selectedChapterId := selectedChapterId (aiCoach prev);
          lastConfig := lastConfig (aiCoach prev);
          generatedQuestions := generatedQuestions (aiCoach prev);
          draftAnswers := draftAnswers (aiCoach prev);
          feedbackHistory := slice (feedbackEntry :: feedbackHistory (aiCoach prev)) 0 500 |} |}.

(** The label [Graded n AI answer(s)]. *)
Definition graded_label (n : nat) : jsstring :=
  lit "Graded " ++ decimal n ++ lit " AI answer"
  ++ (if bool_decide (n = 1%nat) then [] else lit "s").

(** The body of the [try] block of [gradeAIAnswers] from the point where
    the gateway's response has arrived: [data] is the state the handler
    closed over, with its memos [aiQuestionsForSelectedChapter] and
    [answers]; [prev] is the state the queued updaters are applied to.
    [String(averageScore)] is written with [decimal]: the average of scores
    from 0 to 100 is not negative. *)
Definition gradeAIAnswers_try (data : UserData) (sessionUserId : jsstring)
    (aiSelectedBook : Book.t) (aiSelectedChapter : ChapterEntry.t)
    (aiQuestionsForSelectedChapter : list AIGeneratedQuestion.t)
    (answers : gmap jsstring jsstring)
    (response : jsval) (uid_aif now_entry uid_h now_h : jsstring) (prev : UserData) :
    result UserData :=
  let answerRows := answerRows_of aiQuestionsForSelectedChapter answers in
  let answerById := answerById_of answerRows in
  results ← get_prop response "results";
  let rawResults :=
    match results with
    | JArr items => items
    | _ => []
    end in
  normalizedResults ← normalizeResults_loop answerById rawResults [];
  if bool_decide (length normalizedResults = O)
  then Throw (Error (lit "The AI service returned no usable grade results."))
  else
    let averageScore := averageScore_of normalizedResults in
    let feedbackEntry :=
      {| AIFeedbackEntry.id := uid_aif;
         AIFeedbackEntry.bookId := Book.id aiSelectedBook;
         AIFeedbackEntry.chapterId := ChapterEntry.id aiSelectedChapter;
         AIFeedbackEntry.createdAt := now_entry;
         AIFeedbackEntry.difficulty := AICoachConfig.difficulty (lastConfig (aiCoach data));
         AIFeedbackEntry.style := AICoachConfig.style (lastConfig (aiCoach data));
         AIFeedbackEntry.averageScore := averageScore;
         AIFeedbackEntry.results := normalizedResults |} in
    Ok (pushHistory
          {| HistoryEvent.id := []; HistoryEvent.type := ai_answers_graded;
             HistoryEvent.ts := [];
             HistoryEvent.userId := sessionUserId;
             HistoryEvent.bookId := Some (Book.id aiSelectedBook);
             HistoryEvent.chapterId := Some (ChapterEntry.id aiSelectedChapter);
             HistoryEvent.qaId := None;
             HistoryEvent.label := graded_label (length normalizedResults);
             HistoryEvent.meta :=
               Some [(lit "averageScore", decimal (Z.to_nat averageScore))] |}
          uid_h now_h
          (gradeAIAnswers_update feedbackEntry prev)).

End App.


(** ** [JSON.parse]

    The grammar of ECMA-404 over code units, by recursive descent.  It is
    the parser the examples run the gateway with; the properties of
    [parseModelJson] are stated for any parser. *)

Module JSON.
Import JS.

Definition is_ws (c : N) : bool :=
  ((c =? 32) || (c =? 9) || (c =? 10) || (c =? 13))%N.

Fixpoint skip_ws (s : jsstring) : jsstring :=
  match s with
  | c :: s' => if is_ws c then skip_ws s' else s
  | [] => []
  end.

Definition is_digit (c : N) : bool := ((48 <=? c) && (c <=? 57))%N.

(** number: [-]? int frac? exp?, where int has no leading zero. *)
Definition parse_number (s : jsstring) : option (jsval * jsstring) :=
  let '(neg, s0) :=
    match s with
    | 45%N :: s' => (true, s')
    | _ => (false, s)
    end in
  let '(i, ni, s1) :=
    match s0 with
    | 48%N :: s' => (0, 1%nat, s')
    | _ => read_digits 10 s0 0 O
    end in
  match ni with
  | O => None
  | S _ =>
      let frac :=
        match s1 with
        | 46%N :: s1' =>
            match read_digits 10 s1' 0 O with
            | (_, O, _) => None
            | r => Some r
            end
        | _ => Some (0, O, s1)
        end in
      match frac with
      | None => None
      | Some (f, nf, s2) =>
          match read_exponent s2 with
          | None => None
          | Some (e, s3) =>
              let q := ((inject_Z (i * 10 ^ Z.of_nat nf + f))
                        * Qpower (10 # 1) (e - Z.of_nat nf))%Q in
              Some (JNum (round_double (if neg : bool then - q else q)), s3)
          end
      end
  end.

(** Four hexadecimal digits of a [\u] escape. *)
Definition parse_hex4 (s : jsstring) : option (N * jsstring) :=
  match s with
  | a :: b :: c :: d :: s' =>
      match digit_of 16 a, digit_of 16 b, digit_of 16 c, digit_of 16 d with
      | Some x, Some y, Some z, Some w =>
          Some (Z.to_N (((x * 16 + y) * 16 + z) * 16 + w), s')
      | _, _, _, _ => None
      end
  | _ => None
  end.

(** The characters of a string, after its opening quote. *)
Fixpoint parse_chars (fuel : nat) (s : jsstring) (acc : jsstring) : option (jsstring * jsstring) :=
  match fuel with
  | O => None
  | S fuel' =>
      match s with
      | [] => None
      | 34%N :: s' => Some (reverse acc, s')
      | 92%N :: e :: s' =>
          match e with
          | 34%N | 92%N | 47%N => parse_chars fuel' s' (e :: acc)
          | 98%N => parse_chars fuel' s' (8%N :: acc)
          | 102%N => parse_chars fuel' s' (12%N :: acc)
          | 110%N => parse_chars fuel' s' (10%N :: acc)
          | 114%N => parse_chars fuel' s' (13%N :: acc)
          | 116%N => parse_chars fuel' s' (9%N :: acc)
          | 117%N =>
              match parse_hex4 s' with
              | Some (u, s'') => parse_chars fuel' s'' (u :: acc)
              | None => None
              end
          | _ => None
          end
      | c :: s' => if (c <? 32)%N || (c =? 92)%N then None else parse_chars fuel' s' (c :: acc)
      end
  end.

(** Defining a property: a repeated key keeps its place and takes the
    later value. *)
Fixpoint set_prop (k : jsstring) (v : jsval) (props : list (jsstring * jsval)) :
    list (jsstring * jsval) :=
  match props with
  | [] => [(k, v)]
  | (k', v') :: props' =>
      if jsstring_eqb k' k then (k', v) :: props' else (k', v') :: set_prop k v props'
  end.

Definition starts (word : string) (s : jsstring) : option jsstring :=
  let w := lit word in
  if bool_decide (take (length w) s = w) then Some (drop (length w) s) else None.

Fixpoint parse_value (fuel : nat) (s : jsstring) : option (jsval * jsstring) :=
  match fuel with
  | O => None
  | S fuel' =>
      match skip_ws s with
      | [] => None
      | 34%N :: s' =>
          match parse_chars (S (length s')) s' [] with
          | Some (str, rest) => Some (JStr str, rest)
          | None => None
          end
      | 91%N :: s' =>
          match skip_ws s' with
          | 93%N :: rest => Some (JArr [], rest)
          | _ =>
              match parse_elements fuel' s' [] with
              | Some (items, rest) => Some (JArr items, rest)
              | None => None
              end
          end
      | 123%N :: s' =>
          match skip_ws s' with
          | 125%N :: rest => Some (JObj [], rest)
          | _ =>
              match parse_members fuel' s' [] with
              | Some (props, rest) => Some (JObj props, rest)
              | None => None
              end
          end
      | (_ :: _) as t =>
          match starts "null" t, starts "true" t, starts "false" t with
          | Some rest, _, _ => Some (JNull, rest)
          | _, Some rest, _ => Some (JBool true, rest)
          | _, _, Some rest => Some (JBool false, rest)
          | None, None, None => parse_number t
          end
      end
  end
with parse_elements (fuel : nat) (s : jsstring) (acc : list jsval) :
    option (list jsval * jsstring) :=
  match fuel with
  | O => None
  | S fuel' =>
      match parse_value fuel' s with
      | None => None
      | Some (v, rest) =>
          match skip_ws rest with
          | 44%N :: rest' => parse_elements fuel' rest' (acc ++ [v])
          | 93%N :: rest' => Some (acc ++ [v], rest')
          | _ => None
          end
      end
  end
with parse_members (fuel : nat) (s : jsstring) (acc : list (jsstring * jsval)) :
    option (list (jsstring * jsval) * jsstring) :=
  match fuel with
  | O => None
  | S fuel' =>
      match skip_ws s with
      | 34%N :: s' =>
          match parse_chars (S (length s')) s' [] with
          | None => None
          | Some (k, rest) =>
              match skip_ws rest with
              | 58%N :: rest' =>
                  match parse_value fuel' rest' with
                  | None => None
                  | Some (v, rest'') =>
                      match skip_ws rest'' with
                      | 44%N :: rest3 => parse_members fuel' rest3 (set_prop k v acc)
                      | 125%N :: rest3 => Some (set_prop k v acc, rest3)
                      | _ => None
                      end
                  end
              | _ => None
              end
          end
      | _ => None
      end
  end.

(** [JSON.parse(text)]: [None] for a SyntaxError. *)
Definition parse (text : jsstring) : option jsval :=
  match parse_value (2 * length text + 2) text with
  | Some (v, rest) =>
      match skip_ws rest with
      | [] => Some v
      | _ => None
      end
  | None => None
  end.

End JSON.

(** ** Predicates used in the statements *)


Definition question_ok (q : Server.Question) : Prop :=
  Server.question q <> [] /\ (length (Server.question q) <= 500)%nat.

(** An id of the form the gateway makes up: [q] and a decimal number. *)
Definition synthetic_id (id : JS.jsstring) : Prop :=
  exists k : nat, id = JS.lit "q" ++ JS.decimal k.

(** The collections of a normalized blob. *)
Definition books_of (out : JS.jsval) : list JS.jsval :=
  Data.array_or_empty (JS.get out "books").
Definition chapters_of (out : JS.jsval) : list JS.jsval :=
  Data.array_or_empty (JS.get out "chapters").
Definition qas_of (out : JS.jsval) : list JS.jsval :=
  Data.array_or_empty (JS.get out "qas").
Definition generatedQuestions_of (out : JS.jsval) : list JS.jsval :=
  Data.array_or_empty (JS.get (JS.get out "aiCoach") "generatedQuestions").
Definition draftAnswers_of (out : JS.jsval) : list JS.jsval :=
  Data.array_or_empty (JS.get (JS.get out "aiCoach") "draftAnswers").
Definition feedbackHistory_of (out : JS.jsval) : list JS.jsval :=
  Data.array_or_empty (JS.get (JS.get out "aiCoach") "feedbackHistory").
Definition selectedBookId_of (out : JS.jsval) : JS.jsval :=
  JS.get (JS.get out "aiCoach") "selectedBookId".
Definition selectedChapterId_of (out : JS.jsval) : JS.jsval :=
  JS.get (JS.get out "aiCoach") "selectedChapterId".




(** No object anywhere in the value has an own property [toString] or
    [length]: the conversions to a number and [clampStr] then complete. *)
Fixpoint tame (v : JS.jsval) : bool :=
  match v with
  | JS.JObj props =>
      negb (bool_decide (is_Some (JS.lookup_prop (JS.lit "toString") props)))
      && negb (bool_decide (is_Some (JS.lookup_prop (JS.lit "length") props)))
      && forallb (fun p => tame p.2) props
  | JS.JArr items => forallb tame items
  | _ => true
  end.

(** Neither [null] nor [undefined]. *)
Definition non_nullish (v : JS.jsval) : Prop :=
  match v with
  | JS.JUndefined | JS.JNull => False
  | _ => True
  end.

(** The text and the rubric the gateway reads off a row of the provider's
    payload. *)
Definition text_and_rubric (row : JS.jsval) : JS.jsstring * JS.jsstring :=
  (Server.clampText (JS.get row "question") 500, Server.clampText (JS.get row "rubric") 2000).

(** What the gateway promises of a question and of a grade it returns. *)
Definition served_question (q : Server.Question) : Prop :=
  Server.question q <> [] /\ (length (Server.question q) <= 500)%nat
  /\ Server.id q <> [] /\ (length (Server.rubric q) <= 2000)%nat.

Definition served_grade (answers : list Server.Answer) (g : Server.Grade) : Prop :=
  Server.questionId g ∈ Server.answer_questionId <$> answers
  /\ 0 <= Server.score g <= 100
  /\ (length (Server.feedback g) <= 2000)%nat
  /\ (length (Server.idealAnswer g) <= 2000)%nat.

(** A validated answer: the three texts are there and within their
    limits. *)
Definition valid_answer (a : Server.Answer) : Prop :=
  Server.answer_questionId a <> [] /\ (length (Server.answer_questionId a) <= 120)%nat
  /\ Server.answer_question a <> [] /\ (length (Server.answer_question a) <= 700)%nat
  /\ Server.studentAnswer a <> [] /\ (length (Server.studentAnswer a) <= 10000)%nat.

(** The strings that the regular expression [/^[a-zA-Z0-9._:/-]+$/]
    accepts. *)
Definition valid_model (model : JS.jsstring) : Prop :=
  model <> [] /\ (length model <= 120)%nat
  /\ Forall (fun c => Server.is_model_char c = true) model.

(** Where a validated request is sent: one of the three providers, a model
    name the regular expression accepts, and an address that parses as an
    http or https URL. *)
Definition valid_target (URL_protocol : JS.jsstring -> option JS.jsstring)
    (provider model ollamaBaseUrl : JS.jsstring) : Prop :=
  provider ∈ Server.PROVIDERS
  /\ valid_model model
  /\ (URL_protocol ollamaBaseUrl = Some (JS.lit "http:")
      \/ URL_protocol ollamaBaseUrl = Some (JS.lit "https:")).

(** The limits a validated generation request is within. *)
Definition valid_generate_input (URL_protocol : JS.jsstring -> option JS.jsstring)
    (input : Server.GenerateInput.t) : Prop :=
  valid_target URL_protocol (Server.GenerateInput.provider input)
    (Server.GenerateInput.model input) (Server.GenerateInput.ollamaBaseUrl input)
  /\ 1 <= Server.GenerateInput.count input <= 15
  /\ Server.GenerateInput.difficulty input
     ∈ [JS.lit "easy"; JS.lit "medium"; JS.lit "hard"; JS.lit "mixed"]
  /\ Server.GenerateInput.style input
     ∈ [JS.lit "comprehension"; JS.lit "critical_thinking"; JS.lit "mixed"]
  /\ (length (Server.BookInput.title (Server.GenerateInput.book input)) <= 300)%nat
  /\ (length (Server.BookInput.author (Server.GenerateInput.book input)) <= 300)%nat
  /\ (length (Server.ChapterInput.label (Server.GenerateInput.chapter input)) <= 300)%nat
  /\ (length (Server.ChapterInput.summary (Server.GenerateInput.chapter input)) <= 7000)%nat
  /\ (length (Server.ChapterInput.takeaways (Server.GenerateInput.chapter input))
      <= 5000)%nat
  /\ (length (Server.ChapterInput.reflection (Server.GenerateInput.chapter input))
      <= 5000)%nat.

(** The limits a validated grading request is within. *)
Definition valid_grade_input (URL_protocol : JS.jsstring -> option JS.jsstring)
    (input : Server.GradeInput.t) : Prop :=
  valid_target URL_protocol (Server.GradeInput.provider input)
    (Server.GradeInput.model input) (Server.GradeInput.ollamaBaseUrl input)
  /\ (1 <= length (Server.GradeInput.answers input) <= 20)%nat
  /\ Forall valid_answer (Server.GradeInput.answers input)
  /\ (length (Server.BookInput.title (Server.GradeInput.book input)) <= 300)%nat
  /\ (length (Server.BookInput.author (Server.GradeInput.book input)) <= 300)%nat
  /\ (length (Server.GradeChapterInput.label (Server.GradeInput.chapter input))
      <= 300)%nat
  /\ (length (Server.GradeChapterInput.summary (Server.GradeInput.chapter input))
      <= 7000)%nat
  /\ (length (Server.GradeChapterInput.takeaways (Server.GradeInput.chapter input))
      <= 5000)%nat.

(** The shape of the AI data of a normalized blob. *)

(** An integer from [min] to [max]. *)
Definition int_within (min max : Z) (v : JS.jsval) : Prop :=
  exists z, v = JS.of_int z /\ min <= z <= max.

(** A string of at most [max] code units. *)
Definition string_within (max : nat) (v : JS.jsval) : Prop :=
  exists s, v = JS.JStr s /\ (length s <= max)%nat.

(** A string of at most [max] code units that is not empty. *)
Definition text_within (max : nat) (v : JS.jsval) : Prop :=
  exists s, v = JS.JStr s /\ s <> [] /\ (length s <= max)%nat.

Definition valid_config (config : JS.jsval) : Prop :=
  int_within 1 15 (JS.get config "count")
  /\ Data.isAIDifficulty (JS.get config "difficulty") = true
  /\ Data.isAIQuestionStyle (JS.get config "style") = true.

Definition valid_grade_result (r : JS.jsval) : Prop :=
  JS.is_string (JS.get r "questionId") = true
  /\ string_within 500 (JS.get r "question")
  /\ string_within 10000 (JS.get r "studentAnswer")
  /\ int_within 0 100 (JS.get r "score").

Definition valid_feedback_entry (entry : JS.jsval) : Prop :=
  int_within 0 100 (JS.get entry "averageScore")
  /\ Data.isAIDifficulty (JS.get entry "difficulty") = true
  /\ Data.isAIQuestionStyle (JS.get entry "style") = true
  /\ exists results, JS.get entry "results" = JS.JArr results /\ results <> []
                     /\ Forall valid_grade_result results.

Definition valid_generated_question (q : JS.jsval) : Prop :=
  JS.is_string (JS.get q "id") = true
  /\ text_within 500 (JS.get q "question")
  /\ Data.isAIDifficulty (JS.get q "difficulty") = true
  /\ Data.isAIQuestionStyle (JS.get q "style") = true.

Definition valid_draft_answer (a : JS.jsval) : Prop :=
  text_within 10000 (JS.get a "answer").

(** The references of an application state all resolve inside it: a
    chapter names a book; a question-and-answer and a generated question
    name a chapter; a draft answer names a generated question of its
    chapter; a feedback entry names a chapter of its book. *)
Definition consistent (d : App.UserData) : Prop :=
  Forall (fun ch => exists b, b ∈ App.books d /\ App.Book.id b = App.ChapterEntry.bookId ch)
         (App.chapters d)
  /\ Forall (fun qa => exists ch, ch ∈ App.chapters d
                                  /\ App.ChapterEntry.id ch = App.QA.chapterId qa)
            (App.qas d)
  /\ Forall (fun q => exists ch, ch ∈ App.chapters d
                                 /\ App.ChapterEntry.id ch = App.AIGeneratedQuestion.chapterId q)
            (App.generatedQuestions (App.aiCoach d))
  /\ Forall (fun a => exists q, q ∈ App.generatedQuestions (App.aiCoach d)
                                /\ App.AIGeneratedQuestion.id q = App.AIDraftAnswer.questionId a
                                /\ App.AIGeneratedQuestion.chapterId q
                                   = App.AIDraftAnswer.chapterId a)
            (App.draftAnswers (App.aiCoach d))
  /\ Forall (fun entry => exists ch, ch ∈ App.chapters d
                                     /\ App.ChapterEntry.id ch
                                        = App.AIFeedbackEntry.chapterId entry
                                     /\ App.ChapterEntry.bookId ch
                                        = App.AIFeedbackEntry.bookId entry)
            (App.feedbackHistory (App.aiCoach d)).

(** The selected chapter, when there is one, is a chapter of the selected
    book. *)
Definition selection_valid (d : App.UserData) : Prop :=
  forall c, App.selectedChapterId (App.aiCoach d) = Some c ->
    exists ch, ch ∈ App.chapters d /\ App.ChapterEntry.id ch = c
               /\ App.selectedBookId (App.aiCoach d) = Some (App.ChapterEntry.bookId ch).

(** No two draft answers are for the same question of the same chapter. *)
Definition one_draft_per_question (d : App.UserData) : Prop :=
  NoDup ((fun a => (App.AIDraftAnswer.chapterId a, App.AIDraftAnswer.questionId a))
           <$> App.draftAnswers (App.aiCoach d)).

(** A generated question and a draft answer that the repair of
    [normalizeUserData] keeps as they are: the text passes its blank test
    and its [clampStr] returns the text it is given. *)
Definition clean_question (q : App.AIGeneratedQuestion.t) : Prop :=
  Data.is_nonblank_string (JS.JStr (App.AIGeneratedQuestion.question q)) = true
  /\ Data.clampStr_string (App.AIGeneratedQuestion.question q) 500
     = App.AIGeneratedQuestion.question q
  /\ Data.clampStr_string (App.AIGeneratedQuestion.rubric q) 2000
     = App.AIGeneratedQuestion.rubric q.

Definition clean_draft (a : App.AIDraftAnswer.t) : Prop :=
  Data.is_nonblank_string (JS.JStr (App.AIDraftAnswer.answer a)) = true
  /\ Data.clampStr_string (App.AIDraftAnswer.answer a) 10000 = App.AIDraftAnswer.answer a.

Definition texts_clean (d : App.UserData) : Prop :=
  Forall clean_question (App.generatedQuestions (App.aiCoach d))
  /\ Forall clean_draft (App.draftAnswers (App.aiCoach d)).


(** ** Sample data *)

Module Samples.
Import JS Data.

(** A text written with apostrophes where it has double quotes. *)
Definition quoted (s : string) : jsstring :=
  (fun c => if (c =? 39)%N then 34%N else c) <$> lit s.

Definition ts : jsval := str "2025-01-01T00:00:00.000Z".

Definition clock : jsstring := lit "2025-06-01T12:00:00.000Z".

(** The blob of the test "normalizes and filters invalid relational data"
    in [tests/data.test.ts]. *)
Definition test_blob : jsval :=
  obj [("books",
        JArr [obj [("id", str "b1"); ("title", str "Book 1"); ("author", str "Author 1");
                   ("status", str "in_progress"); ("createdAt", ts); ("updatedAt", ts)]]);
       ("chapters",
        JArr [obj [("id", str "ch1"); ("bookId", str "b1"); ("summary", str "summary");
                   ("takeaways", JStr []); ("quotes", JStr []); ("reflection", JStr []);
                   ("createdAt", ts); ("updatedAt", ts)];
              obj [("id", str "ch2"); ("bookId", str "missing-book"); ("summary", str "drop me");
                   ("takeaways", JStr []); ("quotes", JStr []); ("reflection", JStr []);
                   ("createdAt", ts); ("updatedAt", ts)]]);
       ("qas",
        JArr [obj [("id", str "qa1"); ("chapterId", str "ch1"); ("question", str "Q");
                   ("answer", str "A"); ("createdAt", ts); ("updatedAt", ts)];
              obj [("id", str "qa2"); ("chapterId", str "missing-chapter");
                   ("question", str "drop"); ("answer", str "drop");
                   ("createdAt", ts); ("updatedAt", ts)]]);
       ("history",
        JArr [obj [("id", str "h1"); ("type", str "book_created"); ("ts", ts);
                   ("userId", str "u1"); ("label", str "ok")];
              obj [("id", str "h2"); ("type", str "not_real"); ("ts", ts);
                   ("userId", str "u1"); ("label", str "drop")]]);
       ("aiCoach",
        obj [("selectedBookId", str "b1");
             ("selectedChapterId", str "missing-chapter");
             ("lastConfig",
              obj [("count", of_int 99); ("difficulty", str "nope"); ("style", str "nope")]);
             ("generatedQuestions",
              JArr [obj [("id", str "g1"); ("chapterId", str "ch1");
                         ("question", str "What happened?");
                         ("rubric", str "Good answer includes key events.");
                         ("createdAt", ts); ("difficulty", str "easy");
                         ("style", str "comprehension")];
                    obj [("id", str "bad-g"); ("chapterId", str "missing-chapter");
                         ("question", str "drop me"); ("rubric", JStr []);
                         ("createdAt", ts); ("difficulty", str "easy");
                         ("style", str "comprehension")]]);
             ("draftAnswers",
              JArr [obj [("chapterId", str "ch1"); ("questionId", str "g1");
                         ("answer", str "It happened like this."); ("updatedAt", ts)];
                    obj [("chapterId", str "ch1"); ("questionId", str "missing-question");
                         ("answer", str "drop"); ("updatedAt", ts)]]);
             ("feedbackHistory",
              JArr [obj [("id", str "f1"); ("bookId", str "b1"); ("chapterId", str "ch1");
                         ("createdAt", ts); ("difficulty", str "easy");
                         ("style", str "comprehension"); ("averageScore", of_int 150);
                         ("results",
                          JArr [obj [("questionId", str "g1");
                                     ("question", str "What happened?");
                                     ("studentAnswer", str "It happened like this.");
                                     ("score", of_int 120); ("feedback", str "Good");
                                     ("idealAnswer", str "Ideal")];
                                obj [("questionId", of_int 123); ("question", str "drop");
                                     ("studentAnswer", str "drop"); ("score", of_int 50);
                                     ("feedback", JStr []); ("idealAnswer", JStr [])]])];
                    obj [("id", str "bad-feedback"); ("bookId", str "missing-book");
                         ("chapterId", str "ch1"); ("createdAt", ts);
                         ("difficulty", str "easy"); ("style", str "comprehension");
                         ("averageScore", of_int 10); ("results", JArr [])]])])].

(** What [normalizeUserData] returns on it. *)
Definition test_out : jsval :=
  Eval vm_compute in
    match normalizeUserData clock test_blob with
    | Ok out => out
    | Throw _ => JUndefined
    end.

(** A stored generated question whose text is 500 spaces and then a
    letter. *)
Definition padded_question : jsstring := repeat 32%N 500 ++ lit "x".

Definition padded_blob : jsval :=
  obj [("books", JArr [obj [("id", str "b1")]]);
       ("chapters", JArr [obj [("id", str "ch1"); ("bookId", str "b1")]]);
       ("aiCoach",
        obj [("generatedQuestions",
              JArr [obj [("id", str "g1"); ("chapterId", str "ch1");
                         ("question", JStr padded_question); ("rubric", JStr []);
                         ("createdAt", ts); ("difficulty", str "easy");
                         ("style", str "comprehension")]])])].

(** A provider payload whose second entry has no id: the text of
    [{"questions":[{"id":"q2","question":"a"},{"question":"b"}]}]. *)
Definition colliding_payload : jsval :=
  obj [("questions",
        JArr [obj [("id", str "q2"); ("question", str "a")];
              obj [("question", str "b")]])].

(** A grading request with one answer, and a payload that scores it 150,
    scores it "abc", and scores a question that was not asked. *)
Definition one_answer : list Server.Answer :=
  [{| Server.answer_questionId := lit "q1";
      Server.answer_question := lit "Why?";
      Server.studentAnswer := lit "Because." |}].

Definition wild_scores : jsval :=
  obj [("results",
        JArr [obj [("questionId", str "q1"); ("score", of_int 150); ("feedback", str "Good")];
              obj [("questionId", str "q1"); ("score", str "abc")];
              obj [("questionId", str "q9"); ("score", of_int 50)]])].

(** The engine and the environment the request examples run with: ASCII
    lower-casing; a [String] that the examples do not reach; URLs told by
    their scheme; the default address and models; no key in the
    environment. *)
Definition toLowerCase (s : jsstring) : jsstring := ascii_lower <$> s.

Definition String_of (v : jsval) : result jsstring := Throw TypeError.

Definition URL_protocol (url : jsstring) : option jsstring :=
  if Server.starts_with (lit "http://") url then Some (lit "http:")
  else if Server.starts_with (lit "https://") url then Some (lit "https:")
  else None.

Definition base_url : jsstring := lit "http://127.0.0.1:11434".

(** A generation request that asks for 40 questions, in capitals. *)
Definition generate_body : jsval :=
  obj [("provider", str "Ollama");
       ("ollamaBaseUrl", str "http://localhost:11434//");
       ("book", obj [("title", str "  Dune "); ("author", str "Frank Herbert")]);
       ("chapter", obj [("label", str "Chapter 1"); ("summary", str "Paul is tested.")]);
       ("count", of_int 40);
       ("difficulty", str "HARD");
       ("style", str "essay")].

Definition generate_input : Server.GenerateInput.t :=
  {| Server.GenerateInput.provider := lit "ollama";
     Server.GenerateInput.model := lit "tinyllama:latest";
     Server.GenerateInput.ollamaBaseUrl := lit "http://localhost:11434";
     Server.GenerateInput.book :=
       {| Server.BookInput.title := lit "Dune";
          Server.BookInput.author := lit "Frank Herbert" |};
     Server.GenerateInput.chapter :=
       {| Server.ChapterInput.label := lit "Chapter 1";
          Server.ChapterInput.summary := lit "Paul is tested.";
          Server.ChapterInput.takeaways := [];
          Server.ChapterInput.reflection := [] |};
     Server.GenerateInput.count := 15;
     Server.GenerateInput.difficulty := lit "hard";
     Server.GenerateInput.style := lit "comprehension" |}.

(** A grading request with one complete answer, one answer without text
    and one row that is not an object. *)
Definition grade_body : jsval :=
  obj [("provider", str "ollama");
       ("model", str "llama3.2:3b");
       ("answers",
        JArr [obj [("questionId", str "q1"); ("question", str "Why?");
                   ("studentAnswer", str " Because. ")];
              obj [("questionId", str "q2"); ("question", str "Where?");
                   ("studentAnswer", str "   ")];
              of_int 7])].

Definition grade_input : Server.GradeInput.t :=
  {| Server.GradeInput.provider := lit "ollama";
     Server.GradeInput.model := lit "llama3.2:3b";
     Server.GradeInput.ollamaBaseUrl := base_url;
     Server.GradeInput.book := {| Server.BookInput.title := []; Server.BookInput.author := [] |};
     Server.GradeInput.chapter :=
       {| Server.GradeChapterInput.label := [];
          Server.GradeChapterInput.summary := [];
          Server.GradeChapterInput.takeaways := [] |};
     Server.GradeInput.answers :=
       [{| Server.answer_questionId := lit "q1";
           Server.answer_question := lit "Why?";
           Server.studentAnswer := lit "Because." |}] |}.

(** A provider's answer with commentary around a fenced block, and one
    with prose around the JSON. *)
Definition fenced_text : jsstring :=
  lit "Sure! ```json" ++ [10%N] ++ quoted "{'a': [1]}" ++ [10%N] ++ lit "``` Hope it helps.".

Definition prose_text : jsstring := quoted "Answer: {'a': [1]} bye".

(** A provider's payload with two usable questions and a blank one. *)
Definition three_rows : jsval :=
  obj [("questions",
        JArr [obj [("id", str "a"); ("question", str "Why did he leave?")];
              obj [("id", str "b"); ("question", str "   ")];
              obj [("question", str "Where did he go?"); ("rubric", str "names the city")]])].

(** A valid JSON text of 25002 code units: an empty array padded with
    spaces. *)
Definition long_json : jsstring := [91%N] ++ repeat 32%N 25000 ++ [93%N].

End Samples.

(** An application state with one book, two chapters, and generated
    questions and draft answers for both chapters. *)
Module AppSamples.
Import JS App.

Definition t0 : jsstring := lit "2025-01-01T00:00:00.000Z".

Definition book1 : Book.t :=
  {| Book.id := lit "b1"; Book.title := lit "Book 1"; Book.author := lit "Author 1";
     Book.genre := None; Book.coverDataUrl := None; Book.status := in_progress;
     Book.startedAt := None; Book.finishedAt := None;
     Book.createdAt := t0; Book.updatedAt := t0 |}.

Definition chapter (id : string) : ChapterEntry.t :=
  {| ChapterEntry.id := lit id; ChapterEntry.bookId := lit "b1";
     ChapterEntry.number := None; ChapterEntry.title := None;
     ChapterEntry.completedAt := None; ChapterEntry.summary := lit "summary";
     ChapterEntry.takeaways := []; ChapterEntry.quotes := []; ChapterEntry.reflection := [];
     ChapterEntry.createdAt := t0; ChapterEntry.updatedAt := t0 |}.

Definition stored_question (id chapterId : string) : AIGeneratedQuestion.t :=
  {| AIGeneratedQuestion.id := lit id; AIGeneratedQuestion.chapterId := lit chapterId;
     AIGeneratedQuestion.question := lit "What happened?";
     AIGeneratedQuestion.rubric := []; AIGeneratedQuestion.createdAt := t0;
     AIGeneratedQuestion.difficulty := easy; AIGeneratedQuestion.style := comprehension |}.

Definition stored_draft (chapterId questionId : string) : AIDraftAnswer.t :=
  {| AIDraftAnswer.chapterId := lit chapterId; AIDraftAnswer.questionId := lit questionId;
     AIDraftAnswer.answer := lit "It happened."; AIDraftAnswer.updatedAt := t0 |}.

Definition state : UserData :=
  {| books := [book1];
     chapters := [chapter "ch1"; chapter "ch2"];
     qas := [];
     history := [];
     aiCoach :=
       {| selectedBookId := Some (lit "b1");
          selectedChapterId := Some (lit "ch1");
          lastConfig := {| AICoachConfig.count := 6; AICoachConfig.difficulty := mixed;
                           AICoachConfig.style := comprehension |};
          generatedQuestions := [stored_question "g1" "ch1"; stored_question "g2" "ch2"];
          draftAnswers := [stored_draft "ch1" "g1"; stored_draft "ch2" "g2"];
          feedbackHistory := [] |} |}.

Definition uid_gq (k : nat) : jsstring := lit "gq_" ++ decimal k.

(** The provider's response: two questions with the same id and one without
    text. *)
Definition response : jsval :=
  Data.obj [("questions",
             JArr [Data.obj [("id", Data.str "q1"); ("question", Data.str "Why did he leave?")];
                   Data.obj [("id", Data.str "q1"); ("question", Data.str "Where did he go?")];
                   Data.obj [("id", Data.str "q3"); ("question", Data.str "   ")]])].

Definition state_after : UserData :=
  Eval vm_compute in
    match generateAIQuestions_try uid_gq state (lit "u1") book1 (chapter "ch1") response
            (lit "2025-06-01T12:00:00.000Z") (lit "h_1") (lit "2025-06-01T12:00:01.000Z") state
    with
    | Ok next => next
    | Throw _ => state
    end.

(** The sample chapters are listed in their sorted order. *)
Definition sorted (l : list ChapterEntry.t) : list ChapterEntry.t := l.

(** A change of the configuration that asks for 40.4 questions, a known
    difficulty and an unknown style. *)
Definition patch : AICoachConfigPatch.t :=
  {| AICoachConfigPatch.count := Some (Fin (404 # 10));
     AICoachConfigPatch.difficulty := Some (lit "hard");
     AICoachConfigPatch.style := Some (lit "riddle") |}.

(** The answers of the view, and the gateway's grades for them: a score
    above the range, and a grade for a question that was not sent. *)
Definition answers : gmap jsstring jsstring := {[ lit "g1" := lit " It happened. " ]}.

Definition grades : jsval :=
  Data.obj [("results",
             JArr [Data.obj [("questionId", Data.str "g1"); ("score", of_int 130);
                             ("feedback", Data.str "Good")];
                   Data.obj [("questionId", Data.str "g9"); ("score", of_int 50)]])].

Definition state_graded : UserData :=
  Eval vm_compute in
    match gradeAIAnswers_try state (lit "u1") book1 (chapter "ch1")
            [stored_question "g1" "ch1"] answers grades (lit "aif_1")
            (lit "2025-06-01T12:00:00.000Z") (lit "h_1") (lit "2025-06-01T12:00:01.000Z") state
    with
    | Ok next => next
    | Throw _ => state
    end.

End AppSamples.
(** * Properties *)

Import JS.

(** ** Lists and slices *)

Lemma slice_0 {A} (l : list A) (n : nat) : slice l 0 n = take n l.
Proof. unfold slice. rewrite Nat.sub_0_r. reflexivity. Qed.

Lemma filter_filter_neg {A} (P : A -> Prop) `{!forall x, Decision (P x)} (l : list A) :
  filter P (filter (fun x => ~ P x) l) = [].
Proof.
  induction l as [|x l IH]; [reflexivity|].
  rewrite (filter_cons (fun x => ~ P x)). destruct (decide (~ P x)) as [Hn|Hn]; [|exact IH].
  rewrite filter_cons. destruct (decide (P x)); [contradiction|exact IH].
Qed.

Lemma filter_all {A} (P : A -> Prop) `{!forall x, Decision (P x)} (l : list A) :
  Forall P l -> filter P l = l.
Proof.
  induction 1 as [|x l Hx _ IH]; [reflexivity|].
  rewrite filter_cons. destruct (decide (P x)); [|contradiction]. by rewrite IH.
Qed.

Lemma filter_none {A} (P : A -> Prop) `{!forall x, Decision (P x)} (l : list A) :
  Forall (fun x => ~ P x) l -> filter P l = [].
Proof.
  induction 1 as [|x l Hx _ IH]; [reflexivity|].
  rewrite filter_cons. destruct (decide (P x)); [contradiction|exact IH].
Qed.

(** ** The history log *)


(** The other updaters leave the history as it is. *)
Lemma deleteBook_history (b_id : jsstring) (d : App.UserData) :
  App.history (App.deleteBook b_id d) = App.history d.
Proof. reflexivity. Qed.

Lemma generateAIQuestions_update_history (book : App.Book.t) (chapter : App.ChapterEntry.t)
    (normalized : list App.AIGeneratedQuestion.t) (prev : App.UserData) :
  App.history (App.generateAIQuestions_update book chapter normalized prev) = App.history prev.
Proof. reflexivity. Qed.

(** ** Deleting a book *)

(** C8.  The delete-book confirmation replaces the state [d] by one state
    computed from it, in which: no chapter has the deleted book's id as
    [bookId]; no QA, generated question, draft answer or feedback entry has
    the id of a removed chapter (a chapter of [d] whose [bookId] is the
    deleted book) as [chapterId]; the selected book pointer is cleared when
    it was the deleted book and the selected chapter pointer is cleared
    when it was a removed chapter. *)
Theorem deleteBook_cascades :
  forall (b : App.Book.t) (sessionUserId uid_h nowISO : jsstring) (d : App.UserData),
    let B := App.Book.id b in
    let removed (chapterId : jsstring) :=
      exists c, c ∈ App.chapters d /\ App.ChapterEntry.bookId c = B
                /\ App.ChapterEntry.id c = chapterId in
    let d' := App.onConfirm_deleteBook b sessionUserId uid_h nowISO d in
    (forall c, c ∈ App.chapters d' -> App.ChapterEntry.bookId c <> B)
    /\ (forall qa, qa ∈ App.qas d' -> ~ removed (App.QA.chapterId qa))
    /\ (forall q, q ∈ App.generatedQuestions (App.aiCoach d') ->
          ~ removed (App.AIGeneratedQuestion.chapterId q))
    /\ (forall a, a ∈ App.draftAnswers (App.aiCoach d') ->
          ~ removed (App.AIDraftAnswer.chapterId a))
    /\ (forall entry, entry ∈ App.feedbackHistory (App.aiCoach d') ->
          ~ removed (App.AIFeedbackEntry.chapterId entry))
    /\ (App.selectedBookId (App.aiCoach d) = Some B ->
          App.selectedBookId (App.aiCoach d') = None)
    /\ (forall chapterId, App.selectedChapterId (App.aiCoach d) = Some chapterId ->
          removed chapterId -> App.selectedChapterId (App.aiCoach d') = None)
    /\ (forall x, x ∈ App.books d' -> App.Book.id x <> B).
Proof.
  intros b sessionUserId uid_h nowISO d B removed d'.
  assert (Hrem : forall chapterId,
             removed chapterId <->
             chapterId ∈ App.ChapterEntry.id <$>
               filter (fun c => App.ChapterEntry.bookId c = B) (App.chapters d)).
  { intros chapterId. unfold removed. rewrite list_elem_of_fmap. split.
    - intros (c & Hc & HB & Hid). exists c. split; [done|].
      apply list_elem_of_filter. done.
    - intros (c & Hid & Hc). apply list_elem_of_filter in Hc as [HB Hc]. by exists c. }
  subst d'. unfold App.onConfirm_deleteBook, App.pushHistory, App.deleteBook. cbn.
  fold B.
  repeat split.
  - intros c Hc. apply list_elem_of_filter in Hc. tauto.
  - intros qa Hqa. apply list_elem_of_filter in Hqa as [Hqa _]. by rewrite Hrem.
  - intros q Hq. apply list_elem_of_filter in Hq as [Hq _].
    rewrite Hrem. by rewrite elem_of_list_to_set in Hq.
  - intros a Ha. apply list_elem_of_filter in Ha as [Ha _].
    rewrite Hrem. by rewrite elem_of_list_to_set in Ha.
  - intros entry He. apply list_elem_of_filter in He as [He _].
    rewrite Hrem. by rewrite elem_of_list_to_set in He.
  - intros Hsel. by rewrite decide_True.
  - intros chapterId Hsel Hr. rewrite Hsel. cbn.
    rewrite decide_True; [done|]. apply elem_of_list_to_set. by apply Hrem.
  - intros x Hx. apply list_elem_of_filter in Hx. tauto.
Qed.

(** ** Generating questions for a chapter *)

Section GenerateFacts.

Variable uid_gq : nat -> jsstring.

Lemma normalize_loop_chapterId (chapterId ts : jsstring) (config : App.AICoachConfig.t)
    (rawQuestions : list jsval) :
  forall (k : nat) (seenIds : gset jsstring) (normalized : list App.AIGeneratedQuestion.t),
    Forall (fun q => App.AIGeneratedQuestion.chapterId q = chapterId) normalized ->
    Forall (fun q => App.AIGeneratedQuestion.chapterId q = chapterId)
           (App.normalize_loop uid_gq chapterId ts config rawQuestions k seenIds normalized).
Proof.
  induction rawQuestions as [|item rest IH]; intros k seenIds normalized Hacc; [exact Hacc|].
  cbn [App.normalize_loop]. case_bool_decide; [by apply IH|].
  repeat case_bool_decide; apply IH; apply Forall_app; split; trivial;
    apply Forall_singleton; reflexivity.
Qed.

(** C9.  When the [try] block of [generateAIQuestions] completes for the
    selected chapter [C], the stored generated questions with [chapterId]
    [C] are exactly the newly normalized ones (those stored before are
    gone) and the questions of every other chapter are the ones stored
    before, in the same order; no draft answer with [chapterId] [C] is
    left and the draft answers of every other chapter are unchanged. *)
Theorem generateAIQuestions_replaces_chapter :
  forall (data : App.UserData) (sessionUserId : jsstring)
         (aiSelectedBook : App.Book.t) (aiSelectedChapter : App.ChapterEntry.t)
         (response : jsval) (ts uid_h now_h : jsstring) (prev next : App.UserData),
    App.generateAIQuestions_try uid_gq data sessionUserId aiSelectedBook aiSelectedChapter
      response ts uid_h now_h prev = Ok next ->
    let C := App.ChapterEntry.id aiSelectedChapter in
    let normalized :=
      App.normalize_loop uid_gq C ts (App.lastConfig (App.aiCoach data))
        (Data.array_or_empty (get response "questions")) O ∅ [] in
    normalized <> []
    /\ App.generatedQuestions (App.aiCoach next)
       = normalized ++ filter (fun q => App.AIGeneratedQuestion.chapterId q <> C)
                              (App.generatedQuestions (App.aiCoach prev))
    /\ filter (fun q => App.AIGeneratedQuestion.chapterId q = C)
              (App.generatedQuestions (App.aiCoach next)) = normalized
    /\ filter (fun q => App.AIGeneratedQuestion.chapterId q <> C)
              (App.generatedQuestions (App.aiCoach next))
       = filter (fun q => App.AIGeneratedQuestion.chapterId q <> C)
                (App.generatedQuestions (App.aiCoach prev))
    /\ filter (fun a => App.AIDraftAnswer.chapterId a = C)
              (App.draftAnswers (App.aiCoach next)) = []
    /\ filter (fun a => App.AIDraftAnswer.chapterId a <> C)
              (App.draftAnswers (App.aiCoach next))
       = filter (fun a => App.AIDraftAnswer.chapterId a <> C)
                (App.draftAnswers (App.aiCoach prev)).
Proof.
  intros data sessionUserId book chapter response ts uid_h now_h prev next Htry C normalized.
  unfold App.generateAIQuestions_try in Htry.
  destruct (get_prop response "questions") as [questions|e] eqn:Hq; [|discriminate].
  cbn in Htry.
  assert (Hrows : match questions with JArr items => items | _ => [] end
                  = Data.array_or_empty (get response "questions")).
  { unfold get_prop in Hq. destruct response; try discriminate; by inversion Hq. }
  rewrite Hrows in Htry. fold C normalized in Htry.
  case_bool_decide as Hlen; [discriminate|]. inversion Htry as [Hnext]. clear Htry.
  cbn [App.pushHistory App.generateAIQuestions_update App.aiCoach App.generatedQuestions
       App.draftAnswers]. fold C.
  assert (Hall : Forall (fun q => App.AIGeneratedQuestion.chapterId q = C) normalized).
  { apply normalize_loop_chapterId. constructor. }
  split; [by destruct normalized|]. split; [reflexivity|].
  split; [|split; [|split]].
  - rewrite filter_app, (filter_all _ _ Hall), filter_filter_neg. apply app_nil_r.
  - rewrite filter_app, list_filter_filter.
    rewrite (filter_none (fun q => App.AIGeneratedQuestion.chapterId q <> C) normalized).
    + cbn. apply list_filter_iff. tauto.
    + eapply Forall_impl; [exact Hall|]. cbn. intros q Hq' Hn. contradiction.
  - apply filter_filter_neg.
  - rewrite list_filter_filter. apply list_filter_iff. tauto.
Qed.

End GenerateFacts.

(** ** The gateway: grades *)

Lemma Map_of_lookup {V} (entries : list (jsstring * V)) (k : jsstring) (v : V) :
  Server.Map_of entries !! k = Some v -> (k, v) ∈ entries.
Proof.
  unfold Server.Map_of.
  assert (H : forall (m : gmap jsstring V),
             foldl (fun m e => <[e.1 := e.2]> m) m entries !! k = Some v ->
             m !! k = Some v \/ (k, v) ∈ entries).
  { induction entries as [|[k' v'] entries IH]; intros m Hm; [by left|].
    cbn in Hm. apply IH in Hm as [Hm|Hm].
    - destruct (decide (k' = k)) as [->|Hne].
      + rewrite lookup_insert_eq in Hm. inversion Hm. right. left.
      + rewrite lookup_insert_ne in Hm by done. by left.
    - right. by right. }
  intros Hm. apply H in Hm as [Hm|Hm]; [|done]. by rewrite lookup_empty in Hm.
Qed.



(** The conversion of a score throws only on an object that carries its own
    [toString]: on a number, a string, a boolean, [null] or a missing score
    there is a result. *)
Lemma toInt_primitive (value : jsval) (fallback : Z) :
  match value with
  | JArr _ | JObj _ => True
  | _ => exists n, Server.toInt value fallback = Ok n
  end.
Proof.
  destruct value as [| |b|n|s|items|props]; trivial; unfold Server.toInt; cbn.
  - by eexists.
  - by eexists.
  - by eexists.
  - destruct n; by eexists.
  - destruct (StringToNumber s); by eexists.
Qed.

(** ** The gateway: questions *)

Lemma clampText_length (value : jsval) (maxLen : nat) :
  (length (Server.clampText value maxLen) <= maxLen)%nat.
Proof.
  unfold Server.clampText. destruct value; try (cbn; lia).
  destruct (Nat.ltb_spec maxLen (length (trim s))).
  - rewrite slice_0, length_take. lia.
  - lia.
Qed.

Lemma normalizeQuestions_loop_ok (expectedCount : Z) (rows : list jsval) :
  forall out usedIds,
    (Z.of_nat (length out) <= Z.max 0 expectedCount) -> Forall question_ok out ->
    let out' := Server.normalizeQuestions_loop expectedCount rows out usedIds in
    (Z.of_nat (length out') <= Z.max 0 expectedCount) /\ Forall question_ok out'.
Proof.
  induction rows as [|row rows IH]; intros out usedIds Hlen Hout; [by split|].
  cbn [Server.normalizeQuestions_loop].
  destruct (Z.leb_spec expectedCount (Z.of_nat (length out))); [by split|].
  case_bool_decide as Hq; [by apply IH|].
  apply IH.
  - rewrite length_app. cbn. lia.
  - apply Forall_app. split; [exact Hout|]. apply Forall_singleton.
    split; cbn; [exact Hq|apply clampText_length].
Qed.

(** [readCount] returns a count between 1 and 15. *)
Lemma readCount_range (value : jsval) (n : Z) :
  Server.readCount value = Ok n -> 1 <= n <= 15.
Proof.
  unfold Server.readCount. destruct (Server.toInt value 6); [|discriminate].
  cbn. intros [= <-]. lia.
Qed.

(** The part of the contract of [normalizeQuestions] that holds on every
    payload: at most [expectedCount] questions, each with a non-empty text
    of at most 500 code units. *)
Lemma normalizeQuestions_count_and_text (parsed : jsval) (expectedCount : Z) :
  0 <= expectedCount ->
  (Z.of_nat (length (Server.normalizeQuestions parsed expectedCount)) <= expectedCount)
  /\ Forall question_ok (Server.normalizeQuestions parsed expectedCount).
Proof.
  intros Hc. unfold Server.normalizeQuestions.
  destruct (normalizeQuestions_loop_ok expectedCount
              match get parsed "questions" with JArr rows => rows | _ => [] end [] ∅)
    as [H1 H2]; [cbn; lia|constructor|].
  split; [lia|exact H2].
Qed.

(** ** The gateway: extracting JSON from the provider's text *)

Section ParseFacts.

Variable JSON_parse : jsstring -> option jsval.

Lemma first_parse_Ok (attempts : list jsstring) (v : jsval) :
  Server.first_parse JSON_parse attempts = Ok v <->
  exists tried candidate rest,
    attempts = tried ++ candidate :: rest
    /\ Forall (fun t => JSON_parse t = None) tried
    /\ JSON_parse candidate = Some v.
Proof.
  induction attempts as [|c attempts IH]; cbn.
  - split; [discriminate|]. intros (tried & c & rest & H & _). by destruct tried.
  - destruct (JSON_parse c) as [w|] eqn:Hc.
    + split.
      * intros [= ->]. exists [], c, attempts. by repeat split.
      * intros (tried & c' & rest & H & Htried & Hc').
        destruct tried as [|t tried]; cbn in H; inversion H; subst.
        -- congruence.
        -- apply Forall_cons in Htried as [Ht _]. congruence.
    + rewrite IH. split.
      * intros (tried & c' & rest & -> & Htried & Hc').
        exists (c :: tried), c', rest. repeat split; [|done]. by constructor.
      * intros (tried & c' & rest & H & Htried & Hc').
        destruct tried as [|t tried]; cbn in H; inversion H; subst; [congruence|].
        apply Forall_cons in Htried as [_ Htried]. by exists tried, c', rest.
Qed.

Lemma first_parse_Throw (attempts : list jsstring) (e : exn) :
  Server.first_parse JSON_parse attempts = Throw e <->
  e = Server.bad_json /\ Forall (fun t => JSON_parse t = None) attempts.
Proof.
  induction attempts as [|c attempts IH]; cbn.
  - split; [by intros [= <-]|by intros [-> _]].
  - destruct (JSON_parse c) as [w|] eqn:Hc.
    + split; [discriminate|]. intros [_ H]. apply Forall_cons in H as [H _]. congruence.
    + rewrite IH. split; intros [-> H]; split; trivial.
      * by constructor.
      * by apply Forall_cons in H as [_ H].
Qed.

Lemma clampText_string (s : jsstring) (maxLen : nat) :
  Server.clampText (JStr s) maxLen = take maxLen (trim s).
Proof.
  unfold Server.clampText. destruct (Nat.ltb_spec maxLen (length (trim s))).
  - apply slice_0.
  - symmetry. apply take_ge. lia.
Qed.

(** C7, as the code has it.  The provider's text is first trimmed and cut
    to its first 25000 code units.  The candidates are then, in this
    order: that text; the trimmed contents of the first fenced block, when
    there is one and it is not empty; the part of the text from its first
    opening brace to its last closing brace, when the first comes before
    the last.  The result is what the first candidate that parses parses
    to, and the call fails, with the error "Provider did not return valid
    JSON." and no other, exactly when no candidate parses. *)
Theorem parseModelJson_first_candidate :
  forall (content : jsstring),
    let text := take 25000 (trim content) in
    let fenced :=
      match Server.match_fenced text with
      | Some [] | None => []
      | Some group1 => [trim group1]
      end in
    let firstBrace := Server.indexOf text (lit "{") in
    let lastBrace := Server.lastIndexOf text 125%N in
    let braces :=
      if (0 <=? firstBrace) && (firstBrace <? lastBrace)
      then [slice text (Z.to_nat firstBrace) (Z.to_nat (lastBrace + 1))] else [] in
    let candidates := [text] ++ fenced ++ braces in
    (forall v,
        Server.parseModelJson JSON_parse (JStr content) = Ok v <->
        exists tried candidate rest,
          candidates = tried ++ candidate :: rest
          /\ Forall (fun t => JSON_parse t = None) tried
          /\ JSON_parse candidate = Some v)
    /\ (Server.parseModelJson JSON_parse (JStr content) = Throw Server.bad_json <->
        Forall (fun t => JSON_parse t = None) candidates)
    /\ (forall e, Server.parseModelJson JSON_parse (JStr content) = Throw e ->
                  e = Server.bad_json).
Proof.
  intros content text fenced firstBrace lastBrace braces candidates.
  assert (Hc : Server.attempts_of text = candidates).
  { unfold Server.attempts_of. fold firstBrace lastBrace.
    subst candidates braces fenced.
    destruct (Server.match_fenced text) as [[|c g]|];
      destruct ((0 <=? firstBrace) && (firstBrace <? lastBrace)); cbn;
      by rewrite ?app_nil_r. }
  unfold Server.parseModelJson. rewrite clampText_string. fold text. rewrite Hc.
  split; [|split].
  - intros v. apply first_parse_Ok.
  - rewrite first_parse_Throw. tauto.
  - intros e He. by apply first_parse_Throw in He as [-> _].
Qed.

End ParseFacts.

(** What the two extracted candidates are, on a text of the expected
    shape. *)

Lemma starts_with_app (pat s : jsstring) : Server.starts_with pat (pat ++ s) = true.
Proof. induction pat as [|p pat IH]; [by destruct s|]. cbn. by rewrite N.eqb_refl. Qed.

Lemma starts_with_head (pat s : jsstring) (p c : N) :
  p <> c -> Server.starts_with (p :: pat) (c :: s) = false.
Proof. intros H. cbn. by apply N.eqb_neq in H as ->. Qed.

Lemma find_first_skip (p : N) (pat a s : jsstring) :
  p ∉ a -> Server.find_first (p :: pat) (a ++ s)
           = (fun i => (length a + i)%nat) <$> Server.find_first (p :: pat) s.
Proof.
  intros Ha. induction a as [|c a IH].
  - cbn [app length]. by destruct (Server.find_first (p :: pat) s).
  - apply not_elem_of_cons in Ha as [Hc Ha].
    cbn [app Server.find_first]. rewrite starts_with_head by done.
    rewrite IH by done. by destruct (Server.find_first (p :: pat) s).
Qed.

Lemma find_first_here (pat s : jsstring) :
  Server.find_first pat (pat ++ s) = Some O.
Proof. destruct pat, s; cbn; rewrite ?N.eqb_refl, ?starts_with_app; reflexivity. Qed.

Lemma find_last_none (c : N) (b : jsstring) :
  forall i found, c ∉ b -> Server.find_last c b i found = found.
Proof.
  induction b as [|x b IH]; intros i found Hb; [reflexivity|].
  apply not_elem_of_cons in Hb as [Hx Hb]. cbn.
  apply N.eqb_neq in Hx as ->. by apply IH.
Qed.

Lemma find_last_app (c : N) (a b : jsstring) :
  forall i found, c ∉ b ->
    Server.find_last c (a ++ c :: b) i found = Some (i + length a)%nat.
Proof.
  induction a as [|x a IH]; intros i found Hb; cbn.
  - rewrite N.eqb_refl, find_last_none by done. f_equal. lia.
  - rewrite IH by done. f_equal. lia.
Qed.

(** The text between the first opening brace and the last closing brace. *)
Lemma brace_candidate (a mid b : jsstring) :
  123%N ∉ a -> 125%N ∉ b ->
  let text := a ++ [123%N] ++ mid ++ [125%N] ++ b in
  let firstBrace := Server.indexOf text (lit "{") in
  let lastBrace := Server.lastIndexOf text 125%N in
  (0 <=? firstBrace) && (firstBrace <? lastBrace) = true
  /\ slice text (Z.to_nat firstBrace) (Z.to_nat (lastBrace + 1)) = [123%N] ++ mid ++ [125%N].
Proof.
  intros Ha Hb text firstBrace lastBrace.
  assert (H1 : firstBrace = Z.of_nat (length a)).
  { subst firstBrace text. unfold Server.indexOf. change (lit "{") with [123%N].
    rewrite find_first_skip by done.
    rewrite (find_first_here [123%N]). cbn. f_equal. lia. }
  assert (H2 : lastBrace = Z.of_nat (length a + 1 + length mid)).
  { subst lastBrace text. unfold Server.lastIndexOf.
    replace (a ++ [123%N] ++ mid ++ [125%N] ++ b)
      with ((a ++ [123%N] ++ mid) ++ 125%N :: b) by by rewrite <- !app_assoc.
    rewrite find_last_app by done. rewrite !length_app. cbn. f_equal. lia. }
  rewrite H1, H2. split.
  - apply andb_true_iff. split; [apply Z.leb_le|apply Z.ltb_lt]; lia.
  - unfold slice. subst text. rewrite Nat2Z.id.
    replace (Z.to_nat (Z.of_nat (length a + 1 + length mid) + 1) - length a)%nat
      with (length ([123%N] ++ mid ++ [125%N])) by (rewrite !length_app; cbn; lia).
    rewrite drop_app_length.
    replace ([123%N] ++ mid ++ [125%N] ++ b) with (([123%N] ++ mid ++ [125%N]) ++ b)
      by by rewrite <- !app_assoc.
    apply take_app_length.
Qed.

Lemma trim_start_app (ws s : jsstring) :
  Forall (fun c => is_white_space c = true) ws ->
  match s with
  | [] => True
  | c :: _ => is_white_space c = false
  end ->
  trim_start (ws ++ s) = s.
Proof.
  intros Hws Hs. induction Hws as [|c ws Hc _ IH]; cbn.
  - destruct s as [|c s]; [reflexivity|]. cbn. by rewrite Hs.
  - by rewrite Hc.
Qed.

(** The contents of a fenced block: commentary without backquotes, the
    fence, [json] in any letter case or nothing, white space, a body
    without backquotes, the closing fence. *)
Lemma fenced_candidate (pre tag ws body post : jsstring) :
  96%N ∉ pre -> 96%N ∉ body ->
  (ascii_lower <$> tag = lit "json"
   \/ tag = [] /\ Server.starts_with (lit "json")
                    (ascii_lower <$> take 4 (ws ++ body ++ Server.fence ++ post)) = false) ->
  Forall (fun c => is_white_space c = true) ws ->
  match body with
  | [] => True
  | c :: _ => is_white_space c = false
  end ->
  Server.match_fenced (pre ++ Server.fence ++ tag ++ ws ++ body ++ Server.fence ++ post)
  = Some body.
Proof.
  intros Hpre Hbody Htag Hws Hhead.
  induction pre as [|c pre IH].
  - change (Server.match_fenced ([] ++ Server.fence ++ tag ++ ws ++ body ++ Server.fence ++ post))
      with (match Server.fenced_capture (tag ++ ws ++ body ++ Server.fence ++ post) with
            | Some group1 => Some group1
            | None => Server.match_fenced
                        ([96%N; 96%N] ++ tag ++ ws ++ body ++ Server.fence ++ post)
            end).
    assert (Hcap : Server.fenced_capture (tag ++ ws ++ body ++ Server.fence ++ post)
                   = Some body); [|by rewrite Hcap].
    unfold Server.fenced_capture.
    assert (Hrest : (if Server.starts_with (lit "json")
                          (ascii_lower <$> take 4 (tag ++ ws ++ body ++ Server.fence ++ post))
                     then drop 4 (tag ++ ws ++ body ++ Server.fence ++ post)
                     else tag ++ ws ++ body ++ Server.fence ++ post)
                    = ws ++ body ++ Server.fence ++ post).
    { destruct Htag as [Htag|[-> Htag]].
      - assert (Hlen : length tag = 4%nat).
        { apply (f_equal length) in Htag. by rewrite length_fmap in Htag. }
        rewrite take_app_length' by done. rewrite Htag.
        rewrite drop_app_length' by done. reflexivity.
      - cbn [app]. by rewrite Htag. }
    rewrite Hrest.
    rewrite trim_start_app; [|done|].
    + pose proof (find_first_skip 96%N [96%N; 96%N] body (Server.fence ++ post) Hbody) as Hf.
      change (96%N :: [96%N; 96%N]) with Server.fence in Hf.
      rewrite Hf, find_first_here. cbn [fmap option_fmap option_map mbind option_bind].
      rewrite Nat.add_0_r. by rewrite take_app_length.
    + destruct body; [reflexivity|exact Hhead].
  - apply not_elem_of_cons in Hpre as [Hc Hpre].
    cbn [app Server.match_fenced]. change Server.fence with (96%N :: [96%N; 96%N]) at 1.
    rewrite starts_with_head by done. by apply IH.
Qed.

(** ** Client-side data repair *)

Lemma mapR_Ok {A B} (f : A -> result B) (l : list A) (r : list B) :
  mapR f l = Ok r -> Forall2 (fun x y => f x = Ok y) l r.
Proof.
  revert r. induction l as [|x l IH]; intros r H; cbn in H.
  - inversion H. constructor.
  - destruct (f x) as [y|] eqn:Hy; [|discriminate]. cbn in H.
    destruct (mapR f l) as [r'|]; [|discriminate]. cbn in H. inversion H. subst.
    constructor; [done|by apply IH].
Qed.

Lemma filterM_Ok {A} (p : A -> result bool) (l r : list A) :
  filterM p l = Ok r -> sublist r l /\ Forall (fun x => p x = Ok true) r.
Proof.
  revert r. induction l as [|x l IH]; intros r H; cbn in H.
  - inversion H. split; constructor.
  - destruct (p x) as [b|] eqn:Hb; [|discriminate]. cbn in H.
    destruct (filterM p l) as [r'|]; [|discriminate]. cbn in H. inversion H. subst.
    destruct (IH r' eq_refl) as [Hs Hf]. destruct b.
    + split; [by constructor|by constructor].
    + split; [by constructor|done].
Qed.

Lemma get_prop_Ok (v w : jsval) (k : string) : get_prop v k = Ok w -> w = get v k.
Proof. unfold get_prop. destruct v; by intros [= <-]. Qed.

Lemma mapR_get_prop (k : string) (l r : list jsval) :
  mapR (fun v => get_prop v k) l = Ok r -> r = (fun v => get v k) <$> l.
Proof.
  intros H. apply mapR_Ok in H. induction H as [|x y l r Hxy _ IH]; [reflexivity|].
  cbn. apply get_prop_Ok in Hxy. by rewrite Hxy, IH.
Qed.



Section NormalizeFacts.

Variable nowISO : jsstring.

(** What a completed run computed. *)
Lemma normalizeUserData_Ok (raw out : jsval) :
  Data.normalizeUserData nowISO raw = Ok out ->
  let books := Data.array_or_empty (get raw "books") in
  let bookIds := (fun b => get b "id") <$> books in
  let aiCoachRaw := get raw "aiCoach" in
  let lastConfigRaw := nullish_or (get aiCoachRaw "lastConfig") (JObj []) in
  exists chapters generatedQuestions draftAnswers feedbackEntries qas count,
    let chapterIds := (fun ch => get ch "id") <$> chapters in
    mapR (fun b => get_prop b "id") books = Ok bookIds
    /\ filterM (fun ch => bookId ← get_prop ch "bookId"; Ok (Set_has bookIds bookId))
               (Data.array_or_empty (get raw "chapters")) = Ok chapters
    /\ mapR (Data.generatedQuestion_of nowISO)
            (filter (fun q => Data.generatedQuestion_ok chapterIds q = true)
                    (Data.array_or_empty (get aiCoachRaw "generatedQuestions")))
       = Ok generatedQuestions
    /\ mapR (Data.draftAnswer_of nowISO)
            (filter (fun a => Data.draftAnswer_ok chapterIds
                                ((fun q => get q "id") <$> generatedQuestions) a = true)
                    (Data.array_or_empty (get aiCoachRaw "draftAnswers")))
       = Ok draftAnswers
    /\ mapR (Data.feedbackEntry_of nowISO)
            (filter (fun entry => Data.feedbackEntry_ok bookIds chapterIds entry = true)
                    (Data.array_or_empty (get aiCoachRaw "feedbackHistory")))
       = Ok feedbackEntries
    /\ filterM (fun qa => chapterId ← get_prop qa "chapterId";
                          Ok (Set_has chapterIds chapterId))
               (Data.array_or_empty (get raw "qas")) = Ok qas
    /\ Data.clampInt (get lastConfigRaw "count") 1 15 Data.default_count = Ok count
    /\ out =
       Data.obj
         [("books", JArr books);
          ("chapters", JArr chapters);
          ("qas", JArr qas);
          ("history", JArr (Data.history_of raw));
          ("aiCoach",
           Data.obj
             [("selectedBookId", Data.selectedBookId_from bookIds aiCoachRaw);
              ("selectedChapterId",
               Data.selectedChapterId_from chapters
                 (Data.selectedBookId_from bookIds aiCoachRaw) aiCoachRaw);
              ("lastConfig",
               Data.obj
                 [("count", of_int count);
                  ("difficulty", Data.keep_difficulty (get lastConfigRaw "difficulty"));
                  ("style", Data.keep_style (get lastConfigRaw "style"))]);
              ("generatedQuestions", JArr generatedQuestions);
              ("draftAnswers", JArr draftAnswers);
              ("feedbackHistory", JArr (Data.feedbackHistory_from feedbackEntries))])].
Proof.
  intros H books bookIds aiCoachRaw lastConfigRaw. unfold Data.normalizeUserData in H.
  fold books aiCoachRaw in H.
  destruct (mapR (fun b => get_prop b "id") books) as [bookIds'|] eqn:Hb; [|discriminate].
  pose proof (mapR_get_prop _ _ _ Hb) as Hb'. fold bookIds in Hb'. subst bookIds'.
  cbn [mbind result_bind] in H.
  destruct (filterM _ (Data.array_or_empty (get raw "chapters"))) as [chapters|] eqn:Hc;
    [|discriminate].
  cbn [mbind result_bind] in H.
  destruct (mapR (Data.generatedQuestion_of nowISO) _) as [gq|] eqn:Hgq; [|discriminate].
  cbn [mbind result_bind] in H.
  destruct (mapR (Data.draftAnswer_of nowISO) _) as [da|] eqn:Hda; [|discriminate].
  cbn [mbind result_bind] in H.
  destruct (mapR (Data.feedbackEntry_of nowISO) _) as [fe|] eqn:Hfe; [|discriminate].
  cbn [mbind result_bind] in H.
  destruct (filterM _ (Data.array_or_empty (get raw "qas"))) as [qas|] eqn:Hqas; [|discriminate].
  cbn [mbind result_bind] in H. fold lastConfigRaw in H.
  destruct (Data.clampInt (get lastConfigRaw "count") 1 15 Data.default_count) as [count|] eqn:Hn;
    [|discriminate].
  cbn [mbind result_bind] in H. injection H as <-.
  exists chapters, gq, da, fe, qas, count. repeat split; assumption.
Qed.

Lemma mapR_elem {A B} (f : A -> result B) (l : list A) (r : list B) :
  mapR f l = Ok r -> forall y, y ∈ r -> exists x, x ∈ l /\ f x = Ok y.
Proof.
  intros H. apply mapR_Ok in H. induction H as [|x y l r Hxy _ IH]; intros z Hz.
  - by apply elem_of_nil in Hz.
  - apply elem_of_cons in Hz as [->|Hz].
    + exists x. split; [left|done].
    + destruct (IH z Hz) as (x' & Hx' & Hf). exists x'. split; [by right|done].
Qed.

Lemma generatedQuestion_of_fields (q q' : jsval) :
  Data.generatedQuestion_of nowISO q = Ok q' ->
  get q' "id" = get q "id" /\ get q' "chapterId" = get q "chapterId".
Proof.
  unfold Data.generatedQuestion_of. intros H.
  destruct (Data.clampStr (get q "question") 500); [|discriminate]. cbn [mbind result_bind] in H.
  destruct (Data.clampStr _ 2000); [|discriminate]. cbn [mbind result_bind] in H.
  injection H as <-. split; reflexivity.
Qed.

Lemma draftAnswer_of_fields (a a' : jsval) :
  Data.draftAnswer_of nowISO a = Ok a' ->
  get a' "chapterId" = get a "chapterId" /\ get a' "questionId" = get a "questionId".
Proof.
  unfold Data.draftAnswer_of. intros H.
  destruct (Data.clampStr (get a "answer") 10000); [|discriminate].
  cbn [mbind result_bind] in H. injection H as <-. split; reflexivity.
Qed.

Lemma feedbackEntry_of_fields (entry entry' : jsval) :
  Data.feedbackEntry_of nowISO entry = Ok entry' ->
  get entry' "bookId" = get entry "bookId" /\ get entry' "chapterId" = get entry "chapterId".
Proof.
  unfold Data.feedbackEntry_of. intros H.
  destruct (Data.clampInt (get entry "averageScore") 0 100 0); [|discriminate].
  cbn [mbind result_bind] in H.
  destruct (mapR Data.gradeResult_of _); [|discriminate].
  cbn [mbind result_bind] in H. injection H as <-. split; reflexivity.
Qed.

Lemma feedbackHistory_from_elem (entries : list jsval) (e : jsval) :
  e ∈ Data.feedbackHistory_from entries -> e ∈ entries.
Proof.
  unfold Data.feedbackHistory_from. rewrite slice_0. intros H.
  apply elem_of_take in H as (i & H & _). apply list_elem_of_lookup_2 in H.
  by apply list_elem_of_filter in H as [_ H].
Qed.


End NormalizeFacts.

(** ** The selected book and chapter *)





Lemma same_value_zero_string (v : jsval) (s : jsstring) :
  same_value_zero (JStr s) v = true <-> v = JStr s.
Proof.
  split.
  - destruct v; cbn; try discriminate. unfold jsstring_eqb. intros H.
    apply bool_decide_eq_true in H. by subst.
  - intros ->. cbn. unfold jsstring_eqb. by apply bool_decide_eq_true.
Qed.

Section PointerFacts.

Variable nowISO : jsstring.


End PointerFacts.

(** ** The gateway: when the ids of the questions are distinct *)

(** The number a string of decimal digits denotes, continuing from [a]. *)
Lemma decimal_digits_value (fuel : nat) :
  forall (n : N) (acc : jsstring),
    (N.to_nat n < fuel)%nat ->
    foldl (fun a c => a * 10 + (c - 48))%N 0%N (decimal_digits fuel n acc)
    = foldl (fun a c => a * 10 + (c - 48))%N n acc.
Proof.
  induction fuel as [|fuel IH]; intros n acc Hn; [lia|].
  cbn [decimal_digits]. destruct (N.ltb_spec n 10) as [Hlt|Hge].
  - cbn [foldl]. rewrite N.mod_small by done.
    by rewrite (N.add_comm 48), N.add_sub, N.mul_0_l, N.add_0_l.
  - rewrite IH.
    + cbn [foldl]. rewrite (N.add_comm 48), N.add_sub, N.mul_comm.
      by rewrite <- N.div_mod by lia.
    + assert (n / 10 < n)%N by (apply N.div_lt; lia). lia.
Qed.

Lemma decimal_inj (j k : nat) : decimal j = decimal k -> j = k.
Proof.
  intros H. apply (f_equal (foldl (fun a c => a * 10 + (c - 48))%N 0%N)) in H.
  unfold decimal in H. rewrite !decimal_digits_value in H by lia. cbn [foldl] in H. lia.
Qed.

Lemma normalizeQuestions_loop_unique (expectedCount : Z) (rows : list jsval) :
  Forall (fun row => ~ synthetic_id (Server.clampText (get row "id") 120)) rows ->
  forall (out : list Server.Question) (usedIds : gset jsstring),
    NoDup (Server.id <$> out) ->
    (forall id, id ∈ Server.id <$> out -> id ∈ usedIds) ->
    (forall k, lit "q" ++ decimal k ∈ usedIds -> (k <= length out)%nat) ->
    NoDup (Server.id <$> Server.normalizeQuestions_loop expectedCount rows out usedIds).
Proof.
  induction 1 as [|row rows Hrow _ IH]; intros out usedIds Hnd Hused Hsyn; [exact Hnd|].
  cbn [Server.normalizeQuestions_loop].
  destruct (expectedCount <=? Z.of_nat (length out)); [exact Hnd|].
  case_bool_decide as Hq; [by apply IH|].
  set (given := Server.clampText (get row "id") 120) in *.
  set (id := if bool_decide (given = []) || bool_decide (given ∈ usedIds)
             then lit "q" ++ decimal (length out + 1) else given).
  assert (Hfresh : id ∉ usedIds).
  { subst id. destruct (bool_decide (given = []) || bool_decide (given ∈ usedIds)) eqn:Hc.
    - intros Hin. apply Hsyn in Hin. lia.
    - apply orb_false_iff in Hc as [_ Hc]. by apply bool_decide_eq_false in Hc. }
  apply IH.
  - rewrite fmap_app. cbn [fmap list_fmap Server.id]. apply NoDup_app. split; [exact Hnd|].
    split; [|apply NoDup_singleton].
    intros x Hx Hx'. apply list_elem_of_singleton in Hx' as ->. apply Hfresh. by apply Hused.
  - intros x. rewrite fmap_app. cbn [fmap list_fmap Server.id].
    rewrite elem_of_app, list_elem_of_singleton, elem_of_union, elem_of_singleton.
    intros [Hx| ->]; [right; by apply Hused|by left].
  - intros k. rewrite elem_of_union, elem_of_singleton, length_app. cbn [length].
    intros [Hk|Hk]; [|apply Hsyn in Hk; lia].
    subst id. destruct (bool_decide (given = []) || bool_decide (given ∈ usedIds)).
    + apply app_inv_head, decimal_inj in Hk. lia.
    + exfalso. apply Hrow. by exists k.
Qed.

(** X28.  The ids of the questions [normalizeQuestions] returns are
    distinct whenever no entry of the provider's payload carries an id of
    the synthetic form, [q] followed by a decimal number: the ids the
    gateway makes up then cannot meet an id of the payload. *)
Lemma normalizeQuestions_unique_ids (parsed : jsval) (expectedCount : Z) :
  Forall (fun row => ~ synthetic_id (Server.clampText (get row "id") 120))
         (Data.array_or_empty (get parsed "questions")) ->
  NoDup (Server.id <$> Server.normalizeQuestions parsed expectedCount).
Proof.
  intros H. unfold Server.normalizeQuestions.
  apply normalizeQuestions_loop_unique.
  - by destruct (get parsed "questions").
  - constructor.
  - intros id Hid. by apply elem_of_nil in Hid.
  - intros k Hk. by apply elem_of_empty in Hk.
Qed.
(** ** Running the repair twice *)

Lemma filterM_all {A} (p : A -> result bool) (l : list A) :
  Forall (fun x => p x = Ok true) l -> filterM p l = Ok l.
Proof. induction 1 as [|x l Hx _ IH]; cbn; [done|]. by rewrite Hx, IH. Qed.

Lemma mapR_fixed {A} (f : A -> result A) (l : list A) :
  Forall (fun x => f x = Ok x) l -> mapR f l = Ok l.
Proof. induction 1 as [|x l Hx _ IH]; cbn; [done|]. by rewrite Hx, IH. Qed.

Lemma mapR_Forall {A B} (f : A -> result B) (P : B -> Prop) (l : list A) (r : list B) :
  mapR f l = Ok r -> (forall x y, x ∈ l -> f x = Ok y -> P y) -> Forall P r.
Proof.
  intros H HP. apply Forall_forall. intros y Hy.
  destruct (mapR_elem f l r H y Hy) as (x & Hx & Hf). by apply (HP x).
Qed.

Lemma Math_round_int (z : Z) : Math_round (inject_Z z) = z.
Proof.
  unfold Math_round, Qfloor, inject_Z, Qplus. cbn [Qnum Qden].
  replace (z * 2 + 1 * 1) with (1 + z * 2) by lia.
  change (Z.pos (1 * 2)) with 2. rewrite Z.div_add by lia. reflexivity.
Qed.

Lemma clampInt_range (value : jsval) (min max fallback z : Z) :
  min <= max -> min <= fallback <= max ->
  Data.clampInt value min max fallback = Ok z -> min <= z <= max.
Proof.
  intros Hmm Hfb. unfold Data.clampInt.
  destruct (ToNumber value) as [n|]; [|discriminate]. cbn.
  destruct n; cbn; intros [= <-]; lia.
Qed.

Lemma clampInt_of_int (min max fallback z : Z) :
  min <= z <= max -> Data.clampInt (of_int z) min max fallback = Ok z.
Proof.
  intros Hz. unfold Data.clampInt, of_int. cbn [ToNumber mbind result_bind isFinite negb].
  rewrite Math_round_int. f_equal. lia.
Qed.

Lemma clampStr_string_idem (s : jsstring) (max : nat) :
  Data.clampStr_string (Data.clampStr_string s max) max = Data.clampStr_string s max.
Proof.
  assert (Hcut : forall t : jsstring, (length t <= max)%nat -> Data.clampStr_string t max = t).
  { intros t Ht. unfold Data.clampStr_string. case_bool_decide as He; [by rewrite He|].
    destruct (Nat.ltb_spec max (length t)); [lia|done]. }
  apply Hcut. unfold Data.clampStr_string. case_bool_decide; [cbn; lia|].
  destruct (Nat.ltb_spec max (length s)); [|lia].
  rewrite slice_0, length_take. lia.
Qed.

(** What [clampStr] returns is left alone by [clampStr], and is never
    [null] or [undefined]. *)
Lemma clampStr_idem (s w : jsval) (max : nat) :
  Data.clampStr s max = Ok w ->
  Data.clampStr w max = Ok w /\ forall d, nullish_or w d = w.
Proof.
  unfold Data.clampStr at 1.
  destruct s as [| |b|n|str|items|props].
  - intros [= <-]. by split.
  - intros [= <-]. by split.
  - destruct b; intros [= <-]; by split.
  - destruct n as [|negative|q].
    + intros [= <-]. by split.
    + intros [= <-]. by split.
    + cbn [truthy negb]. destruct (Qeq_bool q 0) eqn:Hq; intros [= <-]; [by split|].
      split; [|done]. unfold Data.clampStr. cbn [truthy negb]. by rewrite Hq.
  - intros [= <-]. split; [|done]. unfold Data.clampStr. by rewrite clampStr_string_idem.
  - cbn [truthy negb].
    destruct (Nat.ltb_spec max (length items)) as [Hlt|Hge]; intros [= <-];
      (split; [|done]); unfold Data.clampStr; cbn [truthy negb].
    + assert (Hlen : (max <? length (slice items 0 max))%nat = false)
        by (apply Nat.ltb_ge; rewrite slice_0, length_take; lia).
      by rewrite Hlen.
    + destruct (Nat.ltb_spec max (length items)); [lia|done].
  - cbn [truthy negb].
    destruct (ToNumber (get (JObj props) "length")) as [n|] eqn:Hn; [|discriminate].
    cbn [mbind result_bind].
    destruct (num_gt n (Z.of_nat max)) eqn:Hgt; [discriminate|]. intros [= <-].
    split; [|done]. unfold Data.clampStr. cbn [truthy negb]. rewrite Hn.
    cbn [mbind result_bind]. by rewrite Hgt.
Qed.

Lemma keep_difficulty_idem (v : jsval) :
  Data.keep_difficulty (Data.keep_difficulty v) = Data.keep_difficulty v.
Proof.
  unfold Data.keep_difficulty. destruct (Data.isAIDifficulty v) eqn:Hv; [by rewrite Hv|].
  reflexivity.
Qed.

Lemma keep_style_idem (v : jsval) :
  Data.keep_style (Data.keep_style v) = Data.keep_style v.
Proof.
  unfold Data.keep_style. destruct (Data.isAIQuestionStyle v) eqn:Hv; [by rewrite Hv|].
  reflexivity.
Qed.

Lemma nullish_or_string (a : jsval) (s t : jsstring) :
  nullish_or (nullish_or a (JStr s)) (JStr t) = nullish_or a (JStr s).
Proof. by destruct a. Qed.

Lemma clampStr_is_string (s w : jsval) (max : nat) :
  is_string s = true -> Data.clampStr s max = Ok w -> is_string w = true.
Proof. destruct s; try discriminate. intros _ [= <-]. reflexivity. Qed.

Section RerunFacts.

(** The clock readings of the first and of the second run. *)
Variables now1 now2 : jsstring.

Lemma generatedQuestion_of_fixed (q q' : jsval) :
  Data.generatedQuestion_of now1 q = Ok q' -> Data.generatedQuestion_of now2 q' = Ok q'.
Proof.
  unfold Data.generatedQuestion_of at 1. intros H.
  destruct (Data.clampStr (get q "question") 500) as [question|] eqn:Hq; [|discriminate].
  cbn [mbind result_bind] in H.
  destruct (Data.clampStr _ 2000) as [rubric|] eqn:Hr; [|discriminate].
  cbn [mbind result_bind] in H. injection H as <-.
  apply clampStr_idem in Hq as [Hq _]. apply clampStr_idem in Hr as [Hr Hrn].
  unfold Data.generatedQuestion_of.
  change (get (Data.obj _) "question") with question.
  change (get (Data.obj _) "rubric") with rubric.
  change (get (Data.obj _) "id") with (get q "id").
  change (get (Data.obj _) "chapterId") with (get q "chapterId").
  change (get (Data.obj _) "createdAt") with (nullish_or (get q "createdAt") (JStr now1)).
  change (get (Data.obj _) "difficulty") with (Data.keep_difficulty (get q "difficulty")).
  change (get (Data.obj _) "style") with (Data.keep_style (get q "style")).
  rewrite Hq, Hrn, Hr. cbn [mbind result_bind].
  by rewrite nullish_or_string, keep_difficulty_idem, keep_style_idem.
Qed.

Lemma generatedQuestion_ok_kept (chapterIds : list jsval) (q q' : jsval) :
  Data.generatedQuestion_ok chapterIds q = true ->
  Data.generatedQuestion_of now1 q = Ok q' ->
  Data.is_nonblank_string (get q' "question") = true ->
  Data.generatedQuestion_ok chapterIds q' = true.
Proof.
  unfold Data.generatedQuestion_ok at 1. rewrite !andb_true_iff.
  intros ((((_ & Hid) & Hcs) & Hch) & _) Hof Hnb.
  destruct (generatedQuestion_of_fields now1 q q' Hof) as [Hi Hc].
  unfold Data.generatedQuestion_ok. rewrite Hi, Hc, Hid, Hcs, Hch, Hnb.
  unfold Data.generatedQuestion_of in Hof.
  destruct (Data.clampStr (get q "question") 500); [|discriminate].
  cbn [mbind result_bind] in Hof.
  destruct (Data.clampStr _ 2000); [|discriminate].
  cbn [mbind result_bind] in Hof. by injection Hof as <-.
Qed.

Lemma draftAnswer_of_fixed (a a' : jsval) :
  Data.draftAnswer_of now1 a = Ok a' -> Data.draftAnswer_of now2 a' = Ok a'.
Proof.
  unfold Data.draftAnswer_of at 1. intros H.
  destruct (Data.clampStr (get a "answer") 10000) as [answer|] eqn:Ha; [|discriminate].
  cbn [mbind result_bind] in H. injection H as <-.
  apply clampStr_idem in Ha as [Ha _].
  unfold Data.draftAnswer_of.
  change (get (Data.obj _) "answer") with answer.
  change (get (Data.obj _) "chapterId") with (get a "chapterId").
  change (get (Data.obj _) "questionId") with (get a "questionId").
  change (get (Data.obj _) "updatedAt") with (nullish_or (get a "updatedAt") (JStr now1)).
  rewrite Ha. cbn [mbind result_bind]. by rewrite nullish_or_string.
Qed.

Lemma draftAnswer_ok_kept (chapterIds questionIds : list jsval) (a a' : jsval) :
  Data.draftAnswer_ok chapterIds questionIds a = true ->
  Data.draftAnswer_of now1 a = Ok a' ->
  Data.is_nonblank_string (get a' "answer") = true ->
  Data.draftAnswer_ok chapterIds questionIds a' = true.
Proof.
  unfold Data.draftAnswer_ok at 1. rewrite !andb_true_iff.
  intros (((((_ & Hcs) & Hch) & Hqs) & Hqh) & _) Hof Hnb.
  destruct (draftAnswer_of_fields now1 a a' Hof) as [Hc Hq].
  unfold Data.draftAnswer_ok. rewrite Hc, Hq, Hcs, Hch, Hqs, Hqh, Hnb.
  unfold Data.draftAnswer_of in Hof.
  destruct (Data.clampStr (get a "answer") 10000); [|discriminate].
  cbn [mbind result_bind] in Hof. by injection Hof as <-.
Qed.

Lemma gradeResult_of_fixed (r r' : jsval) :
  Data.gradeResult_ok r = true ->
  Data.gradeResult_of r = Ok r' ->
  Data.gradeResult_ok r' = true /\ Data.gradeResult_of r' = Ok r'.
Proof.
  unfold Data.gradeResult_ok at 1. rewrite !andb_true_iff.
  intros (((_ & Hid) & Hqs) & Hss). unfold Data.gradeResult_of at 1. intros H.
  destruct (Data.clampStr (get r "question") 500) as [question|] eqn:Hq; [|discriminate].
  cbn [mbind result_bind] in H.
  destruct (Data.clampStr (get r "studentAnswer") 10000) as [studentAnswer|] eqn:Hs;
    [|discriminate].
  cbn [mbind result_bind] in H.
  destruct (Data.clampInt (get r "score") 0 100 0) as [score|] eqn:Hn; [|discriminate].
  cbn [mbind result_bind] in H.
  destruct (Data.clampStr (nullish_or (get r "feedback") (JStr [])) 2000) as [feedback|] eqn:Hf;
    [|discriminate].
  cbn [mbind result_bind] in H.
  destruct (Data.clampStr (nullish_or (get r "idealAnswer") (JStr [])) 2000)
    as [idealAnswer|] eqn:Hi; [|discriminate].
  cbn [mbind result_bind] in H. injection H as <-.
  pose proof (clampStr_is_string _ _ _ Hqs Hq) as Hqs'.
  pose proof (clampStr_is_string _ _ _ Hss Hs) as Hss'.
  apply clampStr_idem in Hq as [Hq _]. apply clampStr_idem in Hs as [Hs _].
  apply clampStr_idem in Hf as [Hf Hfn]. apply clampStr_idem in Hi as [Hi Hin].
  apply clampInt_range in Hn; [|lia|lia].
  split.
  - unfold Data.gradeResult_ok.
    change (get (Data.obj _) "questionId") with (get r "questionId").
    change (get (Data.obj _) "question") with question.
    change (get (Data.obj _) "studentAnswer") with studentAnswer.
    by rewrite Hid, Hqs', Hss'.
  - unfold Data.gradeResult_of.
    change (get (Data.obj _) "questionId") with (get r "questionId").
    change (get (Data.obj _) "question") with question.
    change (get (Data.obj _) "studentAnswer") with studentAnswer.
    change (get (Data.obj _) "score") with (of_int score).
    change (get (Data.obj _) "feedback") with feedback.
    change (get (Data.obj _) "idealAnswer") with idealAnswer.
    rewrite Hq, Hs, (clampInt_of_int 0 100 0 score Hn), Hfn, Hf, Hin, Hi. reflexivity.
Qed.

Lemma feedbackEntry_of_fixed (entry entry' : jsval) :
  Data.feedbackEntry_of now1 entry = Ok entry' ->
  Data.feedbackEntry_of now2 entry' = Ok entry'.
Proof.
  unfold Data.feedbackEntry_of at 1. intros H.
  destruct (Data.clampInt (get entry "averageScore") 0 100 0) as [averageScore|] eqn:Hn;
    [|discriminate].
  cbn [mbind result_bind] in H.
  destruct (mapR Data.gradeResult_of _) as [results|] eqn:Hr; [|discriminate].
  cbn [mbind result_bind] in H. injection H as <-.
  apply clampInt_range in Hn; [|lia|lia].
  assert (Hres : Forall (fun r' => Data.gradeResult_ok r' = true
                                   /\ Data.gradeResult_of r' = Ok r') results).
  { eapply mapR_Forall; [exact Hr|]. intros r r' Hin Hof.
    apply list_elem_of_filter in Hin as [Hok _]. exact (gradeResult_of_fixed r r' Hok Hof). }
  unfold Data.feedbackEntry_of.
  change (get (Data.obj _) "averageScore") with (of_int averageScore).
  change (get (Data.obj _) "results") with (JArr results).
  change (get (Data.obj _) "id") with (get entry "id").
  change (get (Data.obj _) "bookId") with (get entry "bookId").
  change (get (Data.obj _) "chapterId") with (get entry "chapterId").
  change (get (Data.obj _) "createdAt") with (nullish_or (get entry "createdAt") (JStr now1)).
  change (get (Data.obj _) "difficulty") with (Data.keep_difficulty (get entry "difficulty")).
  change (get (Data.obj _) "style") with (Data.keep_style (get entry "style")).
  rewrite (clampInt_of_int 0 100 0 averageScore Hn). cbn [mbind result_bind Data.array_or_empty].
  rewrite (filter_all (fun r => Data.gradeResult_ok r = true) results)
    by (eapply Forall_impl; [exact Hres|]; by intros r' [? _]).
  rewrite (mapR_fixed Data.gradeResult_of results)
    by (eapply Forall_impl; [exact Hres|]; by intros r' [_ ?]).
  cbn [mbind result_bind].
  by rewrite nullish_or_string, keep_difficulty_idem, keep_style_idem.
Qed.

Lemma feedbackEntry_ok_kept (bookIds chapterIds : list jsval) (entry entry' : jsval) :
  Data.feedbackEntry_ok bookIds chapterIds entry = true ->
  Data.feedbackEntry_of now1 entry = Ok entry' ->
  Data.feedbackEntry_ok bookIds chapterIds entry' = true.
Proof.
  unfold Data.feedbackEntry_ok at 1. rewrite !andb_true_iff.
  intros ((((((_ & Hid) & Hbs) & Hbh) & Hcs) & Hch) & _) Hof.
  destruct (feedbackEntry_of_fields now1 entry entry' Hof) as [Hb Hc].
  unfold Data.feedbackEntry_ok. rewrite Hb, Hc, Hbs, Hbh, Hcs, Hch.
  unfold Data.feedbackEntry_of in Hof.
  destruct (Data.clampInt (get entry "averageScore") 0 100 0); [|discriminate].
  cbn [mbind result_bind] in Hof.
  destruct (mapR Data.gradeResult_of _); [|discriminate].
  cbn [mbind result_bind] in Hof. injection Hof as <-.
  change (get (Data.obj _) "id") with (get entry "id"). by rewrite Hid.
Qed.

End RerunFacts.

Lemma filter_idem {A} (P : A -> Prop) `{!forall x, Decision (P x)} (l : list A) :
  filter P (filter P l) = filter P l.
Proof.
  apply filter_all, Forall_forall. intros x Hx. by apply list_elem_of_filter in Hx as [? _].
Qed.

Lemma history_of_idem (raw once : jsval) :
  get once "history" = JArr (Data.history_of raw) -> Data.history_of once = Data.history_of raw.
Proof.
  intros H. unfold Data.history_of at 1. rewrite H. cbn [Data.array_or_empty].
  unfold Data.history_of. apply filter_idem.
Qed.

Lemma feedbackHistory_from_idem (entries : list jsval) :
  Data.feedbackHistory_from (Data.feedbackHistory_from entries)
  = Data.feedbackHistory_from entries.
Proof.
  unfold Data.feedbackHistory_from. rewrite !slice_0.
  rewrite filter_all.
  - apply take_ge. rewrite length_take. lia.
  - apply Forall_forall. intros e He. apply elem_of_take in He as (i & He & _).
    apply list_elem_of_lookup_2 in He. by apply list_elem_of_filter in He as [? _].
Qed.

Lemma selectedBookId_from_idem (bookIds : list jsval) (ai ai' : jsval) :
  get ai' "selectedBookId" = Data.selectedBookId_from bookIds ai ->
  Data.selectedBookId_from bookIds ai' = Data.selectedBookId_from bookIds ai.
Proof.
  intros H. unfold Data.selectedBookId_from at 1. rewrite H.
  unfold Data.selectedBookId_from.
  destruct (is_string (get ai "selectedBookId") && Set_has bookIds (get ai "selectedBookId"))
    eqn:Hc; [by rewrite Hc|reflexivity].
Qed.

Lemma selectedChapterId_from_idem (chapters : list jsval) (sb ai ai' : jsval) :
  get ai' "selectedChapterId" = Data.selectedChapterId_from chapters sb ai ->
  Data.selectedChapterId_from chapters sb ai' = Data.selectedChapterId_from chapters sb ai.
Proof.
  intros H. unfold Data.selectedChapterId_from at 1. rewrite H.
  set (sc := Data.selectedChapterId_from chapters sb ai).
  assert (Hsc : sc = Data.selectedChapterId_from chapters sb ai) by reflexivity.
  unfold Data.selectedChapterId_from in Hsc.
  set (raw1 := if is_string (get ai "selectedChapterId")
               then get ai "selectedChapterId" else JUndefined) in Hsc.
  destruct (truthy sb) eqn:Hsb; cbn [andb] in *.
  - destruct (truthy raw1 && existsb (Data.is_chapter_of sb raw1) chapters) eqn:Hc.
    + assert (Hs : is_string sc = true).
      { rewrite Hsc. apply andb_true_iff in Hc as [Ht _]. subst raw1.
        destruct (is_string (get ai "selectedChapterId")) eqn:E; [exact E|discriminate]. }
      rewrite Hs. rewrite Hsc at 1 2. rewrite Hc. by rewrite Hsc.
    + destruct (truthy (if is_string sc then sc else JUndefined)
                && existsb (Data.is_chapter_of sb (if is_string sc then sc else JUndefined))
                           chapters) eqn:Hc2.
      * apply andb_true_iff in Hc2 as [Ht _].
        destruct (is_string sc); [reflexivity|discriminate].
      * by rewrite Hsc.
  - rewrite Hsc. reflexivity.
Qed.

(** A run whose steps all complete returns the assembled blob. *)
Lemma normalizeUserData_run (nowISO : jsstring) (raw : jsval)
    (bookIds chapters generatedQuestions draftAnswers feedbackEntries qas : list jsval)
    (count : Z) :
  let aiCoachRaw := get raw "aiCoach" in
  let lastConfigRaw := nullish_or (get aiCoachRaw "lastConfig") (JObj []) in
  let chapterIds := (fun ch => get ch "id") <$> chapters in
  mapR (fun b => get_prop b "id") (Data.array_or_empty (get raw "books")) = Ok bookIds ->
  filterM (fun ch => bookId ← get_prop ch "bookId"; Ok (Set_has bookIds bookId))
          (Data.array_or_empty (get raw "chapters")) = Ok chapters ->
  mapR (Data.generatedQuestion_of nowISO)
       (filter (fun q => Data.generatedQuestion_ok chapterIds q = true)
               (Data.array_or_empty (get aiCoachRaw "generatedQuestions")))
  = Ok generatedQuestions ->
  mapR (Data.draftAnswer_of nowISO)
       (filter (fun a => Data.draftAnswer_ok chapterIds
                           ((fun q => get q "id") <$> generatedQuestions) a = true)
               (Data.array_or_empty (get aiCoachRaw "draftAnswers")))
  = Ok draftAnswers ->
  mapR (Data.feedbackEntry_of nowISO)
       (filter (fun entry => Data.feedbackEntry_ok bookIds chapterIds entry = true)
               (Data.array_or_empty (get aiCoachRaw "feedbackHistory")))
  = Ok feedbackEntries ->
  filterM (fun qa => chapterId ← get_prop qa "chapterId"; Ok (Set_has chapterIds chapterId))
          (Data.array_or_empty (get raw "qas")) = Ok qas ->
  Data.clampInt (get lastConfigRaw "count") 1 15 Data.default_count = Ok count ->
  Data.normalizeUserData nowISO raw =
  Ok (Data.obj
        [("books", JArr (Data.array_or_empty (get raw "books")));
         ("chapters", JArr chapters);
         ("qas", JArr qas);
         ("history", JArr (Data.history_of raw));
         ("aiCoach",
          Data.obj
            [("selectedBookId", Data.selectedBookId_from bookIds aiCoachRaw);
             ("selectedChapterId",
              Data.selectedChapterId_from chapters
                (Data.selectedBookId_from bookIds aiCoachRaw) aiCoachRaw);
             ("lastConfig",
              Data.obj
                [("count", of_int count);
                 ("difficulty", Data.keep_difficulty (get lastConfigRaw "difficulty"));
                 ("style", Data.keep_style (get lastConfigRaw "style"))]);
             ("generatedQuestions", JArr generatedQuestions);
             ("draftAnswers", JArr draftAnswers);
             ("feedbackHistory", JArr (Data.feedbackHistory_from feedbackEntries))])]).
Proof.
  intros aiCoachRaw lastConfigRaw chapterIds Hb Hc Hgq Hda Hfe Hqas Hn.
  unfold Data.normalizeUserData. fold aiCoachRaw.
  rewrite Hb. cbn [mbind result_bind]. rewrite Hc. cbn [mbind result_bind].
  fold chapterIds. rewrite Hgq. cbn [mbind result_bind]. rewrite Hda.
  cbn [mbind result_bind]. rewrite Hfe. cbn [mbind result_bind]. rewrite Hqas.
  cbn [mbind result_bind]. fold lastConfigRaw. rewrite Hn. reflexivity.
Qed.

Section Rerun.

Variables now1 now2 : jsstring.

(** X29.  A second run of [normalizeUserData] returns what it is given,
    provided the first run left no generated question and no draft answer
    with a blank text.  (A text is
    left blank when it is white space up to the point where [clampStr] cuts
    it: that is the one case in which the second run drops an entry.) *)
Theorem normalizeUserData_rerun (raw once : jsval) :
  Data.normalizeUserData now1 raw = Ok once ->
  Forall (fun q => Data.is_nonblank_string (get q "question") = true)
         (generatedQuestions_of once) ->
  Forall (fun a => Data.is_nonblank_string (get a "answer") = true)
         (draftAnswers_of once) ->
  Data.normalizeUserData now2 once = Ok once.
Proof.
  intros H Hgqnb Hdanb. apply normalizeUserData_Ok in H.
  destruct H as (chapters & gq & da & fe & qas & count
                 & Hb & Hc & Hgq & Hda & Hfe & Hqas & Hn & Hout).
  set (books := Data.array_or_empty (get raw "books")) in *.
  set (bookIds := (fun b => get b "id") <$> books) in *.
  set (chapterIds := (fun ch => get ch "id") <$> chapters) in *.
  set (ai := get raw "aiCoach") in *.
  set (lastConfigRaw := nullish_or (get ai "lastConfig") (JObj [])) in *.
  set (sb := Data.selectedBookId_from bookIds ai) in *.
  set (sc := Data.selectedChapterId_from chapters sb ai) in *.
  set (fh := Data.feedbackHistory_from fe) in *.
  set (lastConfig :=
         Data.obj [("count", of_int count);
                   ("difficulty", Data.keep_difficulty (get lastConfigRaw "difficulty"));
                   ("style", Data.keep_style (get lastConfigRaw "style"))]) in *.
  set (ai' :=
         Data.obj [("selectedBookId", sb); ("selectedChapterId", sc);
                   ("lastConfig", lastConfig); ("generatedQuestions", JArr gq);
                   ("draftAnswers", JArr da); ("feedbackHistory", JArr fh)]) in *.
  assert (Hgq' : generatedQuestions_of once = gq) by (by rewrite Hout).
  assert (Hda' : draftAnswers_of once = da) by (by rewrite Hout).
  rewrite Hgq' in Hgqnb. rewrite Hda' in Hdanb.
  assert (E1 : get once "books" = JArr books) by (by rewrite Hout).
  assert (E2 : get once "chapters" = JArr chapters) by (by rewrite Hout).
  assert (E3 : get once "qas" = JArr qas) by (by rewrite Hout).
  assert (E4 : get once "history" = JArr (Data.history_of raw)) by (by rewrite Hout).
  assert (E5 : get once "aiCoach" = ai') by (by rewrite Hout).
  (* the steps of the second run *)
  assert (Hc2 : filterM (fun ch => bookId ← get_prop ch "bookId";
                                   Ok (Set_has bookIds bookId)) chapters = Ok chapters).
  { apply filterM_all. by apply filterM_Ok in Hc as [_ Hc]. }
  assert (Hq2 : filterM (fun qa => chapterId ← get_prop qa "chapterId";
                                   Ok (Set_has chapterIds chapterId)) qas = Ok qas).
  { apply filterM_all. by apply filterM_Ok in Hqas as [_ Hqas]. }
  assert (Hgq2 : mapR (Data.generatedQuestion_of now2)
                   (filter (fun q => Data.generatedQuestion_ok chapterIds q = true) gq)
                 = Ok gq).
  { assert (Hall : Forall (fun q' => Data.generatedQuestion_ok chapterIds q' = true
                                     /\ Data.generatedQuestion_of now2 q' = Ok q') gq).
    { apply Forall_forall. intros q' Hq'.
      destruct (mapR_elem _ _ _ Hgq q' Hq') as (q & Hq & Hof).
      apply list_elem_of_filter in Hq as [Hok _]. split.
      - apply (generatedQuestion_ok_kept now1 chapterIds q q' Hok Hof).
        by apply (proj1 (Forall_forall _ _) Hgqnb).
      - by apply (generatedQuestion_of_fixed now1 now2 q). }
    rewrite filter_all by (eapply Forall_impl; [exact Hall|]; by intros ? [? _]).
    apply mapR_fixed. eapply Forall_impl; [exact Hall|]. by intros ? [_ ?]. }
  assert (Hda2 : mapR (Data.draftAnswer_of now2)
                   (filter (fun a => Data.draftAnswer_ok chapterIds
                                       ((fun q => get q "id") <$> gq) a = true) da)
                 = Ok da).
  { assert (Hall : Forall (fun a' => Data.draftAnswer_ok chapterIds
                                       ((fun q => get q "id") <$> gq) a' = true
                                     /\ Data.draftAnswer_of now2 a' = Ok a') da).
    { apply Forall_forall. intros a' Ha'.
      destruct (mapR_elem _ _ _ Hda a' Ha') as (a & Ha & Hof).
      apply list_elem_of_filter in Ha as [Hok _]. split.
      - apply (draftAnswer_ok_kept now1 chapterIds _ a a' Hok Hof).
        by apply (proj1 (Forall_forall _ _) Hdanb).
      - by apply (draftAnswer_of_fixed now1 now2 a). }
    rewrite filter_all by (eapply Forall_impl; [exact Hall|]; by intros ? [? _]).
    apply mapR_fixed. eapply Forall_impl; [exact Hall|]. by intros ? [_ ?]. }
  assert (Hfe2 : mapR (Data.feedbackEntry_of now2)
                   (filter (fun entry => Data.feedbackEntry_ok bookIds chapterIds entry = true)
                           fh)
                 = Ok fh).
  { assert (Hall : Forall (fun e' => Data.feedbackEntry_ok bookIds chapterIds e' = true
                                     /\ Data.feedbackEntry_of now2 e' = Ok e') fh).
    { apply Forall_forall. intros e' He'. apply feedbackHistory_from_elem in He'.
      destruct (mapR_elem _ _ _ Hfe e' He') as (e & He & Hof).
      apply list_elem_of_filter in He as [Hok _]. split.
      - exact (feedbackEntry_ok_kept now1 bookIds chapterIds e e' Hok Hof).
      - by apply (feedbackEntry_of_fixed now1 now2 e). }
    rewrite filter_all by (eapply Forall_impl; [exact Hall|]; by intros ? [? _]).
    apply mapR_fixed. eapply Forall_impl; [exact Hall|]. by intros ? [_ ?]. }
  assert (Hn2 : Data.clampInt (of_int count) 1 15 Data.default_count = Ok count).
  { apply clampInt_of_int. eapply clampInt_range; [| |exact Hn]; unfold Data.default_count; lia. }
  (* the second run, assembled *)
  rewrite (normalizeUserData_run now2 once bookIds chapters gq da fh qas count).
  - rewrite E1, E5. cbn [Data.array_or_empty].
    rewrite (history_of_idem raw once E4).
    change (nullish_or (get ai' "lastConfig") (JObj [])) with lastConfig.
    change (get lastConfig "difficulty")
      with (Data.keep_difficulty (get lastConfigRaw "difficulty")).
    change (get lastConfig "style") with (Data.keep_style (get lastConfigRaw "style")).
    rewrite keep_difficulty_idem, keep_style_idem.
    rewrite (selectedBookId_from_idem bookIds ai ai' eq_refl). fold sb.
    rewrite (selectedChapterId_from_idem chapters sb ai ai' eq_refl). fold sc.
    unfold fh. rewrite feedbackHistory_from_idem. by rewrite Hout.
  - by rewrite E1.
  - by rewrite E2.
  - rewrite E5. exact Hgq2.
  - rewrite E5. exact Hda2.
  - rewrite E5. exact Hfe2.
  - by rewrite E3.
  - rewrite E5. exact Hn2.
Qed.

End Rerun.
(** ** When the repair returns *)

(** Induction on a value, with the elements of an array and the property
    values of an object as premises. *)
Lemma jsval_tree_ind (P : jsval -> Prop) :
  P JUndefined -> P JNull -> (forall b, P (JBool b)) -> (forall n, P (JNum n)) ->
  (forall s, P (JStr s)) ->
  (forall items, Forall P items -> P (JArr items)) ->
  (forall props, Forall (fun p => P p.2) props -> P (JObj props)) ->
  forall v, P v.
Proof.
  intros Hu Hn Hb Hnum Hs Harr Hobj. fix IH 1. intros [| |b|n|s|items|props].
  - exact Hu.
  - exact Hn.
  - apply Hb.
  - apply Hnum.
  - apply Hs.
  - apply Harr. induction items as [|x items IHitems]; constructor; [apply IH|exact IHitems].
  - apply Hobj. induction props as [|[k x] props IHprops]; constructor;
      [apply IH|exact IHprops].
Qed.

Lemma tame_lookup (k : jsstring) (props : list (jsstring * jsval)) (v : jsval) :
  forallb (fun p => tame p.2) props = true -> lookup_prop k props = Some v -> tame v = true.
Proof.
  induction props as [|[k' v'] props IH]; cbn; [discriminate|].
  rewrite andb_true_iff. intros [Hv Hp]. destruct (jsstring_eqb k' k).
  - by intros [= <-].
  - by apply IH.
Qed.

Lemma tame_get (v : jsval) (k : string) : tame v = true -> tame (get v k) = true.
Proof.
  destruct v as [| |b|n|s|items|props]; try reflexivity.
  cbn [tame get]. rewrite !andb_true_iff. intros [_ Hp].
  destruct (lookup_prop (lit k) props) as [w|] eqn:Hw; [|reflexivity].
  cbn. by apply (tame_lookup (lit k) props).
Qed.

Lemma tame_items (v : jsval) :
  tame v = true -> Forall (fun x => tame x = true) (Data.array_or_empty v).
Proof.
  destruct v; cbn [Data.array_or_empty]; try constructor.
  cbn [tame]. intros H. apply Forall_forall. intros x Hx.
  apply (proj1 (forallb_forall _ _) H). by apply list_elem_of_In.
Qed.

Lemma tame_to_string (v : jsval) : tame v = true -> to_string_throws v = false.
Proof.
  induction v as [| |b|n|s|items IH|props _] using jsval_tree_ind; try reflexivity.
  - cbn [tame to_string_throws]. intros H.
    apply not_true_is_false. intros He. apply existsb_exists in He as (x & Hx & Ht).
    apply list_elem_of_In in Hx.
    rewrite (proj1 (Forall_forall _ _) IH x Hx) in Ht; [discriminate|].
    apply (proj1 (forallb_forall _ _) H). by apply list_elem_of_In.
  - cbn [tame to_string_throws]. rewrite !andb_true_iff. intros [[Ht _] _].
    destruct (lookup_prop (lit "toString") props); [|reflexivity].
    apply negb_true_iff, bool_decide_eq_false in Ht. exfalso. apply Ht. by eexists.
Qed.

Lemma tame_ToNumber (v : jsval) : tame v = true -> exists n, ToNumber v = Ok n.
Proof.
  induction v as [| |b|n|s|items IH|props _] using jsval_tree_ind; intros Ht;
    try (by eexists).
  - cbn [ToNumber].
    assert (He : existsb to_string_throws items = false).
    { change (to_string_throws (JArr items) = false). by apply tame_to_string. }
    rewrite He. destruct items as [|x [|y items]]; [by eexists| |by eexists].
    destruct x; try (by eexists).
    apply Forall_cons in IH as [IH _]. apply IH.
    cbn [tame forallb] in Ht. by apply andb_true_iff in Ht as [Ht _].
  - cbn [ToNumber]. rewrite (tame_to_string _ Ht). by eexists.
Qed.

Lemma tame_clampInt (v : jsval) (min max fallback : Z) :
  tame v = true -> exists z, Data.clampInt v min max fallback = Ok z.
Proof.
  intros Ht. unfold Data.clampInt. destruct (tame_ToNumber v Ht) as [n ->].
  cbn [mbind result_bind]. destruct n; by eexists.
Qed.

Lemma tame_clampStr (s : jsval) (max : nat) :
  tame s = true -> exists w, Data.clampStr s max = Ok w.
Proof.
  intros Ht. unfold Data.clampStr. destruct s as [| |b|n|str|items|props]; try (by eexists).
  - destruct (negb (truthy (JBool b))); by eexists.
  - destruct (negb (truthy (JNum n))); by eexists.
  - cbn [truthy negb]. cbn [tame] in Ht. rewrite !andb_true_iff in Ht.
    destruct Ht as [[_ Hl] _].
    assert (Hlen : get (JObj props) "length" = JUndefined).
    { cbn [get]. destruct (lookup_prop (lit "length") props); [|reflexivity].
      apply negb_true_iff, bool_decide_eq_false in Hl. exfalso. apply Hl. by eexists. }
    rewrite Hlen. cbn. by eexists.
Qed.

Lemma tame_nullish_or (a b : jsval) :
  tame a = true -> tame b = true -> tame (nullish_or a b) = true.
Proof. by destruct a. Qed.

Lemma mapR_total {A B} (f : A -> result B) (l : list A) :
  Forall (fun x => exists y, f x = Ok y) l -> exists r, mapR f l = Ok r.
Proof.
  induction 1 as [|x l [y Hy] _ [r IH]]; cbn; [by eexists|].
  rewrite Hy, IH. by eexists.
Qed.

Lemma filterM_total {A} (p : A -> result bool) (l : list A) :
  Forall (fun x => exists b, p x = Ok b) l -> exists r, filterM p l = Ok r.
Proof.
  induction 1 as [|x l [b Hb] _ [r IH]]; cbn; [by eexists|].
  rewrite Hb, IH. by eexists.
Qed.

Lemma filter_by_ref_total (k : string) (ids l : list jsval) :
  Forall non_nullish l ->
  exists r, filterM (fun x => ref ← get_prop x k; Ok (Set_has ids ref)) l = Ok r.
Proof.
  intros H. apply filterM_total. eapply Forall_impl; [exact H|].
  intros x Hx. destruct x; try contradiction; by eexists.
Qed.

Lemma Forall_filter_tame (P : jsval -> Prop) `{!forall x, Decision (P x)} (l : list jsval) :
  Forall (fun x => tame x = true) l -> Forall (fun x => tame x = true) (filter P l).
Proof.
  intros Hl. apply Forall_forall. intros x Hx. apply list_elem_of_filter in Hx as [_ Hx].
  by apply (proj1 (Forall_forall _ _) Hl).
Qed.

Section Totality.

Variable nowISO : jsstring.

Lemma generatedQuestion_of_total (q : jsval) :
  tame q = true -> exists q', Data.generatedQuestion_of nowISO q = Ok q'.
Proof.
  intros Ht. unfold Data.generatedQuestion_of.
  destruct (tame_clampStr (get q "question") 500) as [w ->]; [by apply tame_get|].
  cbn [mbind result_bind].
  destruct (tame_clampStr (nullish_or (get q "rubric") (JStr [])) 2000) as [r ->];
    [by apply tame_nullish_or; [apply tame_get|]|].
  by eexists.
Qed.

Lemma draftAnswer_of_total (a : jsval) :
  tame a = true -> exists a', Data.draftAnswer_of nowISO a = Ok a'.
Proof.
  intros Ht. unfold Data.draftAnswer_of.
  destruct (tame_clampStr (get a "answer") 10000) as [w ->]; [by apply tame_get|].
  by eexists.
Qed.

Lemma gradeResult_of_total (r : jsval) :
  tame r = true -> exists r', Data.gradeResult_of r = Ok r'.
Proof.
  intros Ht. unfold Data.gradeResult_of.
  destruct (tame_clampStr (get r "question") 500) as [w1 ->]; [by apply tame_get|].
  cbn [mbind result_bind].
  destruct (tame_clampStr (get r "studentAnswer") 10000) as [w2 ->]; [by apply tame_get|].
  cbn [mbind result_bind].
  destruct (tame_clampInt (get r "score") 0 100 0) as [z ->]; [by apply tame_get|].
  cbn [mbind result_bind].
  destruct (tame_clampStr (nullish_or (get r "feedback") (JStr [])) 2000) as [w3 ->];
    [by apply tame_nullish_or; [apply tame_get|]|].
  cbn [mbind result_bind].
  destruct (tame_clampStr (nullish_or (get r "idealAnswer") (JStr [])) 2000) as [w4 ->];
    [by apply tame_nullish_or; [apply tame_get|]|].
  by eexists.
Qed.

Lemma feedbackEntry_of_total (entry : jsval) :
  tame entry = true -> exists entry', Data.feedbackEntry_of nowISO entry = Ok entry'.
Proof.
  intros Ht. unfold Data.feedbackEntry_of.
  destruct (tame_clampInt (get entry "averageScore") 0 100 0) as [z ->]; [by apply tame_get|].
  cbn [mbind result_bind].
  destruct (mapR_total Data.gradeResult_of
              (filter (fun r => Data.gradeResult_ok r = true)
                      (Data.array_or_empty (get entry "results")))) as [rs ->].
  { eapply Forall_impl; [apply Forall_filter_tame, tame_items, tame_get, Ht|].
    intros r Hr. by apply gradeResult_of_total. }
  by eexists.
Qed.

(** X30.  [normalizeUserData] returns on every blob that is tame (no
    object of it has a [toString] or a [length] property of its own, so
    the conversions to a number and [clampStr] complete) and has no [null]
    entry in its [books], [chapters] and [qas]. *)
Theorem normalizeUserData_returns (raw : jsval) :
  tame raw = true ->
  Forall non_nullish (Data.array_or_empty (get raw "books")) ->
  Forall non_nullish (Data.array_or_empty (get raw "chapters")) ->
  Forall non_nullish (Data.array_or_empty (get raw "qas")) ->
  exists out, Data.normalizeUserData nowISO raw = Ok out.
Proof.
  intros Ht Hb Hc Hq.
  destruct (mapR_total (fun b => get_prop b "id") (Data.array_or_empty (get raw "books")))
    as [bookIds Hbooks].
  { eapply Forall_impl; [exact Hb|]. intros x Hx. destruct x; try contradiction; by eexists. }
  destruct (filter_by_ref_total "bookId" bookIds _ Hc) as [chapters Hchapters].
  set (chapterIds := (fun ch => get ch "id") <$> chapters).
  pose proof (tame_get raw "aiCoach" Ht) as Hai.
  destruct (mapR_total (Data.generatedQuestion_of nowISO)
              (filter (fun q => Data.generatedQuestion_ok chapterIds q = true)
                 (Data.array_or_empty (get (get raw "aiCoach") "generatedQuestions"))))
    as [gq Hgq].
  { eapply Forall_impl; [apply Forall_filter_tame, tame_items, tame_get, Hai|].
    intros q Hq'. by apply generatedQuestion_of_total. }
  destruct (mapR_total (Data.draftAnswer_of nowISO)
              (filter (fun a => Data.draftAnswer_ok chapterIds
                                  ((fun q => get q "id") <$> gq) a = true)
                 (Data.array_or_empty (get (get raw "aiCoach") "draftAnswers"))))
    as [da Hda].
  { eapply Forall_impl; [apply Forall_filter_tame, tame_items, tame_get, Hai|].
    intros a Ha. by apply draftAnswer_of_total. }
  destruct (mapR_total (Data.feedbackEntry_of nowISO)
              (filter (fun entry => Data.feedbackEntry_ok bookIds chapterIds entry = true)
                 (Data.array_or_empty (get (get raw "aiCoach") "feedbackHistory"))))
    as [fe Hfe].
  { eapply Forall_impl; [apply Forall_filter_tame, tame_items, tame_get, Hai|].
    intros e He. by apply feedbackEntry_of_total. }
  destruct (filter_by_ref_total "chapterId" chapterIds _ Hq) as [qas Hqas].
  destruct (tame_clampInt
              (get (nullish_or (get (get raw "aiCoach") "lastConfig") (JObj [])) "count")
              1 15 Data.default_count) as [count Hcount].
  { apply tame_get, tame_nullish_or; [by apply tame_get|reflexivity]. }
  eexists.
  exact (normalizeUserData_run nowISO raw bookIds chapters gq da fe qas count
           Hbooks Hchapters Hgq Hda Hfe Hqas Hcount).
Qed.

End Totality.
(** * The gateway: what a request and a response are held to *)

(** ** White space *)

Lemma trim_start_head (s : jsstring) :
  match trim_start s with
  | [] => True
  | c :: _ => is_white_space c = false
  end.
Proof.
  induction s as [|c s IH]; [done|]. cbn.
  destruct (is_white_space c) eqn:E; [exact IH|exact E].
Qed.

Lemma trim_start_fixed (s : jsstring) :
  match s with
  | [] => True
  | c :: _ => is_white_space c = false
  end -> trim_start s = s.
Proof. destruct s as [|c s]; [done|]. cbn. by intros ->. Qed.

Lemma trim_start_snoc (s : jsstring) (c : N) :
  is_white_space c = false -> trim_start (s ++ [c]) = trim_start s ++ [c].
Proof.
  intros Hc. induction s as [|x s IH]; cbn; [by rewrite Hc|].
  by destruct (is_white_space x).
Qed.

Lemma trim_end_cons (c : N) (s : jsstring) :
  is_white_space c = false -> trim_end (c :: s) = c :: trim_end s.
Proof.
  intros Hc. unfold trim_end.
  rewrite reverse_cons, trim_start_snoc by done. by rewrite reverse_app.
Qed.

Lemma trim_head (s : jsstring) :
  match trim s with
  | [] => True
  | c :: _ => is_white_space c = false
  end.
Proof.
  unfold trim. pose proof (trim_start_head s) as H.
  destruct (trim_start s) as [|c t]; [done|]. by rewrite trim_end_cons.
Qed.

Lemma trim_end_idem (s : jsstring) : trim_end (trim_end s) = trim_end s.
Proof.
  unfold trim_end. rewrite reverse_involutive. f_equal.
  apply trim_start_fixed, trim_start_head.
Qed.

Lemma trim_idem (s : jsstring) : trim (trim s) = trim s.
Proof.
  unfold trim at 1. rewrite (trim_start_fixed (trim s)) by apply trim_head.
  unfold trim. apply trim_end_idem.
Qed.

Lemma clampText_head (value : jsval) (maxLen : nat) :
  match Server.clampText value maxLen with
  | [] => True
  | c :: _ => is_white_space c = false
  end.
Proof.
  destruct value as [| |b|n|s|items|props]; try exact I.
  rewrite clampText_string. pose proof (trim_head s) as H.
  destruct (trim s) as [|c t]; [by rewrite take_nil|]. by destruct maxLen.
Qed.

(** ** [readCount] *)

Lemma ToNumber_returns (v : jsval) :
  to_string_throws v = false -> exists n, ToNumber v = Ok n.
Proof.
  induction v as [| |b|n|s|items IH|props _] using jsval_tree_ind;
    intros Hv; try (by eexists).
  - cbn [to_string_throws] in Hv. cbn [ToNumber]. rewrite Hv.
    destruct items as [|x [|y items]]; try (by eexists).
    apply Forall_cons in IH as [IHx _].
    cbn [existsb] in Hv. rewrite orb_false_r in Hv.
    destruct x; try (by eexists). by apply IHx.
  - cbn [ToNumber]. rewrite Hv. by eexists.
Qed.

Lemma ToNumber_throws (v : jsval) :
  to_string_throws v = true -> ToNumber v = Throw TypeError.
Proof.
  destruct v as [| |b|n|s|items|props]; try discriminate.
  - cbn [to_string_throws ToNumber]. by intros ->.
  - intros H. cbn [ToNumber]. by rewrite H.
Qed.

(** X1.  [readCount] turns whatever the request carries as [count] into an
    integer from 1 to 15: the conversion to a number completes on every
    value but an object with a [toString] property of its own (or an array
    that holds one), on which the call throws a TypeError.  It returns an
    integer from 1 to 15 as it is, so the count the client has clamped is
    the count the gateway uses, and 6 when the field is absent. *)
Theorem readCount_total (value : jsval) :
  (if to_string_throws value then Server.readCount value = Throw TypeError
   else exists n, Server.readCount value = Ok n /\ 1 <= n <= 15)
  /\ (forall c, 1 <= c <= 15 -> Server.readCount (of_int c) = Ok c)
  /\ Server.readCount JUndefined = Ok 6.
Proof.
  split; [|split].
  - destruct (to_string_throws value) eqn:Hv.
    + unfold Server.readCount, Server.toInt. by rewrite (ToNumber_throws _ Hv).
    + destruct (ToNumber_returns _ Hv) as [n Hn].
      unfold Server.readCount, Server.toInt. rewrite Hn. cbn.
      destruct n; cbn; eexists; (split; [reflexivity|lia]).
  - intros c Hc. unfold Server.readCount, Server.toInt, of_int.
    cbn [ToNumber mbind result_bind isFinite negb]. rewrite Math_round_int.
    f_equal. lia.
  - reflexivity.
Qed.

(** ** [normalizeQuestions]: which rows are kept *)

Lemma normalizeQuestions_loop_first (expectedCount : Z) (rows : list jsval) :
  forall (out : list Server.Question) (usedIds : gset jsstring),
    (length out <= Z.to_nat expectedCount)%nat ->
    (fun q => (Server.question q, Server.rubric q))
      <$> Server.normalizeQuestions_loop expectedCount rows out usedIds
    = take (Z.to_nat expectedCount)
        (((fun q => (Server.question q, Server.rubric q)) <$> out)
         ++ filter (fun p => p.1 <> []) (text_and_rubric <$> rows)).
Proof.
  induction rows as [|row rows IH]; intros out usedIds Hlen.
  - cbn. rewrite app_nil_r, take_ge; [done|]. by rewrite length_fmap.
  - cbn [Server.normalizeQuestions_loop].
    destruct (Z.leb_spec expectedCount (Z.of_nat (length out))) as [Hfull|Hroom].
    + rewrite take_app_le by (rewrite length_fmap; lia).
      rewrite take_ge; [done|]. rewrite length_fmap. lia.
    + rewrite fmap_cons, filter_cons. unfold text_and_rubric at 1. cbn [fst].
      case_bool_decide as Hq; case_decide as Hd; try contradiction.
      * by apply IH.
      * rewrite IH by (rewrite length_app; cbn; lia).
        by rewrite fmap_app, <- app_assoc.
Qed.

(** X2.  The questions [normalizeQuestions] returns are the first
    [expectedCount] usable rows of the provider's payload, in the order of
    the payload: a row is usable when its [question] is a string that is
    not blank, and the text and rubric returned are the trimmed and cut
    ones.  Nothing is returned when [expectedCount] is zero or negative, or
    when the payload has no [questions] array. *)
Theorem normalizeQuestions_first_usable (parsed : jsval) (expectedCount : Z) :
  (fun q => (Server.question q, Server.rubric q))
    <$> Server.normalizeQuestions parsed expectedCount
  = take (Z.to_nat expectedCount)
      (filter (fun p => p.1 <> [])
              (text_and_rubric <$> Data.array_or_empty (get parsed "questions"))).
Proof.
  unfold Server.normalizeQuestions.
  rewrite normalizeQuestions_loop_first by (cbn; lia).
  by destruct (get parsed "questions").
Qed.

(** ** [normalizeGrades]: which rows are kept *)

Lemma Map_of_is_Some {V} (entries : list (jsstring * V)) (k : jsstring) :
  is_Some (Server.Map_of entries !! k) <-> k ∈ entries.*1.
Proof.
  split.
  - intros [v Hv]. apply Map_of_lookup in Hv.
    apply list_elem_of_fmap. by exists (k, v).
  - unfold Server.Map_of.
    assert (H : forall (m : gmap jsstring V),
               is_Some (m !! k) \/ k ∈ entries.*1 ->
               is_Some (foldl (fun m e => <[e.1 := e.2]> m) m entries !! k)).
    { induction entries as [|[k' v'] entries IH]; intros m [Hm|Hin]; cbn.
      - exact Hm.
      - by apply elem_of_nil in Hin.
      - apply IH. left. destruct (decide (k' = k)) as [->|Hne].
        + rewrite lookup_insert_eq. by eexists.
        + by rewrite lookup_insert_ne.
      - cbn in Hin. apply elem_of_cons in Hin as [->|Hin].
        + apply IH. left. rewrite lookup_insert_eq. by eexists.
        + apply IH. by right. }
    intros Hin. apply H. by right.
Qed.

Lemma normalizeGrades_loop_ids (answerById : gmap jsstring Server.Answer)
    (rows : list jsval) :
  forall out out',
    Server.normalizeGrades_loop answerById rows out = Ok out' ->
    Server.row_questionId <$> out'
    = (Server.row_questionId <$> out)
      ++ filter (fun id => id <> [] /\ is_Some (answerById !! id))
                ((fun row => Server.clampText (get row "questionId") 120) <$> rows).
Proof.
  induction rows as [|row rows IH]; intros out out' Hloop.
  - cbn in Hloop. injection Hloop as <-. by rewrite app_nil_r.
  - cbn [Server.normalizeGrades_loop] in Hloop. rewrite fmap_cons, filter_cons.
    destruct (answerById !! Server.clampText (get row "questionId") 120)
      as [answer|] eqn:Hlook.
    + case_bool_decide as Hid.
      * case_decide as Hd; [by destruct Hd|]. by apply IH.
      * case_decide as Hd; [|exfalso; apply Hd; split; [done|by eexists]].
        destruct (Server.toInt (get row "score") 0) as [n|e]; [|discriminate].
        cbn in Hloop. apply IH in Hloop. rewrite Hloop, fmap_app. cbn.
        by rewrite <- app_assoc.
    + case_decide as Hd; [destruct Hd as [_ [x Hx]]|by apply IH].
      unfold jsstring in *. congruence.
Qed.

Lemma normalizeGrades_loop_returns (answerById : gmap jsstring Server.Answer)
    (rows : list jsval) :
  Forall (fun row => to_string_throws (get row "score") = false) rows ->
  forall out, exists out', Server.normalizeGrades_loop answerById rows out = Ok out'.
Proof.
  induction 1 as [|row rows Hrow _ IH]; intros out; [by eexists|].
  cbn [Server.normalizeGrades_loop].
  destruct (answerById !! _) as [answer|]; [|apply IH].
  case_bool_decide; [apply IH|].
  destruct (ToNumber_returns _ Hrow) as [n Hn].
  unfold Server.toInt. rewrite Hn. cbn. destruct n; cbn; apply IH.
Qed.

(** X3.  When no [score] of the provider's payload is an object with a
    [toString] property of its own, [normalizeGrades] returns, and it
    returns one grade for every row of the payload whose [questionId],
    trimmed and cut to 120 code units, is not empty and is the id of an
    answer of the request: in the order of the payload, none dropped, none
    added, and a row graded twice by the provider is returned twice. *)
Theorem normalizeGrades_matching_rows (parsed : jsval) (answers : list Server.Answer) :
  Forall (fun row => to_string_throws (get row "score") = false)
         (Data.array_or_empty (get parsed "results")) ->
  exists out,
    Server.normalizeGrades parsed answers = Ok out
    /\ Server.questionId <$> out
       = filter (fun id => id <> [] /\ id ∈ Server.answer_questionId <$> answers)
                ((fun row => Server.clampText (get row "questionId") 120)
                   <$> Data.array_or_empty (get parsed "results")).
Proof.
  intros Hrows. unfold Server.normalizeGrades.
  set (rows := match get parsed "results" with JArr rows => rows | _ => [] end).
  assert (Hr : Data.array_or_empty (get parsed "results") = rows) by done.
  rewrite Hr in *. clearbody rows. clear Hr.
  set (answerById := Server.Map_of _).
  destruct (normalizeGrades_loop_returns answerById rows Hrows []) as [out' Hloop].
  rewrite Hloop. cbn. eexists. split; [reflexivity|].
  rewrite <- list_fmap_compose.
  apply normalizeGrades_loop_ids in Hloop. cbn in Hloop.
  etransitivity; [exact Hloop|].
  apply list_filter_iff. intros id. subst answerById.
  rewrite Map_of_is_Some, <- list_fmap_compose. reflexivity.
Qed.

(** ** [parseModelJson]: the fenced block and the braces *)

Lemma match_fenced_no_fence (text : jsstring) :
  96%N ∉ text -> Server.match_fenced text = None.
Proof.
  induction text as [|c text IH]; [done|]. intros H.
  apply not_elem_of_cons in H as [Hc Ht]. cbn [Server.match_fenced].
  change Server.fence with (96%N :: [96%N; 96%N]).
  rewrite starts_with_head by done. by apply IH.
Qed.

Section Extraction.

Variable JSON_parse : jsstring -> option jsval.

(** X4.  JSON inside a fenced block is found.  Take a provider text that
    is trimmed, has at most 25000 code units and does not parse as it is,
    and that holds a fenced block: three backquotes, an optional [json] in
    any letter case, white space, a body that has no backquote, three
    backquotes; no backquote comes before the block.  When the trimmed body
    parses, [parseModelJson] returns what it parses to, whatever commentary
    surrounds the block. *)
Theorem parseModelJson_fenced_block (pre tag ws body post : jsstring) (v : jsval) :
  let content := pre ++ Server.fence ++ tag ++ ws ++ body ++ Server.fence ++ post in
  trim content = content -> (length content <= 25000)%nat ->
  96%N ∉ pre -> 96%N ∉ body ->
  (ascii_lower <$> tag = lit "json"
   \/ tag = [] /\ Server.starts_with (lit "json")
                    (ascii_lower <$> take 4 (ws ++ body ++ Server.fence ++ post)) = false) ->
  Forall (fun c => is_white_space c = true) ws ->
  match body with
  | [] => False
  | c :: _ => is_white_space c = false
  end ->
  JSON_parse content = None ->
  JSON_parse (trim body) = Some v ->
  Server.parseModelJson JSON_parse (JStr content) = Ok v.
Proof.
  intros content Htrim Hlen Hpre Hbody Htag Hws Hb Hfail Hok.
  unfold Server.parseModelJson. rewrite clampText_string, Htrim, take_ge by lia.
  assert (Hm : Server.match_fenced content = Some body).
  { apply fenced_candidate; try done. by destruct body. }
  unfold Server.attempts_of. rewrite Hm.
  destruct body as [|c body]; [done|]. cbv zeta.
  destruct ((0 <=? _) && _); cbn [Server.first_parse app]; by rewrite Hfail, Hok.
Qed.

(** X5.  JSON between prose is found.  Take a provider text that is
    trimmed, has at most 25000 code units, has no backquote and does not
    parse as it is.  When the part from its first opening brace to its last
    closing brace parses, [parseModelJson] returns what that part parses
    to. *)
Theorem parseModelJson_braces (a mid b : jsstring) (v : jsval) :
  let content := a ++ [123%N] ++ mid ++ [125%N] ++ b in
  trim content = content -> (length content <= 25000)%nat ->
  123%N ∉ a -> 125%N ∉ b -> 96%N ∉ content ->
  JSON_parse content = None ->
  JSON_parse ([123%N] ++ mid ++ [125%N]) = Some v ->
  Server.parseModelJson JSON_parse (JStr content) = Ok v.
Proof.
  intros content Htrim Hlen Ha Hb Hfence Hfail Hok.
  unfold Server.parseModelJson. rewrite clampText_string, Htrim, take_ge by lia.
  destruct (brace_candidate a mid b Ha Hb) as [Hc Hs]. fold content in Hc, Hs.
  unfold Server.attempts_of. rewrite (match_fenced_no_fence content Hfence).
  cbv zeta in *. rewrite Hc, Hs. cbn [Server.first_parse app] in Hok |- *.
  by rewrite Hfail, Hok.
Qed.

End Extraction.

(** ** Validated requests *)

Lemma answers_of_valid (answersRaw : list jsval) :
  (length (Server.answers_of answersRaw) <= 20)%nat
  /\ Forall valid_answer (Server.answers_of answersRaw).
Proof.
  unfold Server.answers_of. split.
  - etransitivity; [apply length_filter|].
    rewrite length_fmap, slice_0, length_take. lia.
  - apply Forall_forall. intros a Ha.
    apply list_elem_of_filter in Ha as [(H1 & H2 & H3) Ha].
    apply list_elem_of_fmap in Ha as (row & -> & _). cbn in *.
    repeat split; try done; apply clampText_length.
Qed.

Section RequestFacts.

Variable toLowerCase : jsstring -> jsstring.
Variable String_of : jsval -> result jsstring.
Variable URL_protocol : jsstring -> option jsstring.
Variable DEFAULT_OLLAMA_BASE_URL : jsstring.
Variables OLLAMA_MODEL OPENAI_MODEL ANTHROPIC_MODEL : jsstring.
Variables OPENAI_API_KEY ANTHROPIC_API_KEY : option jsstring.

Local Abbreviation parseGenerateRequest :=
  (Server.parseGenerateRequest toLowerCase String_of URL_protocol DEFAULT_OLLAMA_BASE_URL
     OLLAMA_MODEL OPENAI_MODEL ANTHROPIC_MODEL).
Local Abbreviation parseGradeRequest :=
  (Server.parseGradeRequest toLowerCase String_of URL_protocol DEFAULT_OLLAMA_BASE_URL
     OLLAMA_MODEL OPENAI_MODEL ANTHROPIC_MODEL).
Local Abbreviation generate_questions :=
  (Server.generate_questions toLowerCase String_of URL_protocol DEFAULT_OLLAMA_BASE_URL
     OLLAMA_MODEL OPENAI_MODEL ANTHROPIC_MODEL OPENAI_API_KEY ANTHROPIC_API_KEY).
Local Abbreviation grade :=
  (Server.grade toLowerCase String_of URL_protocol DEFAULT_OLLAMA_BASE_URL
     OLLAMA_MODEL OPENAI_MODEL ANTHROPIC_MODEL OPENAI_API_KEY ANTHROPIC_API_KEY).

Lemma readProvider_Ok (value : jsval) (provider : jsstring) :
  Server.readProvider toLowerCase value = Ok provider -> provider ∈ Server.PROVIDERS.
Proof. unfold Server.readProvider. case_bool_decide; [|discriminate]. by intros [= <-]. Qed.

Lemma sanitizeModel_Ok (provider : jsstring) (modelRaw : jsval) (model : jsstring) :
  Server.sanitizeModel OLLAMA_MODEL OPENAI_MODEL ANTHROPIC_MODEL provider modelRaw = Ok model ->
  valid_model model.
Proof.
  unfold Server.sanitizeModel. case_bool_decide as Hne; [discriminate|].
  destruct (forallb _ _) eqn:Hall; [|discriminate]. cbn. intros [= <-].
  repeat split; [done|apply clampText_length|].
  apply Forall_forall. intros c Hc.
  apply (proj1 (forallb_forall _ _) Hall). by apply list_elem_of_In.
Qed.

Lemma sanitizeBaseUrl_Ok (urlRaw : jsval) (url : jsstring) :
  Server.sanitizeBaseUrl String_of URL_protocol DEFAULT_OLLAMA_BASE_URL urlRaw = Ok url ->
  URL_protocol url = Some (lit "http:") \/ URL_protocol url = Some (lit "https:").
Proof.
  unfold Server.sanitizeBaseUrl.
  destruct (Server.withNoTrailingSlash _ _) as [value|]; [|discriminate]. cbn.
  destruct (URL_protocol value) as [protocol|] eqn:Hp; [|discriminate].
  unfold jsstring_eqb. do 2 case_bool_decide; cbn; try discriminate;
    intros [= <-]; subst; rewrite Hp; auto.
Qed.

Lemma readDifficulty_in (value : jsval) :
  Server.readDifficulty toLowerCase value
  ∈ [lit "easy"; lit "medium"; lit "hard"; lit "mixed"].
Proof.
  unfold Server.readDifficulty. repeat case_bool_decide; cbn;
    repeat match goal with H : _ = lit _ |- _ => rewrite H; clear H end;
    set_solver.
Qed.

Lemma readStyle_in (value : jsval) :
  Server.readStyle toLowerCase value
  ∈ [lit "comprehension"; lit "critical_thinking"; lit "mixed"].
Proof.
  unfold Server.readStyle. repeat case_bool_decide; cbn;
    repeat match goal with H : _ = lit _ |- _ => rewrite H; clear H end;
    set_solver.
Qed.

Lemma parseGenerateRequest_count (body : jsval) (input : Server.GenerateInput.t) :
  parseGenerateRequest body = Ok input -> 1 <= Server.GenerateInput.count input <= 15.
Proof.
  unfold Server.parseGenerateRequest.
  destruct (negb (truthy body) || negb (Server.is_object body)); [discriminate|].
  destruct (Server.readProvider _ _) as [provider|]; [|discriminate]. cbn.
  destruct (Server.sanitizeModel _ _ _ _ _) as [model|]; [|discriminate]. cbn.
  destruct (Server.sanitizeBaseUrl _ _ _ _) as [url|]; [|discriminate]. cbn.
  destruct (Server.readCount _) as [count|] eqn:Hc; [|discriminate]. cbn.
  intros [= <-]. cbn. by eapply readCount_range.
Qed.

(** X6.  A generation request that passes validation is within the limits
    the gateway works with: the provider is one of the three known ones;
    the model name is not empty, has at most 120 code units, all of them
    letters, digits or one of [._:/-]; the Ollama address parses as an
    http or https URL; the count is from 1 to 15; difficulty and style are
    members of their enumerations; and every text of the book and of the
    chapter is cut to its limit (300 code units for title, author and
    label, 7000 for the summary, 5000 for takeaways and reflection). *)
Theorem parseGenerateRequest_valid (body : jsval) (input : Server.GenerateInput.t) :
  parseGenerateRequest body = Ok input -> valid_generate_input URL_protocol input.
Proof.
  unfold Server.parseGenerateRequest.
  destruct (negb (truthy body) || negb (Server.is_object body)); [discriminate|].
  destruct (Server.readProvider _ _) as [provider|] eqn:Hp; [|discriminate]. cbn.
  destruct (Server.sanitizeModel _ _ _ _ _) as [model|] eqn:Hm; [|discriminate]. cbn.
  destruct (Server.sanitizeBaseUrl _ _ _ _) as [url|] eqn:Hu; [|discriminate]. cbn.
  destruct (Server.readCount _) as [count|] eqn:Hc; [|discriminate]. cbn.
  intros [= <-]. unfold valid_generate_input, valid_target. cbn.
  split; [split; [by eapply readProvider_Ok|]; split;
          [by eapply sanitizeModel_Ok|by eapply sanitizeBaseUrl_Ok]|].
  split; [by eapply readCount_range|].
  split; [apply readDifficulty_in|]. split; [apply readStyle_in|].
  repeat split; apply clampText_length.
Qed.

(** X7.  A grading request that passes validation has from 1 to 20
    answers, taken from the first 20 rows of the body; each has a question
    id, a question and a student answer that are not empty and are cut to
    120, 700 and 10000 code units.  Its provider, model, Ollama address and
    book and chapter texts are held to the same rules as those of a
    generation request. *)
Theorem parseGradeRequest_valid (body : jsval) (input : Server.GradeInput.t) :
  parseGradeRequest body = Ok input ->
  valid_grade_input URL_protocol input
  /\ Server.GradeInput.answers input
     = Server.answers_of (Data.array_or_empty (get body "answers")).
Proof.
  unfold Server.parseGradeRequest.
  destruct (negb (truthy body) || negb (Server.is_object body)); [discriminate|].
  destruct (Server.readProvider _ _) as [provider|] eqn:Hp; [|discriminate]. cbn [mbind result_bind].
  destruct (Server.sanitizeModel _ _ _ _ _) as [model|] eqn:Hm; [|discriminate]. cbn [mbind result_bind].
  destruct (Server.sanitizeBaseUrl _ _ _ _) as [url|] eqn:Hu; [|discriminate]. cbn [mbind result_bind].
  case_bool_decide as Hlen; [discriminate|]. intros [= <-].
  unfold valid_grade_input, valid_target.
  cbn [Server.GradeInput.answers Server.GradeInput.provider Server.GradeInput.model
       Server.GradeInput.ollamaBaseUrl Server.GradeInput.book Server.GradeInput.chapter
       Server.BookInput.title Server.BookInput.author Server.GradeChapterInput.label
       Server.GradeChapterInput.summary Server.GradeChapterInput.takeaways].
  set (raw := match get body "answers" with JArr items => items | _ => [] end) in *.
  assert (Hraw : Data.array_or_empty (get body "answers") = raw) by done.
  destruct (answers_of_valid raw) as [H20 Hvalid].
  split; [|by rewrite Hraw].
  split; [split; [by eapply readProvider_Ok|]; split;
          [by eapply sanitizeModel_Ok|by eapply sanitizeBaseUrl_Ok]|].
  split; [lia|]. split; [exact Hvalid|].
  repeat split; apply clampText_length.
Qed.

(** ** What the two endpoints respond *)

Lemma normalizeQuestions_loop_served (expectedCount : Z) (rows : list jsval) :
  forall out usedIds,
    Forall served_question out ->
    Forall served_question (Server.normalizeQuestions_loop expectedCount rows out usedIds).
Proof.
  induction rows as [|row rows IH]; intros out usedIds Hout; [exact Hout|].
  cbn [Server.normalizeQuestions_loop].
  destruct (expectedCount <=? Z.of_nat (length out)); [exact Hout|].
  case_bool_decide as Hq; [by apply IH|].
  apply IH, Forall_app. split; [exact Hout|]. apply Forall_singleton.
  repeat split; cbn; try apply clampText_length; [exact Hq|].
  destruct (bool_decide _ || bool_decide _) eqn:Hid; [done|].
  apply orb_false_iff in Hid as [Hid _]. by apply bool_decide_eq_false in Hid.
Qed.

(** X8.  Whatever the body of the request asks for and whatever the
    provider answers, a successful response of the generation endpoint
    carries at least one question and at most 15, and at most as many as
    the validated count; each has an id and a text that are not empty, a
    text of at most 500 code units and a rubric of at most 2000. *)
Theorem generate_questions_response (body header : jsval) (upstream : result jsval)
    (questions : list Server.Question) :
  generate_questions body header upstream = Ok questions ->
  (1 <= length questions <= 15)%nat
  /\ Forall served_question questions
  /\ exists input, parseGenerateRequest body = Ok input
                   /\ Z.of_nat (length questions) <= Server.GenerateInput.count input.
Proof.
  unfold Server.generate_questions.
  destruct (Server.parseGenerateRequest _ _ _ _ _ _ _ body) as [input|] eqn:Hin;
    [|discriminate]. cbn.
  destruct (Server.resolveApiKey _ _ _ _) as [apiKey|]; [|discriminate]. cbn.
  destruct upstream as [parsed|]; [|discriminate]. cbn.
  case_bool_decide as Hlen; [discriminate|]. intros [= <-].
  pose proof (parseGenerateRequest_count _ _ Hin) as Hcount.
  destruct (normalizeQuestions_count_and_text parsed (Server.GenerateInput.count input))
    as [Hle _]; [lia|].
  split; [lia|]. split.
  - unfold Server.normalizeQuestions. apply normalizeQuestions_loop_served. constructor.
  - by exists input.
Qed.

Lemma normalizeGrades_loop_served (answers : list Server.Answer) (rows : list jsval) :
  let served (r : Server.GradedRow) :=
    Server.row_questionId r ∈ Server.answer_questionId <$> answers
    /\ 0 <= Server.row_score r <= 100
    /\ (length (Server.row_feedback r) <= 2000)%nat
    /\ (length (Server.row_idealAnswer r) <= 2000)%nat in
  forall out out',
    Server.normalizeGrades_loop
      (Server.Map_of ((fun row => (Server.answer_questionId row, row)) <$> answers))
      rows out = Ok out' ->
    Forall served out -> Forall served out'.
Proof.
  intros served. induction rows as [|row rows IH]; intros out out' Hloop Hout.
  - cbn in Hloop. by injection Hloop as <-.
  - cbn [Server.normalizeGrades_loop] in Hloop.
    destruct (_ !! _) as [answer|] eqn:Hlook; [|by eapply IH].
    case_bool_decide; [by eapply IH|].
    destruct (Server.toInt (get row "score") 0) as [n|e]; [|discriminate].
    cbn [mbind result_bind] in Hloop. eapply IH; [exact Hloop|].
    apply Forall_app. split; [exact Hout|]. apply Forall_singleton.
    repeat split; cbn; try apply clampText_length; try lia.
    assert (Hin : is_Some (Server.Map_of
                             ((fun row => (Server.answer_questionId row, row)) <$> answers)
                           !! Server.clampText (get row "questionId") 120))
      by (by eexists).
    apply Map_of_is_Some in Hin. by rewrite <- list_fmap_compose in Hin.
Qed.

(** X9.  Whatever the provider answers, a successful response of the
    grading endpoint carries at least one grade, and every grade is for a
    question of the validated request, with a score from 0 to 100 and a
    feedback and an ideal answer of at most 2000 code units each. *)
Theorem grade_response (body header : jsval) (upstream : result jsval)
    (results : list Server.Grade) :
  grade body header upstream = Ok results ->
  results <> []
  /\ exists input, parseGradeRequest body = Ok input
                   /\ Forall (served_grade (Server.GradeInput.answers input)) results.
Proof.
  unfold Server.grade.
  destruct (Server.parseGradeRequest _ _ _ _ _ _ _ body) as [input|] eqn:Hin;
    [|discriminate]. cbn [mbind result_bind].
  destruct (Server.resolveApiKey _ _ _ _) as [apiKey|]; [|discriminate].
  cbn [mbind result_bind].
  destruct upstream as [parsed|]; [|discriminate]. cbn [mbind result_bind].
  destruct (Server.normalizeGrades parsed _) as [out|] eqn:Hout; [|discriminate].
  cbn [mbind result_bind]. case_bool_decide as Hlen; [discriminate|]. intros [= <-].
  split; [by destruct out|]. exists input. split; [done|].
  unfold Server.normalizeGrades in Hout.
  destruct (Server.normalizeGrades_loop _ _ _) as [rows|] eqn:Hloop; [|discriminate].
  cbn [mbind result_bind] in Hout. injection Hout as <-.
  apply normalizeGrades_loop_served in Hloop; [|constructor].
  apply Forall_fmap. eapply Forall_impl; [exact Hloop|]. by intros r Hr.
Qed.

End RequestFacts.

(** ** Error messages *)

Lemma trim_fixed (s : jsstring) :
  match s with
  | [] => True
  | c :: _ => is_white_space c = false
  end ->
  match reverse s with
  | [] => True
  | c :: _ => is_white_space c = false
  end ->
  trim s = s.
Proof.
  intros Hs Hr. unfold trim. rewrite (trim_start_fixed s Hs).
  unfold trim_end. rewrite (trim_start_fixed _ Hr). apply reverse_involutive.
Qed.

(** X10.  The message the client shows for a failed request is never
    empty and has no white space around it, whatever the response body is:
    it is [Request failed (status)], or the trimmed [error] of the
    response, a string that is not blank.  The gateway's own
    [providerErrorMessage] likewise returns either its fallback or a
    trimmed message that is not empty. *)
Theorem apiErrorMessage_trimmed (payload : jsval) (status : nat) (fallback : jsstring) :
  Data.apiErrorMessage payload status <> []
  /\ trim (Data.apiErrorMessage payload status) = Data.apiErrorMessage payload status
  /\ (Data.apiErrorMessage payload status
      = lit "Request failed (" ++ decimal status ++ lit ")"
      \/ exists msg, get payload "error" = JStr msg /\ trim msg <> []
                     /\ Data.apiErrorMessage payload status = trim msg)
  /\ (Server.providerErrorMessage payload fallback = fallback
      \/ Server.providerErrorMessage payload fallback <> []
         /\ trim (Server.providerErrorMessage payload fallback)
            = Server.providerErrorMessage payload fallback).
Proof.
  assert (Hfb : lit "Request failed (" ++ decimal status ++ lit ")" <> []
                /\ trim (lit "Request failed (" ++ decimal status ++ lit ")")
                   = lit "Request failed (" ++ decimal status ++ lit ")").
  { split; [done|]. apply trim_fixed; [done|].
    rewrite app_assoc, reverse_app. done. }
  split; [|split; [|split]].
  - unfold Data.apiErrorMessage. destruct payload; try apply Hfb.
    destruct (lookup_prop _ _) as [[| | | |msg| |]|]; try apply Hfb.
    destruct (Nat.ltb_spec 0 (length (trim msg))) as [Hpos|]; [|apply Hfb].
    intros He. rewrite He in Hpos. cbn in Hpos. lia.
  - unfold Data.apiErrorMessage. destruct payload; try apply Hfb.
    destruct (lookup_prop _ _) as [[| | | |msg| |]|]; try apply Hfb.
    destruct (Nat.ltb_spec 0 (length (trim msg))); [|apply Hfb].
    apply trim_idem.
  - unfold Data.apiErrorMessage. destruct payload as [| | | | | |props]; try (by left).
    unfold get.
    destruct (lookup_prop _ _) as [[| | | |msg| |]|]; try (by left).
    destruct (Nat.ltb_spec 0 (length (trim msg))) as [Hpos|]; [|by left].
    right. exists msg. split; [reflexivity|]. split; [|reflexivity].
    intros He. rewrite He in Hpos. cbn in Hpos. lia.
  - unfold Server.providerErrorMessage.
    destruct (Server.is_object payload); [|by left].
    destruct (get payload "error") as [| | | |error|items|props]; try (by left).
    + case_bool_decide; [by left|]. right. split; [done|apply trim_idem].
    + destruct (get (JObj props) "message"); try (by left).
      case_bool_decide; [by left|]. right. split; [done|apply trim_idem].
Qed.
(** * The data repair: what a normalized blob is held to *)

Lemma clampStr_string_length (s : jsstring) (max : nat) :
  (length (Data.clampStr_string s max) <= max)%nat.
Proof.
  unfold Data.clampStr_string. case_bool_decide; [cbn; lia|].
  destruct (Nat.ltb_spec max (length s)); [|lia].
  rewrite slice_0, length_take. lia.
Qed.

Lemma clampStr_string_nonempty (s : jsstring) (max : nat) :
  s <> [] -> (0 < max)%nat -> Data.clampStr_string s max <> [].
Proof.
  intros Hs Hmax. unfold Data.clampStr_string. case_bool_decide; [done|].
  destruct (Nat.ltb_spec max (length s)); [|done].
  rewrite slice_0. destruct s, max; cbn; (done || lia).
Qed.

Lemma clampStr_JStr (s : jsstring) (max : nat) :
  Data.clampStr (JStr s) max = Ok (JStr (Data.clampStr_string s max)).
Proof. reflexivity. Qed.

Lemma nonblank_nonempty (s : jsstring) : trim s <> [] -> s <> [].
Proof. by intros H ->. Qed.

Lemma keep_difficulty_valid (v : jsval) :
  Data.isAIDifficulty (Data.keep_difficulty v) = true.
Proof. unfold Data.keep_difficulty. by destruct (Data.isAIDifficulty v) eqn:E. Qed.

Lemma keep_style_valid (v : jsval) :
  Data.isAIQuestionStyle (Data.keep_style v) = true.
Proof. unfold Data.keep_style. by destruct (Data.isAIQuestionStyle v) eqn:E. Qed.

Lemma clampInt_within (value : jsval) (min max fallback z : Z) :
  min <= max -> min <= fallback <= max ->
  Data.clampInt value min max fallback = Ok z -> int_within min max (of_int z).
Proof. intros. exists z. split; [done|]. by eapply clampInt_range. Qed.

Section BoundFacts.

Variable nowISO : jsstring.

Lemma gradeResult_of_valid (r r' : jsval) :
  Data.gradeResult_ok r = true -> Data.gradeResult_of r = Ok r' -> valid_grade_result r'.
Proof.
  unfold Data.gradeResult_ok, Data.gradeResult_of. rewrite !andb_true_iff.
  intros [[[_ Hid] Hq] Ha] H.
  destruct (get r "question") as [| | | |question| |] eqn:Eq; try discriminate.
  destruct (get r "studentAnswer") as [| | | |answer| |] eqn:Ea; try discriminate.
  rewrite ?clampStr_JStr in H. cbn [mbind result_bind] in H.
  destruct (Data.clampInt (get r "score") 0 100 0) as [score|] eqn:Hs; [|discriminate].
  cbn [mbind result_bind] in H.
  destruct (Data.clampStr (nullish_or (get r "feedback") _) 2000) as [feedback|];
    [|discriminate].
  cbn [mbind result_bind] in H.
  destruct (Data.clampStr _ 2000) as [ideal|]; [|discriminate].
  cbn [mbind result_bind] in H. injection H as <-.
  split; [exact Hid|]. split; [|split].
  - eexists. split; [reflexivity|apply clampStr_string_length].
  - eexists. split; [reflexivity|apply clampStr_string_length].
  - eapply clampInt_within; [| |exact Hs]; lia.
Qed.

Lemma feedbackEntry_of_valid (entry entry' : jsval) :
  Data.feedbackEntry_of nowISO entry = Ok entry' ->
  (0 < length (Data.array_or_empty (get entry' "results")))%nat ->
  valid_feedback_entry entry'.
Proof.
  unfold Data.feedbackEntry_of. intros H.
  destruct (Data.clampInt (get entry "averageScore") 0 100 0) as [a|] eqn:Ha; [|discriminate].
  cbn [mbind result_bind] in H.
  destruct (mapR Data.gradeResult_of _) as [results|] eqn:Hr; [|discriminate].
  cbn [mbind result_bind] in H. injection H as <-.
  change (get (Data.obj _) "results") with (JArr results).
  cbn [Data.array_or_empty]. intros Hlen.
  split; [|split; [|split]].
  - eapply clampInt_within; [| |exact Ha]; lia.
  - apply keep_difficulty_valid.
  - apply keep_style_valid.
  - exists results. split; [reflexivity|]. split; [by destruct results; cbn in Hlen; [lia|]|].
    eapply mapR_Forall; [exact Hr|]. intros x y Hx Hy.
    apply list_elem_of_filter in Hx as [Hok _]. by eapply gradeResult_of_valid.
Qed.

Lemma generatedQuestion_of_valid (chapterIds : list jsval) (q q' : jsval) :
  Data.generatedQuestion_ok chapterIds q = true ->
  Data.generatedQuestion_of nowISO q = Ok q' -> valid_generated_question q'.
Proof.
  unfold Data.generatedQuestion_ok, Data.generatedQuestion_of. rewrite !andb_true_iff.
  intros [[[[_ Hid] _] _] Hq] H.
  destruct (get q "question") as [| | | |question| |] eqn:Eq; try discriminate.
  cbn [Data.is_nonblank_string] in Hq. apply negb_true_iff, bool_decide_eq_false in Hq.
  rewrite ?clampStr_JStr in H. cbn [mbind result_bind] in H.
  destruct (Data.clampStr _ 2000) as [rubric|]; [|discriminate].
  cbn [mbind result_bind] in H. injection H as <-.
  split; [exact Hid|]. split; [|split].
  - eexists. split; [reflexivity|]. split; [|apply clampStr_string_length].
    apply clampStr_string_nonempty; [by apply nonblank_nonempty|lia].
  - apply keep_difficulty_valid.
  - apply keep_style_valid.
Qed.

Lemma draftAnswer_of_valid (chapterIds questionIds : list jsval) (a a' : jsval) :
  Data.draftAnswer_ok chapterIds questionIds a = true ->
  Data.draftAnswer_of nowISO a = Ok a' -> valid_draft_answer a'.
Proof.
  unfold Data.draftAnswer_ok, Data.draftAnswer_of. rewrite !andb_true_iff.
  intros [_ Ha] H.
  destruct (get a "answer") as [| | | |answer| |] eqn:Ea; try discriminate.
  cbn [Data.is_nonblank_string] in Ha. apply negb_true_iff, bool_decide_eq_false in Ha.
  rewrite ?clampStr_JStr in H. cbn [mbind result_bind] in H. injection H as <-.
  eexists. split; [reflexivity|]. split; [|apply clampStr_string_length].
  apply clampStr_string_nonempty; [by apply nonblank_nonempty|by apply Nat.ltb_lt].
Qed.

(** X11.  The numbers of a normalized blob are within their ranges.  On
    every blob on which the run returns, the stored configuration has a
    count that is an integer from 1 to 15 and a difficulty and a style of
    their enumerations; the feedback history has at most 500 entries; every
    entry has at least one result, an average score that is an integer from
    0 to 100 and a valid difficulty and style; and every result has a
    score that is an integer from 0 to 100, a question of at most 500 code
    units and a student answer of at most 10000. *)
Theorem normalizeUserData_numbers (raw out : jsval) :
  Data.normalizeUserData nowISO raw = Ok out ->
  valid_config (get (get out "aiCoach") "lastConfig")
  /\ (length (feedbackHistory_of out) <= 500)%nat
  /\ Forall valid_feedback_entry (feedbackHistory_of out).
Proof.
  intros H. apply normalizeUserData_Ok in H.
  destruct H as (chapters & gq & da & fe & qas & count & _ & _ & _ & _ & Hfe & _ & Hn & ->).
  change (feedbackHistory_of (Data.obj _)) with (Data.feedbackHistory_from fe).
  split; [|split].
  - split; [|split].
    + eapply clampInt_within; [| |exact Hn]; unfold Data.default_count; lia.
    + apply keep_difficulty_valid.
    + apply keep_style_valid.
  - unfold Data.feedbackHistory_from. rewrite slice_0, length_take. lia.
  - apply Forall_forall. intros e He. unfold Data.feedbackHistory_from in He.
    rewrite slice_0 in He. apply elem_of_take in He as (i & He & _).
    apply list_elem_of_lookup_2 in He. apply list_elem_of_filter in He as [Hlen He].
    destruct (mapR_elem _ _ _ Hfe e He) as (x & _ & Hx).
    eapply feedbackEntry_of_valid; [exact Hx|]. by apply Nat.ltb_lt.
Qed.

(** X12.  The texts of a normalized blob are there and within their
    limits.  On every blob on which the run returns, every generated
    question has a string id, a text that is a string of 1 to 500 code
    units and a difficulty and a style of their enumerations, and every
    draft answer has an answer that is a string of 1 to 10000 code
    units. *)
Theorem normalizeUserData_texts (raw out : jsval) :
  Data.normalizeUserData nowISO raw = Ok out ->
  Forall valid_generated_question (generatedQuestions_of out)
  /\ Forall valid_draft_answer (draftAnswers_of out).
Proof.
  intros H. apply normalizeUserData_Ok in H.
  destruct H as (chapters & gq & da & fe & qas & count & _ & _ & Hgq & Hda & _ & _ & _ & ->).
  change (generatedQuestions_of (Data.obj _)) with gq.
  change (draftAnswers_of (Data.obj _)) with da.
  split.
  - eapply mapR_Forall; [exact Hgq|]. intros x y Hx Hy.
    apply list_elem_of_filter in Hx as [Hok _]. by eapply generatedQuestion_of_valid.
  - eapply mapR_Forall; [exact Hda|]. intros x y Hx Hy.
    apply list_elem_of_filter in Hx as [Hok _]. by eapply draftAnswer_of_valid.
Qed.

(** X13.  A stored value that is not an object (the [null] of an absent
    key, a number, a string, an array) and an object without properties
    normalize to the empty user data of [createEmptyUserData], with the
    default configuration; and that empty user data, which is what the
    application loads when nothing is stored, normalizes to itself. *)
Theorem normalizeUserData_of_nothing (raw : jsval) :
  (forall key value props, raw <> JObj ((key, value) :: props)) ->
  Data.normalizeUserData nowISO raw = Ok Data.createEmptyUserData
  /\ Data.normalizeUserData nowISO Data.createEmptyUserData = Ok Data.createEmptyUserData.
Proof.
  intros Hraw. split; [|by vm_compute].
  destruct raw as [| |b|n|s|items|[|[key value] props]];
    [reflexivity..|by destruct (Hraw key value props)].
Qed.

End BoundFacts.
(** * The application state: what the updaters keep *)

(** ** Deleting a book *)

Lemma Forall_filter_keep {A} (P Q : A -> Prop) `{!forall x, Decision (Q x)} (l : list A) :
  Forall P l -> Forall P (filter Q l).
Proof.
  rewrite !Forall_forall. intros Hl x Hx. apply list_elem_of_filter in Hx as [_ Hx]. auto.
Qed.

Lemma deleteBook_removed (B : jsstring) (d : App.UserData) (ch : App.ChapterEntry.t) :
  ch ∈ App.chapters d -> App.ChapterEntry.bookId ch = B ->
  App.ChapterEntry.id ch
  ∈ App.ChapterEntry.id <$> filter (fun c => App.ChapterEntry.bookId c = B) (App.chapters d).
Proof.
  intros Hch HB. apply list_elem_of_fmap. exists ch. split; [done|].
  by apply list_elem_of_filter.
Qed.

(** X14.  Deleting a book keeps the state consistent.  If every reference
    of the state resolves (a chapter names a book, a question-and-answer
    and a generated question name a chapter, a draft answer names a
    generated question of its chapter, a feedback entry names a chapter of
    its book), the same holds after the delete-book updater; and if the
    selected chapter was a chapter of the selected book, it still is, or
    the selection is cleared. *)
Theorem deleteBook_keeps_consistent (B : jsstring) (d : App.UserData) :
  consistent d -> selection_valid d ->
  consistent (App.deleteBook B d) /\ selection_valid (App.deleteBook B d).
Proof.
  intros (Hch & Hqa & Hgq & Hda & Hfe) Hsel.
  rewrite Forall_forall in Hch. rewrite Forall_forall in Hqa.
  rewrite Forall_forall in Hgq. rewrite Forall_forall in Hda.
  rewrite Forall_forall in Hfe.
  pose proof (deleteBook_removed B d) as Hrem.
  assert (Hkept : forall ch, ch ∈ App.chapters d ->
            App.ChapterEntry.id ch
            ∉ App.ChapterEntry.id
                <$> filter (fun c => App.ChapterEntry.bookId c = B) (App.chapters d) ->
            ch ∈ App.chapters (App.deleteBook B d)).
  { intros ch Hin Hid. apply list_elem_of_filter. split; [|done].
    intros HB. apply Hid. by apply Hrem. }
  split; [repeat split|]; try apply Forall_forall.
  - intros c Hc. apply list_elem_of_filter in Hc as [HB Hc].
    destruct (Hch c Hc) as (b & Hb & Hid). exists b. split; [|done].
    apply list_elem_of_filter. split; [congruence|done].
  - intros qa Hq. apply list_elem_of_filter in Hq as [Hn Hq].
    destruct (Hqa qa Hq) as (ch & Hin & Hid). exists ch. split; [|done].
    apply Hkept; [done|]. by rewrite Hid.
  - intros q Hq. apply list_elem_of_filter in Hq as [Hn Hq].
    rewrite elem_of_list_to_set in Hn.
    destruct (Hgq q Hq) as (ch & Hin & Hid). exists ch. split; [|done].
    apply Hkept; [done|]. by rewrite Hid.
  - intros a Ha. apply list_elem_of_filter in Ha as [Hn Ha].
    destruct (Hda a Ha) as (q & Hin & Hid & Hc). exists q. split; [|done].
    apply list_elem_of_filter. split; [|done]. by rewrite Hc.
  - intros e He. apply list_elem_of_filter in He as [Hn He].
    rewrite elem_of_list_to_set in Hn.
    destruct (Hfe e He) as (ch & Hin & Hid & Hb). exists ch. split; [|done].
    apply Hkept; [done|]. by rewrite Hid.
  - intros x Hx. unfold App.deleteBook in Hx. cbn in Hx.
    destruct (decide (default [] (App.selectedChapterId (App.aiCoach d)) ∈ _))
      as [|Hn]; [discriminate|].
    rewrite Hx in Hn. cbn in Hn. rewrite elem_of_list_to_set in Hn.
    destruct (Hsel x Hx) as (ch & Hin & Hid & Hb). exists ch.
    split; [apply Hkept; [done|by rewrite Hid]|]. split; [done|].
    unfold App.deleteBook. cbn. rewrite Hb.
    destruct (decide (Some (App.ChapterEntry.bookId ch) = Some B)) as [[= HB]|]; [|done].
    exfalso. apply Hn. rewrite <- Hid. by apply Hrem.
Qed.

Lemma filter_Forall_id {A} (P : A -> Prop) `{!forall x, Decision (P x)} (l : list A) :
  Forall P l -> filter P l = l.
Proof.
  induction 1 as [|x l Hx _ IH]; [reflexivity|].
  rewrite filter_cons. case_decide; [|contradiction]. by rewrite IH.
Qed.

(** X27.  Deleting a book spares what belongs to the other books.  Every
    other book and every chapter of another book is still there; so is
    every question-and-answer, generated question, draft answer and
    feedback entry whose chapter is not a chapter of the deleted book; a
    selection of another book, or of a chapter of another book, stays;
    history and configuration are as they were.  When no book has the id,
    no chapter names it and it is not the selected book, the state is
    returned as it is. *)
Theorem deleteBook_spares_others (B : jsstring) (d : App.UserData) :
  let d' := App.deleteBook B d in
  let of_deleted c :=
    exists ch, ch ∈ App.chapters d /\ App.ChapterEntry.bookId ch = B
               /\ App.ChapterEntry.id ch = c in
  (forall x, x ∈ App.books d -> App.Book.id x <> B -> x ∈ App.books d')
  /\ (forall ch, ch ∈ App.chapters d -> App.ChapterEntry.bookId ch <> B ->
                 ch ∈ App.chapters d')
  /\ (forall qa, qa ∈ App.qas d -> ~ of_deleted (App.QA.chapterId qa) -> qa ∈ App.qas d')
  /\ (forall q, q ∈ App.generatedQuestions (App.aiCoach d) ->
                ~ of_deleted (App.AIGeneratedQuestion.chapterId q) ->
                q ∈ App.generatedQuestions (App.aiCoach d'))
  /\ (forall a, a ∈ App.draftAnswers (App.aiCoach d) ->
                ~ of_deleted (App.AIDraftAnswer.chapterId a) ->
                a ∈ App.draftAnswers (App.aiCoach d'))
  /\ (forall entry, entry ∈ App.feedbackHistory (App.aiCoach d) ->
                    ~ of_deleted (App.AIFeedbackEntry.chapterId entry) ->
                    entry ∈ App.feedbackHistory (App.aiCoach d'))
  /\ (App.selectedBookId (App.aiCoach d) <> Some B ->
      App.selectedBookId (App.aiCoach d') = App.selectedBookId (App.aiCoach d))
  /\ (forall c, App.selectedChapterId (App.aiCoach d) = Some c -> ~ of_deleted c ->
                App.selectedChapterId (App.aiCoach d') = Some c)
  /\ App.history d' = App.history d
  /\ App.lastConfig (App.aiCoach d') = App.lastConfig (App.aiCoach d)
  /\ (Forall (fun x => App.Book.id x <> B) (App.books d) ->
      Forall (fun ch => App.ChapterEntry.bookId ch <> B) (App.chapters d) ->
      App.selectedBookId (App.aiCoach d) <> Some B ->
      d' = d).
Proof.
  intros d' of_deleted.
  assert (Hdel : forall c,
            c ∈ App.ChapterEntry.id
                  <$> filter (fun ch => App.ChapterEntry.bookId ch = B) (App.chapters d) ->
            of_deleted c).
  { intros c Hc. apply list_elem_of_fmap in Hc as (ch & -> & Hch).
    apply list_elem_of_filter in Hch as [HB Hch]. by exists ch. }
  split; [intros x Hx Hid; by apply list_elem_of_filter|].
  split; [intros ch Hch Hid; by apply list_elem_of_filter|].
  split; [intros qa Hqa Hn; apply list_elem_of_filter; split; [|done]; intros Hc; auto|].
  do 3 (split; [intros x Hx Hn; apply list_elem_of_filter; split; [|done];
                rewrite elem_of_list_to_set; intros Hc; auto|]).
  split.
  { intros Hsel. subst d'. unfold App.deleteBook. cbn. by case_decide. }
  split.
  { intros c Hc Hn. subst d'. unfold App.deleteBook. cbn. rewrite Hc. cbn.
    case_decide as Hin; [|done]. rewrite elem_of_list_to_set in Hin. exfalso. auto. }
  do 2 (split; [reflexivity|]).
  intros Hbooks Hchapters Hsel.
  assert (Hnone : filter (fun ch => App.ChapterEntry.bookId ch = B) (App.chapters d) = []).
  { clear -Hchapters. induction Hchapters as [|ch l Hch _ IH]; [reflexivity|].
    rewrite filter_cons. by case_decide. }
  subst d'. unfold App.deleteBook. rewrite Hnone. cbn [fmap list_fmap].
  destruct d as [books chapters qas history [sb sc config gq da fe]]. cbn in *.
  f_equal.
  - by apply filter_Forall_id.
  - by apply filter_Forall_id.
  - apply filter_Forall_id, Forall_forall. intros qa _ Hin. by apply elem_of_nil in Hin.
  - f_equal; [by case_decide|..];
      apply filter_Forall_id, Forall_forall; intros x _ Hin; by apply elem_of_empty in Hin.
Qed.

(** ** Deleting a chapter, selecting a book *)

Section SortingFacts.

Variable sort_chapters : list App.ChapterEntry.t -> list App.ChapterEntry.t.

(** Sorting rearranges the array it is given. *)
Hypothesis sort_chapters_perm : forall l, sort_chapters l ≡ₚ l.

Lemma head_sort_elem (l : list App.ChapterEntry.t) (ch : App.ChapterEntry.t) :
  head (sort_chapters l) = Some ch -> ch ∈ l.
Proof.
  intros H. rewrite <- (sort_chapters_perm l).
  destruct (sort_chapters l); [discriminate|]. injection H as ->. left.
Qed.

(** X15.  The delete-chapter updater removes the chapter and everything
    that hangs on it, and nothing else: afterwards no chapter has the
    deleted id, and no question-and-answer, generated question, draft
    answer or feedback entry names it; every other chapter and every entry
    that names another chapter is still there; books, history and
    configuration are as they were; and the selected chapter is never the
    deleted one. *)
Theorem deleteChapter_cascades (chapterId : jsstring) (d : App.UserData) :
  let d' := App.deleteChapter sort_chapters chapterId d in
  (forall x, x ∈ App.chapters d' <-> x ∈ App.chapters d /\ App.ChapterEntry.id x <> chapterId)
  /\ (forall qa, qa ∈ App.qas d' <-> qa ∈ App.qas d /\ App.QA.chapterId qa <> chapterId)
  /\ (forall q, q ∈ App.generatedQuestions (App.aiCoach d') <->
                q ∈ App.generatedQuestions (App.aiCoach d)
                /\ App.AIGeneratedQuestion.chapterId q <> chapterId)
  /\ (forall a, a ∈ App.draftAnswers (App.aiCoach d') <->
                a ∈ App.draftAnswers (App.aiCoach d)
                /\ App.AIDraftAnswer.chapterId a <> chapterId)
  /\ (forall entry, entry ∈ App.feedbackHistory (App.aiCoach d') <->
                    entry ∈ App.feedbackHistory (App.aiCoach d)
                    /\ App.AIFeedbackEntry.chapterId entry <> chapterId)
  /\ App.selectedChapterId (App.aiCoach d') <> Some chapterId
  /\ App.books d' = App.books d /\ App.history d' = App.history d
  /\ App.selectedBookId (App.aiCoach d') = App.selectedBookId (App.aiCoach d)
  /\ App.lastConfig (App.aiCoach d') = App.lastConfig (App.aiCoach d).
Proof.
  intros d'. subst d'. unfold App.deleteChapter. cbn.
  do 5 (split; [intros x; rewrite list_elem_of_filter; tauto|]).
  split; [|repeat split].
  destruct (decide (App.selectedChapterId (App.aiCoach d) = Some chapterId)) as [Heq|Hne];
    [|exact Hne].
  destruct (App.selectedBookId (App.aiCoach d)) as [selected|]; [|discriminate].
  case_bool_decide; [discriminate|].
  destruct (head _) as [ch|] eqn:Hhead; [|discriminate]. cbn. intros [= Hid].
  apply head_sort_elem in Hhead.
  apply list_elem_of_filter in Hhead as [_ Hhead].
  apply list_elem_of_filter in Hhead as [Hne _]. contradiction.
Qed.



End SortingFacts.

(** ** Generating questions *)

Section GenerateKeeps.

Variable uid_gq : nat -> jsstring.

Lemma nonblank_of_head (t : jsstring) :
  t <> [] ->
  match t with
  | [] => True
  | c :: _ => is_white_space c = false
  end ->
  Data.is_nonblank_string (JStr t) = true.
Proof.
  intros Hne Hhead. destruct t as [|c t]; [done|].
  cbn [Data.is_nonblank_string]. apply negb_true_iff, bool_decide_eq_false.
  unfold trim. rewrite (trim_start_fixed (c :: t)) by done. by rewrite trim_end_cons.
Qed.

Lemma clampStr_string_head (u : jsstring) (max : nat) :
  match u with
  | [] => True
  | c :: _ => is_white_space c = false
  end ->
  match Data.clampStr_string u max with
  | [] => True
  | c :: _ => is_white_space c = false
  end.
Proof.
  intros Hu. unfold Data.clampStr_string. case_bool_decide; [done|].
  destruct (max <? length u)%nat; [|done]. rewrite slice_0.
  destruct u as [|c u]; [done|]. by destruct max.
Qed.

Lemma normalize_loop_clean (chapterId ts : jsstring) (config : App.AICoachConfig.t)
    (rawQuestions : list jsval) :
  forall (k : nat) (seenIds : gset jsstring) (normalized : list App.AIGeneratedQuestion.t),
    Forall clean_question normalized ->
    Forall clean_question
           (App.normalize_loop uid_gq chapterId ts config rawQuestions k seenIds normalized).
Proof.
  induction rawQuestions as [|item rest IH]; intros k seenIds normalized Hn; [exact Hn|].
  cbn [App.normalize_loop]. case_bool_decide as Htext; [by apply IH|].
  assert (Hclean : forall id,
            clean_question
              {| App.AIGeneratedQuestion.id := id;
                 App.AIGeneratedQuestion.chapterId := chapterId;
                 App.AIGeneratedQuestion.question :=
                   match get item "question" with
                   | JStr s => Data.clampStr_string (trim s) 500
                   | _ => []
                   end;
                 App.AIGeneratedQuestion.rubric :=
                   match get item "rubric" with
                   | JStr s => Data.clampStr_string s 2000
                   | _ => []
                   end;
                 App.AIGeneratedQuestion.createdAt := ts;
                 App.AIGeneratedQuestion.difficulty := App.AICoachConfig.difficulty config;
                 App.AIGeneratedQuestion.style := App.AICoachConfig.style config |}).
  { intros id. unfold clean_question. cbn [App.AIGeneratedQuestion.question
                                           App.AIGeneratedQuestion.rubric].
    destruct (get item "question") as [| | | |s| |]; try done.
    split; [|split].
    - apply nonblank_of_head; [done|]. apply clampStr_string_head, trim_head.
    - apply clampStr_string_idem.
    - destruct (get item "rubric"); try done. apply clampStr_string_idem. }
  repeat case_bool_decide; apply IH; apply Forall_app; split; trivial;
    apply Forall_singleton; apply Hclean.
Qed.

(** X18.  A completed generation keeps the state consistent, provided the
    chapter the questions were asked for is still a chapter of the state
    the update is applied to, and belongs to the selected book: every
    reference of the new state resolves, and the selected chapter is a
    chapter of the selected book.  (The handler awaits the gateway; the
    state may have changed when the update is applied.) *)
Theorem generateAIQuestions_keeps_consistent (data : App.UserData) (sessionUserId : jsstring)
    (aiSelectedBook : App.Book.t) (aiSelectedChapter : App.ChapterEntry.t)
    (response : jsval) (ts uid_h now_h : jsstring) (prev next : App.UserData) :
  App.generateAIQuestions_try uid_gq data sessionUserId aiSelectedBook aiSelectedChapter
    response ts uid_h now_h prev = Ok next ->
  aiSelectedChapter ∈ App.chapters prev ->
  App.ChapterEntry.bookId aiSelectedChapter = App.Book.id aiSelectedBook ->
  consistent prev ->
  consistent next /\ selection_valid next.
Proof.
  unfold App.generateAIQuestions_try.
  destruct (get_prop response "questions") as [questions|]; [|discriminate].
  cbn [mbind result_bind]. case_bool_decide; [discriminate|]. intros [= <-].
  set (normalized := App.normalize_loop _ _ _ _ _ _ _ _).
  assert (Hnorm : Forall (fun q => App.AIGeneratedQuestion.chapterId q
                                   = App.ChapterEntry.id aiSelectedChapter) normalized)
    by (apply normalize_loop_chapterId; constructor).
  rewrite Forall_forall in Hnorm.
  intros Hin Hbook (Hch & Hqa & Hgq & Hda & Hfe).
  rewrite Forall_forall in Hgq. rewrite Forall_forall in Hda.
  split; [repeat split; try assumption|]; try apply Forall_forall.
  - intros q Hq. cbn in Hq. apply elem_of_app in Hq as [Hq|Hq].
    + exists aiSelectedChapter. split; [done|]. symmetry. by apply Hnorm.
    + apply list_elem_of_filter in Hq as [_ Hq]. by apply Hgq.
  - intros a Ha. cbn in Ha. apply list_elem_of_filter in Ha as [Hne Ha].
    destruct (Hda a Ha) as (q & Hq & Hid & Hc). exists q. split; [|done].
    cbn. apply elem_of_app. right. apply list_elem_of_filter. split; [|done]. by rewrite Hc.
  - intros c [= <-]. exists aiSelectedChapter. cbn. by rewrite Hbook.
Qed.

(** X19.  The questions a completed generation stores are ones the repair
    of [normalizeUserData] keeps as they are: each text is trimmed before
    it is cut, so it is not blank and has at most 500 code units, and each
    rubric has at most 2000 code units.  This holds of every question of
    the chapter in the new state, whatever the provider returned; and if
    all stored questions and draft answers had that property before, they
    all have it afterwards. *)
Theorem generateAIQuestions_texts_clean (data : App.UserData) (sessionUserId : jsstring)
    (aiSelectedBook : App.Book.t) (aiSelectedChapter : App.ChapterEntry.t)
    (response : jsval) (ts uid_h now_h : jsstring) (prev next : App.UserData) :
  App.generateAIQuestions_try uid_gq data sessionUserId aiSelectedBook aiSelectedChapter
    response ts uid_h now_h prev = Ok next ->
  Forall clean_question
         (filter (fun q => App.AIGeneratedQuestion.chapterId q
                           = App.ChapterEntry.id aiSelectedChapter)
                 (App.generatedQuestions (App.aiCoach next)))
  /\ (texts_clean prev -> texts_clean next).
Proof.
  unfold App.generateAIQuestions_try.
  destruct (get_prop response "questions") as [questions|]; [|discriminate].
  cbn [mbind result_bind]. case_bool_decide; [discriminate|]. intros [= <-].
  set (normalized := App.normalize_loop _ _ _ _ _ _ _ _).
  assert (Hnorm : Forall clean_question normalized)
    by (apply normalize_loop_clean; constructor).
  split.
  - cbn. rewrite filter_app. apply Forall_app. split; [by apply Forall_filter_keep|].
    apply Forall_forall. intros q Hq.
    apply list_elem_of_filter in Hq as [Heq Hq].
    apply list_elem_of_filter in Hq as [Hne _]. contradiction.
  - intros [Hgq Hda]. split; cbn.
    + apply Forall_app. split; [done|]. by apply Forall_filter_keep.
    + by apply Forall_filter_keep.
Qed.

End GenerateKeeps.


(** ** Draft answers *)

Local Abbreviation draft_key :=
  (fun a => (App.AIDraftAnswer.chapterId a, App.AIDraftAnswer.questionId a)).

Lemma is_draft_of_key (chapterId questionId : jsstring) (a : App.AIDraftAnswer.t) :
  App.is_draft_of chapterId questionId a <-> draft_key a = (chapterId, questionId).
Proof. unfold App.is_draft_of. split; [by intros [-> ->]|by intros [= -> ->]]. Qed.

(** The answers the memo [aiAnswerMap] holds, when no two drafts are for
    the same question of the same chapter. *)
Lemma aiAnswerMap_lookup (chapterId : jsstring) (d : App.UserData)
    (questionId answer : jsstring) :
  one_draft_per_question d ->
  App.aiAnswerMap chapterId d !! questionId = Some answer <->
  exists a, a ∈ App.draftAnswers (App.aiCoach d)
            /\ App.is_draft_of chapterId questionId a
            /\ App.AIDraftAnswer.answer a = answer.
Proof.
  unfold one_draft_per_question, App.aiAnswerMap.
  generalize (App.draftAnswers (App.aiCoach d)). clear d.
  induction l as [|x l IH] using rev_ind; intros Hnd.
  - cbn. split; [by rewrite lookup_empty|]. intros (a & Ha & _). by apply elem_of_nil in Ha.
  - rewrite fmap_app in Hnd. apply NoDup_app in Hnd as (Hnd & Hx & _).
    specialize (IH Hnd). rewrite foldl_app. cbn [foldl].
    assert (Hfresh : forall a, a ∈ l -> draft_key a <> draft_key x).
    { intros a Ha Hk. apply (Hx (draft_key a)).
      - apply list_elem_of_fmap. by exists a.
      - rewrite Hk. cbn. left. }
    destruct (decide (App.AIDraftAnswer.chapterId x = chapterId)) as [Hc|Hc].
    + destruct (decide (App.AIDraftAnswer.questionId x = questionId)) as [Hq|Hq].
      * rewrite Hq, lookup_insert_eq. split.
        -- intros [= <-]. exists x. split; [apply elem_of_app; right; left|]. by split.
        -- intros (a & Ha & [Hac Haq] & <-). f_equal.
           apply elem_of_app in Ha as [Ha|Ha].
           ++ exfalso. apply (Hfresh a Ha). cbn. congruence.
           ++ apply list_elem_of_singleton in Ha. by subst.
      * rewrite lookup_insert_ne by done. rewrite IH. split.
        -- intros (a & Ha & Hd & Hans). exists a. split; [apply elem_of_app; by left|done].
        -- intros (a & Ha & [Hac Haq] & Hans). apply elem_of_app in Ha as [Ha|Ha].
           ++ by exists a.
           ++ apply list_elem_of_singleton in Ha. subst. contradiction.
    + rewrite IH. split.
      * intros (a & Ha & Hd & Hans). exists a. split; [apply elem_of_app; by left|done].
      * intros (a & Ha & [Hac Haq] & Hans). apply elem_of_app in Ha as [Ha|Ha].
        -- by exists a.
        -- apply list_elem_of_singleton in Ha. subst. contradiction.
Qed.

(** The drafts after an update: the drafts for other questions are the
    ones there were. *)
Lemma updateAIDraftAnswer_others (chapterId questionId answer nowISO : jsstring)
    (prev : App.UserData) (a : App.AIDraftAnswer.t) :
  ~ App.is_draft_of chapterId questionId a ->
  a ∈ App.draftAnswers
        (App.aiCoach (App.updateAIDraftAnswer chapterId questionId answer nowISO prev))
  <-> a ∈ App.draftAnswers (App.aiCoach prev).
Proof.
  intros Ha. unfold App.updateAIDraftAnswer. cbn [App.draftAnswers App.aiCoach].
  set (drafts := App.draftAnswers (App.aiCoach prev)).
  destruct (list_find _ drafts) as [[index draft]|] eqn:Hfind.
  - apply list_find_Some in Hfind as (Hlook & Hdraft & _).
    pose proof (lookup_lt_Some _ _ _ Hlook) as Hlt.
    rewrite <- (take_drop_middle drafts index draft Hlook) at 3.
    case_bool_decide.
    + rewrite delete_take_drop, !elem_of_app, elem_of_cons.
      split; [tauto|]. intros [?|[->|?]]; tauto.
    + rewrite insert_take_drop by done. rewrite !elem_of_app, !elem_of_cons.
      split; (intros [?|[->|?]]; [tauto| |tauto]); [|contradiction].
      exfalso. apply Ha. exact Hdraft.
  - case_bool_decide; [done|]. rewrite elem_of_cons. split; [|tauto].
    intros [->|?]; [|done]. exfalso. apply Ha. by split.
Qed.

(** The drafts after an update: the draft for the question itself. *)
Lemma updateAIDraftAnswer_own (chapterId questionId answer nowISO : jsstring)
    (prev : App.UserData) (a : App.AIDraftAnswer.t) :
  one_draft_per_question prev ->
  App.is_draft_of chapterId questionId a ->
  a ∈ App.draftAnswers
        (App.aiCoach (App.updateAIDraftAnswer chapterId questionId answer nowISO prev))
  <-> trim (Data.clampStr_string answer 10000) <> []
      /\ a = {| App.AIDraftAnswer.chapterId := chapterId;
                App.AIDraftAnswer.questionId := questionId;
                App.AIDraftAnswer.answer := Data.clampStr_string answer 10000;
                App.AIDraftAnswer.updatedAt := nowISO |}.
Proof.
  intros Hnd Ha. unfold one_draft_per_question in Hnd.
  unfold App.updateAIDraftAnswer. cbn [App.draftAnswers App.aiCoach].
  set (drafts := App.draftAnswers (App.aiCoach prev)) in *.
  destruct (list_find _ drafts) as [[index draft]|] eqn:Hfind.
  - apply list_find_Some in Hfind as (Hlook & Hdraft & _).
    pose proof (lookup_lt_Some _ _ _ Hlook) as Hlt.
    assert (Hrest : a ∉ take index drafts ++ drop (S index) drafts).
    { rewrite <- (take_drop_middle drafts index draft Hlook) in Hnd.
      rewrite fmap_app, fmap_cons in Hnd.
      apply NoDup_app in Hnd as (_ & Hl & Hr). apply NoDup_cons in Hr as [Hr _].
      apply is_draft_of_key in Ha, Hdraft.
      intros Hin. apply elem_of_app in Hin as [Hin|Hin].
      - apply (Hl (draft_key a)); [apply list_elem_of_fmap; by exists a|].
        rewrite Ha, <- Hdraft. left.
      - apply Hr. rewrite Hdraft, <- Ha. apply list_elem_of_fmap. by exists a. }
    destruct Hdraft as [Hdc Hdq]. rewrite Hdc, Hdq.
    case_bool_decide as Hblank.
    + rewrite delete_take_drop. split; [contradiction|]. by intros [? _].
    + rewrite insert_take_drop by done. rewrite elem_of_app, elem_of_cons. split.
      * intros [Hin|[->|Hin]]; [|done|]; exfalso; apply Hrest, elem_of_app; tauto.
      * intros [_ ->]. right. by left.
  - apply list_find_None in Hfind. rewrite Forall_forall in Hfind.
    case_bool_decide as Hblank.
    + split; [|by intros [? _]]. intros Hin. by destruct (Hfind a Hin).
    + rewrite elem_of_cons. split.
      * intros [->|Hin]; [done|]. by destruct (Hfind a Hin).
      * intros [_ ->]. by left.
Qed.

Lemma updateAIDraftAnswer_NoDup (chapterId questionId answer nowISO : jsstring)
    (prev : App.UserData) :
  one_draft_per_question prev ->
  one_draft_per_question (App.updateAIDraftAnswer chapterId questionId answer nowISO prev).
Proof.
  unfold one_draft_per_question, App.updateAIDraftAnswer.
  cbn [App.draftAnswers App.aiCoach].
  set (drafts := App.draftAnswers (App.aiCoach prev)). intros Hnd.
  destruct (list_find _ drafts) as [[index draft]|] eqn:Hfind.
  - apply list_find_Some in Hfind as (Hlook & Hdraft & _). case_bool_decide.
    + rewrite list_fmap_delete. eapply sublist_NoDup; [exact Hnd|apply sublist_delete].
    + rewrite list_fmap_insert, list_insert_id; [done|].
      rewrite list_lookup_fmap, Hlook. reflexivity.
  - case_bool_decide; [done|]. rewrite fmap_cons. apply NoDup_cons. split; [|done].
    apply list_find_None in Hfind. rewrite Forall_forall in Hfind.
    intros Hin. apply list_elem_of_fmap in Hin as (a & Hkey & Ha).
    apply (Hfind a Ha). apply is_draft_of_key. by rewrite <- Hkey.
Qed.

(** X20.  Writing a draft answer and reading it back.  When no two draft
    answers are for the same question of the same chapter, this still
    holds after [updateAIDraftAnswer], and the answer the view then shows
    for the question is the one just written, cut to 10000 code units, or
    none when that text is blank; the answers shown for the other questions
    of the chapter, and for the questions of every other chapter, are the
    ones shown before. *)
Theorem updateAIDraftAnswer_read_back (chapterId questionId answer nowISO : jsstring)
    (prev : App.UserData) :
  one_draft_per_question prev ->
  let next := App.updateAIDraftAnswer chapterId questionId answer nowISO prev in
  one_draft_per_question next
  /\ App.aiAnswerMap chapterId next !! questionId
     = (if bool_decide (trim (Data.clampStr_string answer 10000) = []) then None
        else Some (Data.clampStr_string answer 10000))
  /\ (forall c q, (c, q) <> (chapterId, questionId) ->
        App.aiAnswerMap c next !! q = App.aiAnswerMap c prev !! q).
Proof.
  intros Hnd next.
  pose proof (updateAIDraftAnswer_NoDup chapterId questionId answer nowISO prev Hnd) as Hnd'.
  fold next in Hnd'. split; [exact Hnd'|]. split.
  - case_bool_decide as Hblank.
    + apply eq_None_not_Some. intros [ans Hans].
      apply aiAnswerMap_lookup in Hans as (a & Hin & Ha & _); [|done].
      apply updateAIDraftAnswer_own in Hin as [Hne _]; done.
    + apply aiAnswerMap_lookup; [done|].
      exists {| App.AIDraftAnswer.chapterId := chapterId;
                App.AIDraftAnswer.questionId := questionId;
                App.AIDraftAnswer.answer := Data.clampStr_string answer 10000;
                App.AIDraftAnswer.updatedAt := nowISO |}.
      split; [|split; [by split|reflexivity]].
      apply updateAIDraftAnswer_own; [done|by split|done].
  - intros c q Hne. apply option_eq. intros ans.
    rewrite !aiAnswerMap_lookup by done.
    assert (Hother : forall a, App.is_draft_of c q a ->
                               ~ App.is_draft_of chapterId questionId a).
    { intros a [Hc Hq] [Hc' Hq']. apply Hne. congruence. }
    split; intros (a & Hin & Ha & Hans); exists a; (split; [|done]).
    + eapply updateAIDraftAnswer_others; [by apply Hother|exact Hin].
    + apply updateAIDraftAnswer_others; [by apply Hother|exact Hin].
Qed.

(** X21.  The draft answers [updateAIDraftAnswer] stores are ones the
    repair of [normalizeUserData] keeps as they are (a text that is not
    blank, of at most 10000 code units), and the update keeps the state
    consistent when the question answered is a generated question of the
    selected chapter. *)
Theorem updateAIDraftAnswer_keeps (chapterId questionId answer nowISO : jsstring)
    (prev : App.UserData) :
  (exists q, q ∈ App.generatedQuestions (App.aiCoach prev)
             /\ App.AIGeneratedQuestion.id q = questionId
             /\ App.AIGeneratedQuestion.chapterId q = chapterId) ->
  let next := App.updateAIDraftAnswer chapterId questionId answer nowISO prev in
  (consistent prev -> consistent next)
  /\ (texts_clean prev -> texts_clean next).
Proof.
  intros (q & Hq & Hid & Hc) next.
  assert (Hcases : forall a, a ∈ App.draftAnswers (App.aiCoach next) ->
            a ∈ App.draftAnswers (App.aiCoach prev)
            \/ App.is_draft_of chapterId questionId a
               /\ App.AIDraftAnswer.answer a = Data.clampStr_string answer 10000
               /\ trim (Data.clampStr_string answer 10000) <> []).
  { intros a Ha. destruct (decide (App.is_draft_of chapterId questionId a)) as [Hd|Hd].
    - subst next. unfold App.updateAIDraftAnswer in Ha. cbn [App.draftAnswers App.aiCoach] in Ha.
      set (drafts := App.draftAnswers (App.aiCoach prev)) in *.
      destruct (list_find _ drafts) as [[index draft]|] eqn:Hfind.
      + apply list_find_Some in Hfind as (Hlook & _ & _).
        pose proof (lookup_lt_Some _ _ _ Hlook) as Hlt.
        case_bool_decide as Hblank.
        * left. eapply elem_of_sublist; [exact Ha|apply sublist_delete].
        * rewrite insert_take_drop in Ha by done.
          rewrite elem_of_app, elem_of_cons in Ha.
          destruct Ha as [Ha|[->|Ha]]; [left|by right|left].
          -- apply elem_of_take in Ha as (i & Ha & _). by eapply list_elem_of_lookup_2.
          -- eapply elem_of_sublist; [exact Ha|apply sublist_drop].
      + case_bool_decide as Hblank; [by left|].
        apply elem_of_cons in Ha as [->|Ha]; [by right|by left].
    - left. by eapply updateAIDraftAnswer_others. }
  split.
  - intros (Hch & Hqa & Hgq & Hda & Hfe). repeat split; try assumption.
    rewrite Forall_forall in Hda. apply Forall_forall. intros a Ha.
    destruct (Hcases a Ha) as [Hprev|([Hac Haq] & _)]; [by apply Hda|].
    exists q. split; [exact Hq|]. split; congruence.
  - intros [Hgq Hda]. split; [exact Hgq|].
    rewrite Forall_forall in Hda. apply Forall_forall. intros a Ha.
    destruct (Hcases a Ha) as [Hprev|(_ & Hans & Hne)]; [by apply Hda|].
    unfold clean_draft. rewrite Hans. split.
    + cbn [Data.is_nonblank_string]. by apply negb_true_iff, bool_decide_eq_false.
    + apply clampStr_string_idem.
Qed.

(** ** The configuration of the AI coach *)

Lemma difficulty_of_string_valid (value : jsstring) :
  Data.isAIDifficulty (JStr value) = false -> App.difficulty_of_string value = None.
Proof.
  unfold Data.isAIDifficulty, App.difficulty_of_string, strict_eq, jsstring_eqb, Data.str.
  rewrite !orb_false_iff. intros [[[H1 H2] H3] H4].
  apply bool_decide_eq_false in H1, H2, H3, H4.
  cbn [List.find App.difficulty_string].
  repeat (case_bool_decide; [congruence|]). reflexivity.
Qed.

Lemma style_of_string_valid (value : jsstring) :
  Data.isAIQuestionStyle (JStr value) = false -> App.style_of_string value = None.
Proof.
  unfold Data.isAIQuestionStyle, App.style_of_string, strict_eq, jsstring_eqb, Data.str.
  rewrite !orb_false_iff. intros [[H1 H2] H3].
  apply bool_decide_eq_false in H1, H2, H3.
  cbn [List.find App.style_string].
  repeat (case_bool_decide; [congruence|]). reflexivity.
Qed.

(** X23.  Changing the configuration of the AI coach never leaves it
    invalid.  If the stored count is from 1 to 15, the update completes
    and the new count is from 1 to 15: a finite number is rounded and
    clamped, and NaN, an infinity or an absent field leave the count as it
    is.  A difficulty or a style is taken when it is a member of its
    enumeration and ignored otherwise.  Nothing but the configuration
    changes. *)
Theorem updateAIConfig_valid (patch : App.AICoachConfigPatch.t) (prev : App.UserData) :
  1 <= App.AICoachConfig.count (App.lastConfig (App.aiCoach prev)) <= 15 ->
  exists next,
    App.updateAIConfig patch prev = Ok next
    /\ 1 <= App.AICoachConfig.count (App.lastConfig (App.aiCoach next)) <= 15
    /\ App.AICoachConfig.count (App.lastConfig (App.aiCoach next))
       = match App.AICoachConfigPatch.count patch with
         | Some (Fin q) => Z.min 15 (Z.max 1 (Math_round q))
         | _ => App.AICoachConfig.count (App.lastConfig (App.aiCoach prev))
         end
    /\ App.AICoachConfig.difficulty (App.lastConfig (App.aiCoach next))
       = default (App.AICoachConfig.difficulty (App.lastConfig (App.aiCoach prev)))
                 (App.AICoachConfigPatch.difficulty patch ≫= App.difficulty_of_string)
    /\ App.AICoachConfig.style (App.lastConfig (App.aiCoach next))
       = default (App.AICoachConfig.style (App.lastConfig (App.aiCoach prev)))
                 (App.AICoachConfigPatch.style patch ≫= App.style_of_string)
    /\ App.books next = App.books prev /\ App.chapters next = App.chapters prev
    /\ App.qas next = App.qas prev /\ App.history next = App.history prev
    /\ App.selectedBookId (App.aiCoach next) = App.selectedBookId (App.aiCoach prev)
    /\ App.selectedChapterId (App.aiCoach next) = App.selectedChapterId (App.aiCoach prev)
    /\ App.generatedQuestions (App.aiCoach next) = App.generatedQuestions (App.aiCoach prev)
    /\ App.draftAnswers (App.aiCoach next) = App.draftAnswers (App.aiCoach prev)
    /\ App.feedbackHistory (App.aiCoach next) = App.feedbackHistory (App.aiCoach prev).
Proof.
  intros Hcount. unfold App.updateAIConfig.
  set (config := App.lastConfig (App.aiCoach prev)) in *.
  assert (Hc : exists count,
             match App.AICoachConfigPatch.count patch with
             | Some n => Data.clampInt (JNum n) 1 15 (App.AICoachConfig.count config)
             | None => Ok (App.AICoachConfig.count config)
             end = Ok count
             /\ 1 <= count <= 15
             /\ count = match App.AICoachConfigPatch.count patch with
                        | Some (Fin q) => Z.min 15 (Z.max 1 (Math_round q))
                        | _ => App.AICoachConfig.count config
                        end).
  { destruct (App.AICoachConfigPatch.count patch) as [[| |q]|]; cbn;
      eexists; (split; [reflexivity|]); split; (reflexivity || lia). }
  destruct Hc as (count & -> & Hrange & Heq). cbn [mbind result_bind].
  eexists. split; [reflexivity|].
  cbn -[App.difficulty_of_string App.style_of_string Data.isAIDifficulty
        Data.isAIQuestionStyle].
  split; [exact Hrange|]. split; [exact Heq|]. split; [|split; [|repeat split]].
  - destruct (App.AICoachConfigPatch.difficulty patch) as [value|]; [|done].
    cbn -[App.difficulty_of_string Data.isAIDifficulty].
    destruct (Data.isAIDifficulty (JStr value)) eqn:Hv; [done|].
    by rewrite difficulty_of_string_valid.
  - destruct (App.AICoachConfigPatch.style patch) as [value|]; [|done].
    cbn -[App.style_of_string Data.isAIQuestionStyle].
    destruct (Data.isAIQuestionStyle (JStr value)) eqn:Hv; [done|].
    by rewrite style_of_string_valid.
Qed.

(** ** Deleting a question *)

Lemma filter_length_eq {A} (P : A -> Prop) `{!forall x, Decision (P x)} (l : list A) :
  length (filter P l) = length l -> Forall P l.
Proof.
  induction l as [|x l IH]; [constructor|]. rewrite filter_cons.
  destruct (decide (P x)) as [Hx|Hx]; cbn.
  - intros [= Hlen]. constructor; auto.
  - intros Hlen. pose proof (length_filter P l). lia.
Qed.

(** X24.  The delete-question updater removes the question-and-answer
    with the given id and no other; chapters, history and AI data are as
    they were, and the books are the same books, the one in view with a
    new [updatedAt].  When no question-and-answer has that id the state is
    returned as it is, the book's [updatedAt] included.  A consistent
    state stays consistent. *)
Theorem deleteQA_removes (qaId view_bookId ts : jsstring) (d : App.UserData) :
  let d' := App.deleteQA qaId view_bookId ts d in
  (forall qa, qa ∈ App.qas d' <-> qa ∈ App.qas d /\ App.QA.id qa <> qaId)
  /\ (Forall (fun qa => App.QA.id qa <> qaId) (App.qas d) -> d' = d)
  /\ App.Book.id <$> App.books d' = App.Book.id <$> App.books d
  /\ App.chapters d' = App.chapters d /\ App.history d' = App.history d
  /\ App.aiCoach d' = App.aiCoach d
  /\ (consistent d -> consistent d').
Proof.
  intros d'. subst d'. unfold App.deleteQA.
  destruct (decide (length (filter _ (App.qas d)) = length (App.qas d))) as [Hlen|Hlen].
  - apply filter_length_eq in Hlen. rewrite Forall_forall in Hlen.
    split; [|do 5 (split; [done|]); by intros]. intros qa. split; [|tauto].
    intros Hqa. split; [exact Hqa|by apply Hlen].
  - cbn. split; [intros qa; rewrite list_elem_of_filter; tauto|].
    split; [intros Hall; exfalso; apply Hlen; by rewrite filter_all|].
    assert (Hids : App.Book.id <$> (App.touch_book view_bookId ts <$> App.books d)
                   = App.Book.id <$> App.books d).
    { rewrite <- list_fmap_compose. apply list_fmap_ext. intros i b _. cbn.
      unfold App.touch_book. by destruct (decide _). }
    split; [exact Hids|]. do 3 (split; [reflexivity|]).
    intros (Hch & Hqa & Hgq & Hda & Hfe). repeat split; cbn; try assumption.
    + eapply Forall_impl; [exact Hch|]. intros ch (b & Hb & Hid).
      exists (App.touch_book view_bookId ts b). split.
      * apply list_elem_of_fmap. by exists b.
      * rewrite <- Hid. unfold App.touch_book. by destruct (decide _).
    + by apply Forall_filter_keep.
Qed.

(** ** The ids of the generated questions *)

Section GenerateIds.

Variable uid_gq : nat -> jsstring.

(** The id the provider gave a question, trimmed. *)
Local Abbreviation candidate :=
  (fun item => match get item "id" with
               | JStr s => trim s
               | _ => []
               end).

Lemma normalize_loop_unique (chapterId ts : jsstring) (config : App.AICoachConfig.t)
    (given : list jsstring) (rawQuestions : list jsval) :
  Inj (=) (=) uid_gq ->
  (forall j, uid_gq j ∉ given) ->
  Forall (fun item => candidate item ∈ given \/ candidate item = []) rawQuestions ->
  forall (k : nat) (seenIds : gset jsstring) (normalized : list App.AIGeneratedQuestion.t),
    NoDup (App.AIGeneratedQuestion.id <$> normalized) ->
    (forall id, id ∈ App.AIGeneratedQuestion.id <$> normalized -> id ∈ seenIds) ->
    (forall id, id ∈ seenIds -> id ∈ given \/ exists j, (j < k)%nat /\ id = uid_gq j) ->
    NoDup (App.AIGeneratedQuestion.id
             <$> App.normalize_loop uid_gq chapterId ts config rawQuestions k seenIds
                   normalized).
Proof.
  intros Hinj Hfresh Hraw. induction Hraw as [|item rest Hitem _ IH];
    intros k seenIds normalized Hnd Hsub Hseen; [exact Hnd|].
  cbn [App.normalize_loop]. case_bool_decide as Htext; [by apply IH|].
  assert (Hnew : forall j, (k <= j)%nat -> uid_gq j ∉ seenIds).
  { intros j Hj Hin. destruct (Hseen _ Hin) as [Hg|(i & Hi & Heq)].
    - by apply (Hfresh j).
    - apply Hinj in Heq. lia. }
  assert (Hstep : forall id k',
            id ∉ seenIds ->
            (id ∈ given \/ exists j, (j < k')%nat /\ id = uid_gq j) ->
            (k <= k')%nat ->
            forall q, App.AIGeneratedQuestion.id q = id ->
            NoDup (App.AIGeneratedQuestion.id
                     <$> App.normalize_loop uid_gq chapterId ts config rest k'
                           ({[id]} ∪ seenIds) (normalized ++ [q]))).
  { intros id k' Hid Horigin Hk q Hq. apply IH.
    - rewrite fmap_app. apply NoDup_app. split; [exact Hnd|]. split.
      + intros x Hx Hx'. cbn in Hx'. apply list_elem_of_singleton in Hx'.
        apply Hid. rewrite <- Hq, <- Hx'. by apply Hsub.
      + cbn. apply NoDup_singleton.
    - intros x Hx. rewrite fmap_app in Hx. apply elem_of_app in Hx as [Hx|Hx].
      + apply elem_of_union. right. by apply Hsub.
      + cbn in Hx. apply list_elem_of_singleton in Hx. apply elem_of_union. left.
        apply elem_of_singleton. congruence.
    - intros x Hx. apply elem_of_union in Hx as [Hx|Hx].
      + apply elem_of_singleton in Hx. by subst.
      + destruct (Hseen x Hx) as [Hg|(j & Hj & Heq)]; [by left|].
        right. exists j. split; [lia|done]. }
  case_bool_decide as Hcand.
  - (* no id given: a fresh one *)
    case_bool_decide as Hdup.
    + exfalso. by apply (Hnew k).
    + apply Hstep; [exact Hdup| |lia|reflexivity]. right. exists k. split; [lia|done].
  - case_bool_decide as Hdup.
    + apply Hstep; [by apply Hnew| |lia|reflexivity]. right. exists k. split; [lia|done].
    + apply Hstep; [exact Hdup| |lia|reflexivity]. left.
      destruct Hitem as [Hg|He]; [exact Hg|contradiction].
Qed.

(** X26.  The questions a generation stores for a chapter have distinct
    ids, provided [uid] never returns the same id twice and never returns
    an id the provider gave: an id the provider repeats, or leaves out, is
    replaced by a fresh one. *)
Theorem normalize_loop_unique_ids (chapterId ts : jsstring) (config : App.AICoachConfig.t)
    (rawQuestions : list jsval) :
  Inj (=) (=) uid_gq ->
  (forall j item, item ∈ rawQuestions -> uid_gq j <> candidate item) ->
  NoDup (App.AIGeneratedQuestion.id
           <$> App.normalize_loop uid_gq chapterId ts config rawQuestions O ∅ []).
Proof.
  intros Hinj Hfresh.
  apply (normalize_loop_unique chapterId ts config (candidate <$> rawQuestions)).
  - exact Hinj.
  - intros j Hin. apply list_elem_of_fmap in Hin as (item & Heq & Hitem).
    by apply (Hfresh j item).
  - apply Forall_forall. intros item Hitem. left. apply list_elem_of_fmap. by exists item.
  - constructor.
  - intros id Hid. by apply elem_of_nil in Hid.
  - intros id Hid. by apply elem_of_empty in Hid.
Qed.

End GenerateIds.
(** * Grading on the client: the average and the feedback history *)

(** ** Rounding to a double *)









(** ** The average score *)



(** ** The results the client keeps *)




(** X25.  A completed grading keeps the state consistent, provided the
    chapter graded is still a chapter of the state the update is applied
    to and belongs to the selected book: every reference of the new state
    resolves, the new feedback entry's included. *)
Theorem gradeAIAnswers_keeps_consistent (data : App.UserData) (sessionUserId : jsstring)
    (aiSelectedBook : App.Book.t) (aiSelectedChapter : App.ChapterEntry.t)
    (aiQuestionsForSelectedChapter : list App.AIGeneratedQuestion.t)
    (answers : gmap jsstring jsstring)
    (response : jsval) (uid_aif now_entry uid_h now_h : jsstring)
    (prev next : App.UserData) :
  App.gradeAIAnswers_try data sessionUserId aiSelectedBook aiSelectedChapter
    aiQuestionsForSelectedChapter answers response uid_aif now_entry uid_h now_h prev
  = Ok next ->
  aiSelectedChapter ∈ App.chapters prev ->
  App.ChapterEntry.bookId aiSelectedChapter = App.Book.id aiSelectedBook ->
  consistent prev ->
  consistent next.
Proof.
  unfold App.gradeAIAnswers_try.
  destruct (get_prop response "results") as [results|]; [|discriminate].
  cbn [mbind result_bind].
  destruct (App.normalizeResults_loop _ _ _) as [normalizedResults|]; [|discriminate].
  cbn [mbind result_bind]. case_bool_decide; [discriminate|]. intros [= <-].
  intros Hin Hbook (Hch & Hqa & Hgq & Hda & Hfe).
  repeat split; try assumption.
  unfold App.pushHistory, App.gradeAIAnswers_update.
  cbn [App.feedbackHistory App.aiCoach App.chapters]. rewrite slice_0.
  apply Forall_take. constructor; [|exact Hfe].
  exists aiSelectedChapter. by repeat split.
Qed.
(** * The theorems at work on sample data *)

Lemma normalizeGrades_matching_rows_witness :
  Forall (fun row => to_string_throws (get row "score") = false)
         (Data.array_or_empty (get Samples.wild_scores "results"))
  /\ exists out,
       Server.normalizeGrades Samples.wild_scores Samples.one_answer = Ok out
       /\ Server.questionId <$> out
          = filter (fun id => id <> [] /\ id ∈ Server.answer_questionId <$> Samples.one_answer)
                   ((fun row => Server.clampText (get row "questionId") 120)
                      <$> Data.array_or_empty (get Samples.wild_scores "results")).
Proof.
  assert (H : Forall (fun row => to_string_throws (get row "score") = false)
                     (Data.array_or_empty (get Samples.wild_scores "results")))
    by (vm_compute; repeat constructor).
  split; [exact H|].
  exact (normalizeGrades_matching_rows Samples.wild_scores Samples.one_answer H).
Defined.

Lemma parseModelJson_fenced_block_witness :
  Server.parseModelJson JSON.parse (JStr Samples.fenced_text)
  = Ok (Data.obj [("a", JArr [of_int 1])]).
Proof.
  apply (parseModelJson_fenced_block JSON.parse (lit "Sure! ") (lit "json") [10%N]
           (Samples.quoted "{'a': [1]}" ++ [10%N]) (lit " Hope it helps.")
           (Data.obj [("a", JArr [of_int 1])])).
  - vm_compute. reflexivity.
  - apply Nat.leb_le. vm_compute. reflexivity.
  - refine (bool_decide_unpack _ _). vm_compute. exact I.
  - refine (bool_decide_unpack _ _). vm_compute. exact I.
  - left. vm_compute. reflexivity.
  - repeat constructor.
  - vm_compute. reflexivity.
  - vm_compute. reflexivity.
  - vm_compute. reflexivity.
Defined.

Lemma parseModelJson_braces_witness :
  Server.parseModelJson JSON.parse (JStr Samples.prose_text)
  = Ok (Data.obj [("a", JArr [of_int 1])]).
Proof.
  apply (parseModelJson_braces JSON.parse (lit "Answer: ") (Samples.quoted "'a': [1]")
           (lit " bye") (Data.obj [("a", JArr [of_int 1])])).
  - vm_compute. reflexivity.
  - apply Nat.leb_le. vm_compute. reflexivity.
  - refine (bool_decide_unpack _ _). vm_compute. exact I.
  - refine (bool_decide_unpack _ _). vm_compute. exact I.
  - refine (bool_decide_unpack _ _). vm_compute. exact I.
  - vm_compute. reflexivity.
  - vm_compute. reflexivity.
Defined.

Lemma parseGenerateRequest_valid_witness :
  Server.parseGenerateRequest Samples.toLowerCase Samples.String_of Samples.URL_protocol
    Samples.base_url (lit "tinyllama:latest") (lit "gpt-4o-mini")
    (lit "claude-3-5-sonnet-latest") Samples.generate_body
  = Ok Samples.generate_input
  /\ valid_generate_input Samples.URL_protocol Samples.generate_input.
Proof.
  split; [vm_compute; reflexivity|].
  apply (parseGenerateRequest_valid Samples.toLowerCase Samples.String_of
           Samples.URL_protocol Samples.base_url (lit "tinyllama:latest")
           (lit "gpt-4o-mini") (lit "claude-3-5-sonnet-latest") Samples.generate_body).
  vm_compute. reflexivity.
Defined.

Lemma parseGradeRequest_valid_witness :
  Server.parseGradeRequest Samples.toLowerCase Samples.String_of Samples.URL_protocol
    Samples.base_url (lit "tinyllama:latest") (lit "gpt-4o-mini")
    (lit "claude-3-5-sonnet-latest") Samples.grade_body
  = Ok Samples.grade_input
  /\ valid_grade_input Samples.URL_protocol Samples.grade_input
  /\ Server.GradeInput.answers Samples.grade_input
     = Server.answers_of (Data.array_or_empty (get Samples.grade_body "answers")).
Proof.
  split; [vm_compute; reflexivity|].
  apply (parseGradeRequest_valid Samples.toLowerCase Samples.String_of
           Samples.URL_protocol Samples.base_url (lit "tinyllama:latest")
           (lit "gpt-4o-mini") (lit "claude-3-5-sonnet-latest") Samples.grade_body).
  vm_compute. reflexivity.
Defined.

Lemma generate_questions_response_witness :
  let questions :=
    [{| Server.id := lit "a"; Server.question := lit "Why did he leave?";
        Server.rubric := [] |};
     {| Server.id := lit "q2"; Server.question := lit "Where did he go?";
        Server.rubric := lit "names the city" |}] in
  Server.generate_questions Samples.toLowerCase Samples.String_of Samples.URL_protocol
    Samples.base_url (lit "tinyllama:latest") (lit "gpt-4o-mini")
    (lit "claude-3-5-sonnet-latest") None None
    Samples.generate_body JUndefined (Ok Samples.three_rows)
  = Ok questions
  /\ (1 <= length questions <= 15)%nat
  /\ Forall served_question questions
  /\ exists input,
       Server.parseGenerateRequest Samples.toLowerCase Samples.String_of
         Samples.URL_protocol Samples.base_url (lit "tinyllama:latest") (lit "gpt-4o-mini")
         (lit "claude-3-5-sonnet-latest") Samples.generate_body = Ok input
       /\ Z.of_nat (length questions) <= Server.GenerateInput.count input.
Proof.
  intros questions. split; [vm_compute; reflexivity|].
  apply (generate_questions_response Samples.toLowerCase Samples.String_of
           Samples.URL_protocol Samples.base_url (lit "tinyllama:latest")
           (lit "gpt-4o-mini") (lit "claude-3-5-sonnet-latest") None None
           Samples.generate_body JUndefined (Ok Samples.three_rows)).
  vm_compute. reflexivity.
Defined.

Lemma grade_response_witness :
  let results :=
    [{| Server.questionId := lit "q1"; Server.score := 100;
        Server.feedback := lit "Good"; Server.idealAnswer := [] |};
     {| Server.questionId := lit "q1"; Server.score := 0;
        Server.feedback := []; Server.idealAnswer := [] |}] in
  Server.grade Samples.toLowerCase Samples.String_of Samples.URL_protocol
    Samples.base_url (lit "tinyllama:latest") (lit "gpt-4o-mini")
    (lit "claude-3-5-sonnet-latest") None None
    Samples.grade_body JUndefined (Ok Samples.wild_scores)
  = Ok results
  /\ results <> []
  /\ exists input,
       Server.parseGradeRequest Samples.toLowerCase Samples.String_of
         Samples.URL_protocol Samples.base_url (lit "tinyllama:latest") (lit "gpt-4o-mini")
         (lit "claude-3-5-sonnet-latest") Samples.grade_body = Ok input
       /\ Forall (served_grade (Server.GradeInput.answers input)) results.
Proof.
  intros results. split; [vm_compute; reflexivity|].
  apply (grade_response Samples.toLowerCase Samples.String_of
           Samples.URL_protocol Samples.base_url (lit "tinyllama:latest")
           (lit "gpt-4o-mini") (lit "claude-3-5-sonnet-latest") None None
           Samples.grade_body JUndefined (Ok Samples.wild_scores)).
  vm_compute. reflexivity.
Defined.

(** The sample state is consistent, its selection is valid, its texts are
    clean and it has one draft answer for a question. *)
Lemma sample_consistent : consistent AppSamples.state.
Proof.
  unfold consistent. cbn. repeat split; repeat constructor.
  - exists AppSamples.book1. split; [repeat constructor|reflexivity].
  - exists AppSamples.book1. split; [repeat constructor|reflexivity].
  - exists (AppSamples.chapter "ch1"). split; [repeat constructor|reflexivity].
  - exists (AppSamples.chapter "ch2"). split; [repeat constructor|reflexivity].
  - exists (AppSamples.stored_question "g1" "ch1"). split; [repeat constructor|by split].
  - exists (AppSamples.stored_question "g2" "ch2"). split; [repeat constructor|by split].
Qed.

Lemma sample_selection_valid : selection_valid AppSamples.state.
Proof.
  intros c [= <-]. exists (AppSamples.chapter "ch1").
  split; [repeat constructor|by split].
Qed.

Lemma sample_texts_clean : texts_clean AppSamples.state.
Proof. split; repeat constructor. Qed.

Lemma sample_one_draft : one_draft_per_question AppSamples.state.
Proof.
  unfold one_draft_per_question. refine (bool_decide_unpack _ _). vm_compute. exact I.
Qed.

Lemma sample_sorted (l : list App.ChapterEntry.t) : AppSamples.sorted l ≡ₚ l.
Proof. reflexivity. Qed.

Lemma sample_uid_inj : Inj (=) (=) AppSamples.uid_gq.
Proof. intros j k H. by apply app_inv_head, decimal_inj in H. Qed.

Lemma normalizeQuestions_unique_ids_witness :
  NoDup (Server.id <$> Server.normalizeQuestions Samples.three_rows 6).
Proof.
  apply (normalizeQuestions_unique_ids Samples.three_rows 6).
  cbn. repeat constructor.
  - intros [k Hk]. vm_compute in Hk. discriminate Hk.
  - intros [k Hk]. vm_compute in Hk. discriminate Hk.
  - intros [k Hk]. destruct (decimal k); discriminate Hk.
Defined.

Lemma normalizeUserData_rerun_witness :
  Data.normalizeUserData Samples.clock Samples.test_blob = Ok Samples.test_out
  /\ Data.normalizeUserData (lit "2025-07-01T08:00:00.000Z") Samples.test_out
     = Ok Samples.test_out.
Proof.
  split; [vm_compute; reflexivity|].
  apply (normalizeUserData_rerun Samples.clock (lit "2025-07-01T08:00:00.000Z")
           Samples.test_blob Samples.test_out).
  - vm_compute. reflexivity.
  - vm_compute. repeat constructor.
  - vm_compute. repeat constructor.
Defined.

Lemma normalizeUserData_returns_witness :
  tame Samples.test_blob = true
  /\ exists out, Data.normalizeUserData Samples.clock Samples.test_blob = Ok out.
Proof.
  split; [vm_compute; reflexivity|].
  apply (normalizeUserData_returns Samples.clock Samples.test_blob).
  - vm_compute. reflexivity.
  - cbn. repeat constructor.
  - cbn. repeat constructor.
  - cbn. repeat constructor.
Defined.

Lemma normalizeUserData_numbers_witness :
  Data.normalizeUserData Samples.clock Samples.test_blob = Ok Samples.test_out
  /\ valid_config (get (get Samples.test_out "aiCoach") "lastConfig")
  /\ (length (feedbackHistory_of Samples.test_out) <= 500)%nat
  /\ Forall valid_feedback_entry (feedbackHistory_of Samples.test_out).
Proof.
  split; [vm_compute; reflexivity|].
  apply (normalizeUserData_numbers Samples.clock Samples.test_blob Samples.test_out).
  vm_compute. reflexivity.
Defined.

Lemma normalizeUserData_texts_witness :
  Data.normalizeUserData Samples.clock Samples.test_blob = Ok Samples.test_out
  /\ Forall valid_generated_question (generatedQuestions_of Samples.test_out)
  /\ Forall valid_draft_answer (draftAnswers_of Samples.test_out).
Proof.
  split; [vm_compute; reflexivity|].
  apply (normalizeUserData_texts Samples.clock Samples.test_blob Samples.test_out).
  vm_compute. reflexivity.
Defined.

Lemma normalizeUserData_of_nothing_witness :
  Data.normalizeUserData Samples.clock JNull = Ok Data.createEmptyUserData
  /\ Data.normalizeUserData Samples.clock Data.createEmptyUserData
     = Ok Data.createEmptyUserData.
Proof.
  apply (normalizeUserData_of_nothing Samples.clock JNull). intros key value props H.
  discriminate H.
Defined.

Lemma deleteBook_keeps_consistent_witness :
  consistent AppSamples.state /\ selection_valid AppSamples.state
  /\ consistent (App.deleteBook (lit "b1") AppSamples.state)
  /\ selection_valid (App.deleteBook (lit "b1") AppSamples.state).
Proof.
  split; [exact sample_consistent|]. split; [exact sample_selection_valid|].
  exact (deleteBook_keeps_consistent (lit "b1") AppSamples.state
           sample_consistent sample_selection_valid).
Defined.

Lemma deleteChapter_cascades_witness :
  let d' := App.deleteChapter AppSamples.sorted (lit "ch1") AppSamples.state in
  (forall l, AppSamples.sorted l ≡ₚ l)
  /\ (forall x, x ∈ App.chapters d' <->
                x ∈ App.chapters AppSamples.state /\ App.ChapterEntry.id x <> lit "ch1")
  /\ App.selectedChapterId (App.aiCoach d') = Some (lit "ch2").
Proof.
  intros d'. split; [exact sample_sorted|].
  destruct (deleteChapter_cascades AppSamples.sorted sample_sorted (lit "ch1") AppSamples.state)
    as (Hchapters & _).
  split; [exact Hchapters|]. vm_compute. reflexivity.
Defined.



Lemma generateAIQuestions_keeps_consistent_witness :
  App.generateAIQuestions_try AppSamples.uid_gq AppSamples.state (lit "u1") AppSamples.book1
    (AppSamples.chapter "ch1") AppSamples.response (lit "2025-06-01T12:00:00.000Z")
    (lit "h_1") (lit "2025-06-01T12:00:01.000Z") AppSamples.state
  = Ok AppSamples.state_after
  /\ consistent AppSamples.state_after /\ selection_valid AppSamples.state_after.
Proof.
  split; [vm_compute; reflexivity|].
  apply (generateAIQuestions_keeps_consistent AppSamples.uid_gq AppSamples.state (lit "u1")
           AppSamples.book1 (AppSamples.chapter "ch1") AppSamples.response
           (lit "2025-06-01T12:00:00.000Z") (lit "h_1") (lit "2025-06-01T12:00:01.000Z")
           AppSamples.state AppSamples.state_after).
  - vm_compute. reflexivity.
  - repeat constructor.
  - reflexivity.
  - exact sample_consistent.
Defined.

Lemma generateAIQuestions_texts_clean_witness :
  App.generateAIQuestions_try AppSamples.uid_gq AppSamples.state (lit "u1") AppSamples.book1
    (AppSamples.chapter "ch1") AppSamples.response (lit "2025-06-01T12:00:00.000Z")
    (lit "h_1") (lit "2025-06-01T12:00:01.000Z") AppSamples.state
  = Ok AppSamples.state_after
  /\ Forall clean_question
       (filter (fun q => App.AIGeneratedQuestion.chapterId q = lit "ch1")
               (App.generatedQuestions (App.aiCoach AppSamples.state_after)))
  /\ (texts_clean AppSamples.state -> texts_clean AppSamples.state_after).
Proof.
  split; [vm_compute; reflexivity|].
  apply (generateAIQuestions_texts_clean AppSamples.uid_gq AppSamples.state (lit "u1")
           AppSamples.book1 (AppSamples.chapter "ch1") AppSamples.response
           (lit "2025-06-01T12:00:00.000Z") (lit "h_1") (lit "2025-06-01T12:00:01.000Z")
           AppSamples.state AppSamples.state_after).
  vm_compute. reflexivity.
Defined.

Lemma normalize_loop_unique_ids_witness :
  NoDup (App.AIGeneratedQuestion.id
           <$> App.normalize_loop AppSamples.uid_gq (lit "ch1") AppSamples.t0
                 (App.lastConfig (App.aiCoach AppSamples.state))
                 (Data.array_or_empty (get AppSamples.response "questions")) O ∅ []).
Proof.
  apply (normalize_loop_unique_ids AppSamples.uid_gq (lit "ch1") AppSamples.t0
           (App.lastConfig (App.aiCoach AppSamples.state))
           (Data.array_or_empty (get AppSamples.response "questions")) sample_uid_inj).
  intros j item Hitem Heq.
  assert (Hq : match get item "id" with JStr s => trim s | _ => [] end = lit "q1"
               \/ match get item "id" with JStr s => trim s | _ => [] end = lit "q3").
  { cbn in Hitem. repeat (apply elem_of_cons in Hitem as [->|Hitem]);
      [left|left|right|]; try (vm_compute; reflexivity). by apply elem_of_nil in Hitem. }
  destruct Hq as [Hq|Hq]; rewrite Hq in Heq; discriminate Heq.
Defined.

Lemma updateAIDraftAnswer_read_back_witness :
  let next := App.updateAIDraftAnswer (lit "ch1") (lit "g1") (lit "He left.") AppSamples.t0
                AppSamples.state in
  one_draft_per_question AppSamples.state
  /\ one_draft_per_question next
  /\ App.aiAnswerMap (lit "ch1") next !! lit "g1" = Some (lit "He left.").
Proof.
  intros next. split; [exact sample_one_draft|].
  destruct (updateAIDraftAnswer_read_back (lit "ch1") (lit "g1") (lit "He left.")
              AppSamples.t0 AppSamples.state sample_one_draft) as (Hone & Hread & _).
  split; [exact Hone|]. exact Hread.
Defined.

Lemma updateAIDraftAnswer_keeps_witness :
  let next := App.updateAIDraftAnswer (lit "ch1") (lit "g1") (lit "He left.") AppSamples.t0
                AppSamples.state in
  (consistent AppSamples.state -> consistent next)
  /\ (texts_clean AppSamples.state -> texts_clean next).
Proof.
  apply (updateAIDraftAnswer_keeps (lit "ch1") (lit "g1") (lit "He left.") AppSamples.t0
           AppSamples.state).
  exists (AppSamples.stored_question "g1" "ch1"). split; [repeat constructor|by split].
Defined.

Lemma updateAIConfig_valid_witness :
  exists next,
    App.updateAIConfig AppSamples.patch AppSamples.state = Ok next
    /\ App.AICoachConfig.count (App.lastConfig (App.aiCoach next)) = 15
    /\ App.AICoachConfig.difficulty (App.lastConfig (App.aiCoach next)) = App.hard
    /\ App.AICoachConfig.style (App.lastConfig (App.aiCoach next)) = App.comprehension.
Proof.
  destruct (updateAIConfig_valid AppSamples.patch AppSamples.state)
    as (next & Hok & _ & Hcount & Hdifficulty & Hstyle & _).
  - cbn. lia.
  - exists next. split; [exact Hok|]. split; [exact Hcount|]. split; [exact Hdifficulty|].
    exact Hstyle.
Defined.


Lemma gradeAIAnswers_keeps_consistent_witness :
  App.gradeAIAnswers_try AppSamples.state (lit "u1") AppSamples.book1
    (AppSamples.chapter "ch1") [AppSamples.stored_question "g1" "ch1"] AppSamples.answers
    AppSamples.grades (lit "aif_1") (lit "2025-06-01T12:00:00.000Z") (lit "h_1")
    (lit "2025-06-01T12:00:01.000Z") AppSamples.state
  = Ok AppSamples.state_graded
  /\ consistent AppSamples.state_graded.
Proof.
  split; [vm_compute; reflexivity|].
  apply (gradeAIAnswers_keeps_consistent AppSamples.state (lit "u1") AppSamples.book1
           (AppSamples.chapter "ch1") [AppSamples.stored_question "g1" "ch1"]
           AppSamples.answers AppSamples.grades (lit "aif_1")
           (lit "2025-06-01T12:00:00.000Z") (lit "h_1") (lit "2025-06-01T12:00:01.000Z")
           AppSamples.state AppSamples.state_graded).
  - vm_compute. reflexivity.
  - repeat constructor.
  - reflexivity.
  - exact sample_consistent.
Defined.
(** ** The repository's test and the recorded runs *)

(** The assertions of the test "normalizes and filters invalid relational
    data" hold of the embedding. *)
Example data_test_passes :
  Data.normalizeUserData Samples.clock Samples.test_blob = Ok Samples.test_out
  /\ length (books_of Samples.test_out) = 1%nat
  /\ (fun x => get x "id") <$> chapters_of Samples.test_out = [Data.str "ch1"]
  /\ (fun x => get x "id") <$> qas_of Samples.test_out = [Data.str "qa1"]
  /\ selectedBookId_of Samples.test_out = Data.str "b1"
  /\ selectedChapterId_of Samples.test_out = Data.str "ch1"
  /\ get (get Samples.test_out "aiCoach") "lastConfig"
     = Data.obj [("count", of_int 15); ("difficulty", Data.str "mixed");
                 ("style", Data.str "comprehension")]
  /\ (fun x => get x "id") <$> generatedQuestions_of Samples.test_out = [Data.str "g1"]
  /\ length (draftAnswers_of Samples.test_out) = 1%nat
  /\ (fun x => get x "averageScore") <$> feedbackHistory_of Samples.test_out = [of_int 100].
Proof. vm_compute. repeat split. Qed.

(** The assertions of the test "clamps strings and integers". *)
Example utils_test_passes :
  Data.clampStr_string (lit "abcdef") 3 = lit "abc"
  /\ Data.clampStr_string [] 3 = []
  /\ Data.clampInt (Data.str "42.6") 0 100 10 = Ok 43
  /\ Data.clampInt (Data.str "999") 0 100 10 = Ok 100
  /\ Data.clampInt (Data.str "oops") 0 100 10 = Ok 10.
Proof. vm_compute. repeat split. Qed.

(** The end-to-end example of the generation endpoint: one usable question,
    given the id [q1]. *)
Example generate_example :
  (parsed ← Server.parseModelJson JSON.parse
     (JStr (Samples.quoted "{'questions':[{'question':'Why did he leave?','rubric':'mentions motivation'},{'question':''}]}"));
   Ok (Server.normalizeQuestions parsed 3))
  = Ok [{| Server.id := lit "q1"; Server.question := lit "Why did he leave?";
           Server.rubric := lit "mentions motivation" |}].
Proof. vm_compute. reflexivity. Qed.

(** Raw JSON, JSON in a fenced block with commentary around it, and JSON
    between prose all parse to the same value. *)
Example extraction_examples :
  let v := Data.obj [("a", JArr [of_int 1])] in
  Server.parseModelJson JSON.parse (JStr (Samples.quoted "{'a': [1]}")) = Ok v
  /\ Server.parseModelJson JSON.parse
       (JStr (lit "Sure! ```json" ++ [10%N] ++ Samples.quoted "{'a': [1]}" ++ [10%N]
              ++ lit "``` Hope it helps.")) = Ok v
  /\ Server.parseModelJson JSON.parse (JStr (Samples.quoted "Answer: {'a': [1]} bye")) = Ok v
  /\ Server.parseModelJson JSON.parse (Data.str "no json here") = Throw Server.bad_json.
Proof. vm_compute. repeat split. Qed.

(** The example of the grading endpoint: a well-formed result for the one
    answer of the request comes back unchanged. *)
Example grade_example :
  (parsed ← Server.parseModelJson JSON.parse
     (JStr (Samples.quoted "{'results':[{'questionId':'q1','score':85,'feedback':'Good','idealAnswer':'He wanted independence.'}]}"));
   Server.normalizeGrades parsed Samples.one_answer)
  = Ok [{| Server.questionId := lit "q1"; Server.score := 85;
           Server.feedback := lit "Good";
           Server.idealAnswer := lit "He wanted independence." |}].
Proof. vm_compute. reflexivity. Qed.

(** Deleting the only book of the sample state leaves no chapter and no AI
    artifact, clears both pointers, and logs one event. *)
Example delete_example :
  let d := App.onConfirm_deleteBook AppSamples.book1 (lit "u1") (lit "h_1")
             AppSamples.t0 AppSamples.state in
  App.books d = [] /\ App.chapters d = []
  /\ App.generatedQuestions (App.aiCoach d) = []
  /\ App.draftAnswers (App.aiCoach d) = []
  /\ App.selectedBookId (App.aiCoach d) = None
  /\ App.selectedChapterId (App.aiCoach d) = None
  /\ App.HistoryEvent.type <$> App.history d = [App.book_deleted].
Proof. vm_compute. repeat split. Qed.

(** ** Witnesses *)




Lemma generateAIQuestions_replaces_chapter_witness :
  App.generateAIQuestions_try AppSamples.uid_gq AppSamples.state (lit "u1") AppSamples.book1
    (AppSamples.chapter "ch1") AppSamples.response (lit "2025-06-01T12:00:00.000Z")
    (lit "h_1") (lit "2025-06-01T12:00:01.000Z") AppSamples.state
  = Ok AppSamples.state_after
  /\ App.AIGeneratedQuestion.id <$> App.generatedQuestions (App.aiCoach AppSamples.state_after)
     = [lit "q1"; lit "gq_0"; lit "g2"]
  /\ filter (fun a => App.AIDraftAnswer.chapterId a = lit "ch1")
            (App.draftAnswers (App.aiCoach AppSamples.state_after)) = [].
Proof.
  split; [vm_compute; reflexivity|]. split; [vm_compute; reflexivity|].
  apply (generateAIQuestions_replaces_chapter AppSamples.uid_gq AppSamples.state (lit "u1")
           AppSamples.book1 (AppSamples.chapter "ch1") AppSamples.response
           (lit "2025-06-01T12:00:00.000Z") (lit "h_1") (lit "2025-06-01T12:00:01.000Z")
           AppSamples.state AppSamples.state_after).
  vm_compute. reflexivity.
Defined.

(** ** Where the code departs from its contract *)

(** C1.  On the payload [{"questions":[{"id":"q2","question":"a"},
    {"question":"b"}]}] the second entry, which has no id, is given the
    synthetic id [q2], the id the first entry already carries: the
    synthetic id is recorded in [usedIds] but never checked against it. *)
Theorem normalizeQuestions_duplicate_id :
  JSON.parse (Samples.quoted "{'questions':[{'id':'q2','question':'a'},{'question':'b'}]}")
  = Some Samples.colliding_payload
  /\ Server.normalizeQuestions Samples.colliding_payload 6
     = [{| Server.id := lit "q2"; Server.question := lit "a"; Server.rubric := [] |};
        {| Server.id := lit "q2"; Server.question := lit "b"; Server.rubric := [] |}]
  /\ ~ NoDup (Server.id <$> Server.normalizeQuestions Samples.colliding_payload 6).
Proof.
  split; [vm_compute; reflexivity|]. split; [vm_compute; reflexivity|].
  intros H. vm_compute in H. apply NoDup_cons in H as [H _]. apply H. left.
Qed.

(** C2.  A stored question whose text is 500 spaces followed by a letter is
    kept by a first run, which cuts its text to the 500 spaces, and dropped
    by a second run on the result, which finds the text blank: the second
    run does not return what it was given. *)
Theorem normalizeUserData_second_run_differs :
  exists once twice,
    Data.normalizeUserData Samples.clock Samples.padded_blob = Ok once
    /\ Data.normalizeUserData Samples.clock once = Ok twice
    /\ (fun q => get q "question") <$> generatedQuestions_of once = [JStr (repeat 32%N 500)]
    /\ generatedQuestions_of twice = []
    /\ once <> twice.
Proof.
  eexists. eexists. split; [vm_compute; reflexivity|]. split; [vm_compute; reflexivity|].
  split; [vm_compute; reflexivity|]. split; [vm_compute; reflexivity|].
  intros H. apply (f_equal (fun v => length (generatedQuestions_of v))) in H.
  vm_compute in H. discriminate.
Qed.

(** C3.  A [null] entry in the stored [books], [chapters] or [qas] makes
    the run throw a TypeError: these three arrays are read without the
    [!!entry] guard that the history and the AI arrays have. *)
Theorem normalizeUserData_throws_on_null_entry :
  forall (nowISO : jsstring),
    Data.normalizeUserData nowISO (Data.obj [("books", JArr [JNull])]) = Throw TypeError
    /\ Data.normalizeUserData nowISO (Data.obj [("chapters", JArr [JNull])]) = Throw TypeError
    /\ Data.normalizeUserData nowISO (Data.obj [("qas", JArr [JNull])]) = Throw TypeError
    /\ JSON.parse (Samples.quoted "{'books':[null]}") = Some (Data.obj [("books", JArr [JNull])]).
Proof. intros nowISO. repeat split; vm_compute; reflexivity. Qed.


(** C7 as stated fails on a valid JSON text of 25002 code units: the text
    parses as it is, but the gateway parses its first 25000 code units,
    finds no other candidate, and fails. *)
Lemma parseModelJson_long_text_rejected :
  length Samples.long_json = 25002%nat
  /\ JSON.parse Samples.long_json = Some (JArr [])
  /\ Server.parseModelJson JSON.parse (JStr Samples.long_json) = Throw Server.bad_json.
Proof. repeat split; vm_compute; reflexivity. Qed.
